(** * School management backend: authentication and role authorization

    A shallow embedding of [backend/models.py] and of the authentication,
    user-management and settings routes of [backend/server.py].

    Documents of the MongoDB collections are finite maps from field names
    to BSON values, a collection is the list of its documents in natural
    order, and a route handler is a computation in a state-and-exception
    monad over the collections, which also records the calls made to the
    database and to the [auth] helper module. *)

From Stdlib Require Import ZArith.
From stdpp Require Import gmap strings list fin_maps.

Open Scope string_scope.

#[local] Set Warnings "-register-all".

(** ** Values and documents *)

(** [datetime] objects; the code only builds them with
    [datetime.now(timezone.utc)] and [datetime.fromisoformat], so a POSIX
    timestamp in microseconds identifies one. *)
Record datetime := Datetime { posix_us : Z }.

#[global] Instance datetime_eq_dec : EqDecision datetime.
Proof. solve_decision. Defined.

(** The values a document field or a keyword argument holds. The user
    and settings documents the routes write are flat, so arrays and
    embedded documents are left out. *)
Inductive value :=
| VNone
| VBool (b : bool)
| VInt (z : Z)
| VStr (s : string)
| VDatetime (d : datetime)
| VObjectId (oid : string).

#[global] Instance value_eq_dec : EqDecision value.
Proof. solve_decision. Defined.

(** A document, a filter, a [$set] payload and a [**kwargs] dictionary
    are all dictionaries with string keys. *)
Abbreviation doc := (gmap string value).

(** Python truthiness, as [if x] and [not x] test it. *)
Definition truthy (v : value) : bool :=
  match v with
  | VNone => false
  | VBool b => b
  | VInt z => negb (Z.eqb z 0)
  | VStr s => negb (String.eqb s "")
  | VDatetime _ => true
  | VObjectId _ => true
  end.

(** [d.get(k)]: a missing key reads as [None]. *)
Definition dict_get (d : doc) (k : string) : value :=
  default VNone (d !! k).

(** [d.get(k, dflt)]. *)
Definition dict_get_default (d : doc) (k : string) (dflt : value) : value :=
  default dflt (d !! k).

(** Truthiness of a dictionary: the empty one is falsy. *)
Definition dict_truthy (d : doc) : bool :=
  negb (bool_decide (d = ∅)).

(** Truthiness of the result of [find_one], which is a dictionary or
    [None]. *)
Definition found_truthy (r : option doc) : bool :=
  match r with
  | None => false
  | Some d => dict_truthy d
  end.

(** ** [models.py] *)

Inductive UserRole :=
| ADMIN | TEACHER | STUDENT | PARENT | ACCOUNTANT | LIBRARIAN | RECEPTIONIST.

#[global] Instance UserRole_eq_dec : EqDecision UserRole.
Proof. solve_decision. Defined.

(** The string value of each member of the [str] enumeration. *)
Definition UserRole_value (r : UserRole) : string :=
  match r with
  | ADMIN => "admin"
  | TEACHER => "teacher"
  | STUDENT => "student"
  | PARENT => "parent"
  | ACCOUNTANT => "accountant"
  | LIBRARIAN => "librarian"
  | RECEPTIONIST => "receptionist"
  end.

Definition all_roles : list UserRole :=
  [ADMIN; TEACHER; STUDENT; PARENT; ACCOUNTANT; LIBRARIAN; RECEPTIONIST].

(** [UserRole(s)]: the member whose value is [s], if any. *)
Definition UserRole_of_string (s : string) : option UserRole :=
  List.find (fun r => String.eqb (UserRole_value r) s) all_roles.

(** ** Exceptions, effects and the request monad *)

(** What a handler can raise: the [HTTPException]s the routes build, and
    the exceptions of the libraries, which the framework turns into a
    server error. [WriteError] is the driver's exception for an update the
    server refuses, [OverflowError] its exception for an integer that does
    not fit the 64 bits of BSON. [NotModelled] is raised by no code: it
    marks a call whose effect the flat documents of this development
    cannot describe, and a computation that ends with it says nothing
    about the program. *)
Inductive exn :=
| HTTPException (status_code : Z) (detail : string)
| ValidationError
| ValueError
| KeyError (key : string)
| TypeError
| AttributeError
| WriteError
| OverflowError
| NotModelled (what : string).

#[global] Instance exn_eq_dec : EqDecision exn.
Proof. solve_decision. Defined.

Inductive result (A : Type) :=
| Ok (a : A)
| Raise (e : exn).
Arguments Ok {A} a.
Arguments Raise {A} e.

#[global] Instance result_eq_dec {A} `{EqDecision A} : EqDecision (result A).
Proof. solve_decision. Defined.

Inductive collection := users | settings.

#[global] Instance collection_eq_dec : EqDecision collection.
Proof. solve_decision. Defined.

(** The calls a handler makes to its collaborators, in program order. *)
Inductive event :=
| db_find_one (c : collection) (filter : doc)
| db_find (c : collection) (filter : doc)
| db_insert_one (c : collection) (d : doc)
| db_update_one (c : collection) (filter set : doc)
| db_delete_one (c : collection) (filter : doc)
| db_delete_many (c : collection) (filter : doc)
| call_get_password_hash (password : string)
| call_verify_password (password : string) (hashed : value)
| call_create_access_token (data : doc)
| call_decode_access_token (token : string).

(** The database [db] and the trace of calls made so far. *)
Record world := World {
  db_users : list doc;
  db_settings : list doc;
  trace : list event
}.

Definition M (A : Type) : Type := world -> result A * world.

Definition ret {A} (a : A) : M A := fun w => (Ok a, w).

Definition raise {A} (e : exn) : M A := fun w => (Raise e, w).

Definition bind {A B} (m : M A) (k : A -> M B) : M B :=
  fun w =>
    match m w with
    | (Ok a, w') => k a w'
    | (Raise e, w') => (Raise e, w')
    end.

Notation "'let*' x ':=' m 'in' k" := (bind m (fun x => k))
  (at level 10, x name, m at level 100, k at level 200,
   format "'[v' 'let*'  x  ':='  m  'in' '/' k ']'").
Notation "m ';;' k" := (bind m (fun _ => k))
  (at level 100, k at level 200, right associativity).

(** A computation that may raise but does not touch the world. *)
Definition pure {A} (r : result A) : M A := fun w => (r, w).

Definition result_bind {A B} (r : result A) (k : A -> result B) : result B :=
  match r with
  | Ok a => k a
  | Raise e => Raise e
  end.

(** A library call that returns nothing where the library raises [e]. *)
Definition or_raise {A} (e : exn) (o : option A) : result A :=
  match o with
  | Some a => Ok a
  | None => Raise e
  end.

Definition lift {A} (e : exn) (o : option A) : M A :=
  pure (or_raise e o).

(** The world after one more call. *)
Definition logged (e : event) (w : world) : world :=
  World (db_users w) (db_settings w) (trace w ++ [e]).

Definition emit (e : event) : M unit :=
  fun w => (Ok tt, logged e w).

Definition documents (c : collection) (w : world) : list doc :=
  match c with
  | users => db_users w
  | settings => db_settings w
  end.

Definition get_collection (c : collection) : M (list doc) :=
  fun w => (Ok (documents c w), w).

Definition put_collection (c : collection) (l : list doc) : M unit :=
  fun w =>
    (Ok tt,
     match c with
     | users => World l (db_settings w) (trace w)
     | settings => World (db_users w) l (trace w)
     end).

(** Result, resulting world. *)
Definition outcome {A} (r : result A * world) : result A := fst r.
Definition final {A} (r : result A * world) : world := snd r.

(** A computation that leaves both collections as they were. *)
Definition preserves_db {A} (m : M A) : Prop :=
  forall w, db_users (final (m w)) = db_users w
            /\ db_settings (final (m w)) = db_settings w.

(** ** The document store

    Filters are equality filters on top-level fields and projections are
    exclusions: this is all the routes use. The filters and the inserted
    documents are built by the routes from validated models, so their
    keys are field names and their values are strings, booleans and
    dates. The payload of [$set] is the one dictionary that comes from a
    request as it is: there a key can be a dotted path, and an integer can
    be too large for BSON. *)

(** [{k: v}] matches a document whose field [k] equals [v]; a [null]
    query value also matches a document without the field. *)
Definition field_matches (d : doc) (k : string) (v : value) : bool :=
  match d !! k with
  | Some x => bool_decide (x = v)
  | None => bool_decide (v = VNone)
  end.

Definition matches (filter d : doc) : bool :=
  forallb (fun kv => field_matches d (fst kv) (snd kv)) (map_to_list filter).

(** A projection [{k1: 0, ..., kn: 0}]. *)
Definition project (excluded : list string) (d : doc) : doc :=
  foldr delete d excluded.

Definition find_one (c : collection) (filter : doc) (excluded : list string)
  : M (option doc) :=
  emit (db_find_one c filter);;
  let* l := get_collection c in
  ret (project excluded <$> List.find (matches filter) l).

(** [find(filter, projection).to_list(n)]. *)
Definition find_to_list (c : collection) (filter : doc) (excluded : list string)
    (n : nat) : M (list doc) :=
  emit (db_find c filter);;
  let* l := get_collection c in
  ret (take n (project excluded <$> List.filter (matches filter) l)).

(** [insert_one]: the store gives the document its [_id]. *)
Definition insert_one (c : collection) (oid : string) (d : doc) : M unit :=
  emit (db_insert_one c d);;
  let* l := get_collection c in
  put_collection c (l ++ [<["_id" := VObjectId oid]> d]).

Fixpoint string_forallb (p : Ascii.ascii -> bool) (s : string) : bool :=
  match s with
  | EmptyString => true
  | String a s' => p a && string_forallb p s'
  end.

(** A key of a [$set] document that names one top-level field: it is not
    empty, does not start with a dollar sign, and holds neither a dot (a
    dotted key is a path into an embedded document) nor a NUL (which no
    BSON key can hold). *)
Definition field_name (k : string) : bool :=
  negb (String.eqb k "")
  && negb (String.prefix "$" k)
  && string_forallb
       (fun a => negb (String.eqb (String a "") ".") && negb (Ascii.eqb a Ascii.zero)) k.

(** The values the driver can encode: an integer must fit 64 bits. *)
Definition encodable (v : value) : bool :=
  match v with
  | VInt z => (- 2 ^ 63 <=? z)%Z && (z <? 2 ^ 63)%Z
  | _ => true
  end.

(** A [$set] document all of whose keys name fields, and one all of whose
    values can be encoded. *)
Definition sets_fields (set : doc) : bool :=
  forallb (fun kv : string * value => field_name (fst kv)) (map_to_list set).

Definition encodes (set : doc) : bool :=
  forallb (fun kv : string * value => encodable (snd kv)) (map_to_list set).

(** [$set] with field names on one document: the fields of [set] are
    assigned and the others kept. The field [_id] is immutable: a [set]
    that gives it another value than the stored one is refused. *)
Definition set_fields (set d : doc) : result doc :=
  match set !! "_id" with
  | Some v =>
      if bool_decide (d !! "_id" = Some v) then Ok (set ∪ d) else Raise WriteError
  | None => Ok (set ∪ d)
  end.

(** [$set] on the first matching document; [None] when none matches. *)
Fixpoint set_first (filter set : doc) (l : list doc) : result (option (list doc)) :=
  match l with
  | [] => Ok None
  | d :: l' =>
      if matches filter d then
        result_bind (set_fields set d) (fun d' => Ok (Some (d' :: l')))
      else
        result_bind (set_first filter set l') (fun r => Ok (cons d <$> r))
  end.

(** [update_one(filter, {"$set": set})], returning [matched_count]. The
    driver encodes the update before it sends it, so an integer that does
    not fit raises whatever is stored; the server then applies the update
    to the first matching document, or refuses it, and a refused update
    writes nothing. An update with a key that is not a field name is not
    modelled: it can create an embedded document. *)
Definition update_one (c : collection) (filter set : doc) : M nat :=
  emit (db_update_one c filter set);;
  if negb (sets_fields set) then raise (NotModelled "update path")
  else if negb (encodes set) then raise OverflowError
  else
    let* l := get_collection c in
    let* updated := pure (set_first filter set l) in
    match updated with
    | Some l' => put_collection c l';; ret 1
    | None => ret 0
    end.

Fixpoint remove_first (filter : doc) (l : list doc) : option (list doc) :=
  match l with
  | [] => None
  | d :: l' =>
      if matches filter d then Some l'
      else cons d <$> remove_first filter l'
  end.

(** [delete_one(filter)], returning [deleted_count]. *)
Definition delete_one (c : collection) (filter : doc) : M nat :=
  emit (db_delete_one c filter);;
  let* l := get_collection c in
  match remove_first filter l with
  | Some l' => put_collection c l';; ret 1
  | None => ret 0
  end.

Definition delete_many (c : collection) (filter : doc) : M unit :=
  emit (db_delete_many c filter);;
  let* l := get_collection c in
  put_collection c (List.filter (fun d => negb (matches filter d)) l).

(** ** The user models of [models.py]

    [UserBase], [UserCreate], [UserLogin], [User], [UserInDB], [Token],
    [SettingsBase] and [Settings]. A subclass is the record of its parent together with the
    fields it adds. *)

Module UserBase.
Record t := Build {
  username : string;
  email : string;
  name : string;
  role : UserRole;
  phone : option string;
  address : option string;
  photo : option string;
  is_active : bool
}.
End UserBase.

Module UserCreate.
Record t := Build {
  base : UserBase.t;
  password : string
}.
End UserCreate.

Module UserLogin.
Record t := Build {
  username : string;
  password : string
}.
End UserLogin.

Module User.
Record t := Build {
  base : UserBase.t;
  id : string;
  created_at : datetime;
  updated_at : datetime
}.
Definition username (u : t) := UserBase.username (base u).
Definition email (u : t) := UserBase.email (base u).
Definition name (u : t) := UserBase.name (base u).
Definition role (u : t) := UserBase.role (base u).
Definition is_active (u : t) := UserBase.is_active (base u).
End User.

Module UserInDB.
Record t := Build {
  user : User.t;
  password_hash : string
}.
End UserInDB.

Module Token.
Record t := Build {
  access_token : string;
  token_type : string;
  user : User.t
}.
End Token.

Module SettingsBase.
Record t := Build {
  school_name : string;
  school_code : option string;
  address : option string;
  phone : option string;
  email : option string;
  website : option string;
  logo : option string;
  currency : string;
  currency_symbol : string;
  timezone : string;
  language : string;
  date_format : string;
  time_format : string
}.
End SettingsBase.

Module Settings.
Record t := Build {
  base : SettingsBase.t;
  id : string;
  updated_at : datetime
}.
Definition school_name (x : t) := SettingsBase.school_name (base x).
End Settings.

(** What the default factories of one [User] construction return when
    they run: [uuid.uuid4()] for [id], and the clock for [created_at] and
    for [updated_at]. A factory runs only for a field the keyword
    arguments lack. *)
Record defaults := Defaults {
  default_id : string;
  default_created_at : datetime;
  default_updated_at : datetime
}.

(** The random and time-dependent inputs of one request, indexed by the
    place in the request at which they are asked for: [uuid4 rt k] is what
    [uuid.uuid4()] returns at the [k]-th place that can call it, and
    [utcnow rt n] what [datetime.now(timezone.utc)] returns at the [n]-th
    place that can read the clock, whether or not the places before it
    did; [new_object_id] is the [ObjectId] the store gives to an inserted
    document. The entries are independent inputs: nothing relates the
    value at one place to the value at another. *)
Record runtime := Runtime {
  uuid4 : nat -> string;
  utcnow : nat -> datetime;
  new_object_id : string
}.

(** The places of the default factories of the [k]-th model a handler
    builds, when the handler itself has [n] places that read the clock
    before it: one for [id], two for the timestamps. *)
Definition factories (rt : runtime) (n k : nat) : defaults :=
  Defaults (uuid4 rt k) (utcnow rt (n + 2 * k)) (utcnow rt (n + 2 * k + 1)).

(** ** Collaborators outside this file *)

(** The module [auth], which [server.py] imports: password hashing and
    the token codec. A decoded payload is a dictionary of claims, and
    [decode_access_token] returns [None] for a token it rejects. *)
Class Auth := {
  get_password_hash : string -> string;
  verify_password : string -> string -> bool;
  create_access_token : doc -> string;
  decode_access_token : string -> option doc
}.

(** The library functions the models rely on: [datetime.isoformat] and
    [datetime.fromisoformat] ([None] for [ValueError]), the validation and
    normalisation of an [EmailStr], and the coercion pydantic applies to
    a value that is not already a [datetime]. *)
Class Library := {
  isoformat : datetime -> string;
  fromisoformat : string -> option datetime;
  validate_email : string -> option string;
  coerce_datetime : value -> option datetime;
  (** what [HTTPBearer()] raises for a request without bearer
      credentials *)
  not_authenticated : exn
}.

(** ** Validation of keyword arguments against a model

    A model called on a dictionary of keyword arguments, as in
    [User( **user)]: required fields must be present, every field must
    have a value of its type (in pydantic's default, lax mode), missing
    fields take their default, and with [extra="ignore"] all other keys
    are dropped. [None] stands for [ValidationError]. *)

Definition validate_str (v : value) : option string :=
  match v with
  | VStr s => Some s
  | _ => None
  end.

Definition validate_optional_str (o : option value) : option (option string) :=
  match o with
  | None => Some None
  | Some VNone => Some None
  | Some (VStr s) => Some (Some s)
  | Some _ => None
  end.

Definition lowercase_ascii (a : Ascii.ascii) : Ascii.ascii :=
  let n := Ascii.nat_of_ascii a in
  if (65 <=? n)%nat && (n <=? 90)%nat then Ascii.ascii_of_nat (n + 32) else a.

Fixpoint lowercase (s : string) : string :=
  match s with
  | EmptyString => EmptyString
  | String a s' => String (lowercase_ascii a) (lowercase s')
  end.

(** The strings, integers and booleans that lax mode accepts for a
    [bool]. *)
Definition validate_bool (v : value) : option bool :=
  match v with
  | VBool b => Some b
  | VInt 0 => Some false
  | VInt 1 => Some true
  | VStr s =>
      let l := lowercase s in
      if bool_decide (l ∈ ["1"; "on"; "t"; "true"; "y"; "yes"]) then Some true
      else if bool_decide (l ∈ ["0"; "off"; "f"; "false"; "n"; "no"]) then Some false
      else None
  | _ => None
  end.

Definition validate_UserRole (v : value) : option UserRole :=
  match v with
  | VStr s => UserRole_of_string s
  | _ => None
  end.

Section Models.
Context `{Library}.

Definition validate_EmailStr (v : value) : option string :=
  match v with
  | VStr s => validate_email s
  | _ => None
  end.

Definition validate_datetime (v : value) : option datetime :=
  match v with
  | VDatetime d => Some d
  | _ => coerce_datetime v
  end.

Definition UserBase_validate (kw : doc) : option UserBase.t :=
  username ← kw !! "username" ≫= validate_str;
  email ← kw !! "email" ≫= validate_EmailStr;
  name ← kw !! "name" ≫= validate_str;
  role ← kw !! "role" ≫= validate_UserRole;
  phone ← validate_optional_str (kw !! "phone");
  address ← validate_optional_str (kw !! "address");
  photo ← validate_optional_str (kw !! "photo");
  is_active ← from_option validate_bool (Some true) (kw !! "is_active");
  Some (UserBase.Build username email name role phone address photo is_active).

Definition User_validate (dflt : defaults) (kw : doc) : option User.t :=
  base ← UserBase_validate kw;
  id ← from_option validate_str (Some (default_id dflt)) (kw !! "id");
  created_at ←
    from_option validate_datetime (Some (default_created_at dflt)) (kw !! "created_at");
  updated_at ←
    from_option validate_datetime (Some (default_updated_at dflt)) (kw !! "updated_at");
  Some (User.Build base id created_at updated_at).

(** [model_dump()]: the dictionary of the model's fields. *)
Definition optional_str_value (o : option string) : value :=
  match o with
  | Some s => VStr s
  | None => VNone
  end.

Definition UserBase_model_dump (b : UserBase.t) : doc :=
  list_to_map
    [("username", VStr (UserBase.username b));
     ("email", VStr (UserBase.email b));
     ("name", VStr (UserBase.name b));
     ("role", VStr (UserRole_value (UserBase.role b)));
     ("phone", optional_str_value (UserBase.phone b));
     ("address", optional_str_value (UserBase.address b));
     ("photo", optional_str_value (UserBase.photo b));
     ("is_active", VBool (UserBase.is_active b))].

Definition User_model_dump (u : User.t) : doc :=
  <["updated_at" := VDatetime (User.updated_at u)]>
    (<["created_at" := VDatetime (User.created_at u)]>
       (<["id" := VStr (User.id u)]> (UserBase_model_dump (User.base u)))).

Definition UserInDB_model_dump (u : UserInDB.t) : doc :=
  <["password_hash" := VStr (UserInDB.password_hash u)]>
    (User_model_dump (UserInDB.user u)).

Definition validate_optional_EmailStr (o : option value) : option (option string) :=
  match o with
  | None => Some None
  | Some VNone => Some None
  | Some (VStr s) => Some <$> validate_email s
  | Some _ => None
  end.

Definition SettingsBase_validate (kw : doc) : option SettingsBase.t :=
  school_name ← kw !! "school_name" ≫= validate_str;
  school_code ← validate_optional_str (kw !! "school_code");
  address ← validate_optional_str (kw !! "address");
  phone ← validate_optional_str (kw !! "phone");
  email ← validate_optional_EmailStr (kw !! "email");
  website ← validate_optional_str (kw !! "website");
  logo ← validate_optional_str (kw !! "logo");
  currency ← from_option validate_str (Some "USD") (kw !! "currency");
  currency_symbol ← from_option validate_str (Some "$") (kw !! "currency_symbol");
  timezone ← from_option validate_str (Some "UTC") (kw !! "timezone");
  language ← from_option validate_str (Some "en") (kw !! "language");
  date_format ← from_option validate_str (Some "YYYY-MM-DD") (kw !! "date_format");
  time_format ← from_option validate_str (Some "HH:mm") (kw !! "time_format");
  Some (SettingsBase.Build school_name school_code address phone email website logo
          currency currency_symbol timezone language date_format time_format).

(** [Settings] has the default factories of [id] and [updated_at], which
    return [fresh_id] and [now]. *)
Definition Settings_validate (fresh_id : string) (now : datetime) (kw : doc)
  : option Settings.t :=
  base ← SettingsBase_validate kw;
  id ← from_option validate_str (Some fresh_id) (kw !! "id");
  updated_at ← from_option validate_datetime (Some now) (kw !! "updated_at");
  Some (Settings.Build base id updated_at).

Definition SettingsBase_model_dump (b : SettingsBase.t) : doc :=
  list_to_map
    [("school_name", VStr (SettingsBase.school_name b));
     ("school_code", optional_str_value (SettingsBase.school_code b));
     ("address", optional_str_value (SettingsBase.address b));
     ("phone", optional_str_value (SettingsBase.phone b));
     ("email", optional_str_value (SettingsBase.email b));
     ("website", optional_str_value (SettingsBase.website b));
     ("logo", optional_str_value (SettingsBase.logo b));
     ("currency", VStr (SettingsBase.currency b));
     ("currency_symbol", VStr (SettingsBase.currency_symbol b));
     ("timezone", VStr (SettingsBase.timezone b));
     ("language", VStr (SettingsBase.language b));
     ("date_format", VStr (SettingsBase.date_format b));
     ("time_format", VStr (SettingsBase.time_format b))].

Definition Settings_model_dump (x : Settings.t) : doc :=
  <["updated_at" := VDatetime (Settings.updated_at x)]>
    (<["id" := VStr (Settings.id x)]> (SettingsBase_model_dump (Settings.base x))).

End Models.

(** ** [server.py]: authentication helpers and routes *)

Fixpoint mapM {A B} (f : A -> M B) (l : list A) : M (list B) :=
  match l with
  | [] => ret []
  | a :: l' =>
      let* b := f a in
      let* bs := mapM f l' in
      ret (b :: bs)
  end.

Section Server.
Context `{Auth} `{Library}.

(** The constants of [fastapi.status] the routes name. *)
Definition HTTP_401_UNAUTHORIZED : Z := 401.
Definition HTTP_403_FORBIDDEN : Z := 403.

(** The calls into [auth], recorded in the trace. *)
Definition do_get_password_hash (password : string) : M string :=
  emit (call_get_password_hash password);;
  ret (get_password_hash password).

(** A stored hash that is not a string makes the hasher raise. *)
Definition do_verify_password (password : string) (hashed : value) : M bool :=
  emit (call_verify_password password hashed);;
  match hashed with
  | VStr h => ret (verify_password password h)
  | _ => raise TypeError
  end.

Definition do_create_access_token (data : doc) : M string :=
  emit (call_create_access_token data);;
  ret (create_access_token data).

Definition do_decode_access_token (token : string) : M (option doc) :=
  emit (call_decode_access_token token);;
  ret (decode_access_token token).

(** [d[k]]. *)
Definition dict_item (d : doc) (k : string) : M value :=
  lift (KeyError k) (d !! k).

(** [if isinstance(d.get(k), str): d[k] = datetime.fromisoformat(d[k])]. *)
Definition convert_timestamp (k : string) (d : doc) : result doc :=
  match dict_get d k with
  | VStr s =>
      result_bind (or_raise ValueError (fromisoformat s))
        (fun t => Ok (<[k := VDatetime t]> d))
  | _ => Ok d
  end.

(** The two conversions every user route applies to a document it has
    read. *)
Definition convert_timestamps (d : doc) : result doc :=
  result_bind (convert_timestamp "created_at" d) (convert_timestamp "updated_at").

Definition User_of (dflt : defaults) (kw : doc) : result User.t :=
  or_raise ValidationError (User_validate dflt kw).

(** The conversions followed by [User( **user)], the common tail of the
    routes that return a stored user. *)
Definition load_User (dflt : defaults) (user : doc) : result User.t :=
  result_bind (convert_timestamps user) (User_of dflt).

(** *** Authentication helper functions *)

(** [get_current_user], on the token string of the bearer
    credentials. *)
Definition get_current_user (rt : runtime) (token : string) : M User.t :=
  let* payload := do_decode_access_token token in
  match payload with
  | None =>
      raise (HTTPException HTTP_401_UNAUTHORIZED "Invalid authentication credentials")
  | Some payload =>
      let username := dict_get payload "sub" in
      if bool_decide (username = VNone) then
        raise (HTTPException HTTP_401_UNAUTHORIZED "Invalid authentication credentials")
      else
        let* user :=
          find_one users {["username" := username]} ["_id"; "password_hash"] in
        match user with
        | None => raise (HTTPException HTTP_401_UNAUTHORIZED "User not found")
        | Some user => pure (load_User (factories rt 0 0) user)
        end
  end.

(** [require_role(allowed_roles)] is the checker [role_checker], which
    receives the user that [get_current_user] resolved. *)
Definition require_role (allowed_roles : list UserRole)
    (current_user : User.t) : M User.t :=
  if bool_decide (User.role current_user ∉ allowed_roles) then
    raise (HTTPException HTTP_403_FORBIDDEN "Not enough permissions")
  else ret current_user.

(** *** Authentication routes *)

(** [register]. The fields of [user_create] were validated with the
    request, so [UserInDB] and [User] accept them as they are; only [id]
    and the two timestamps come from the default factories. *)
Definition register (rt : runtime) (user_create : UserCreate.t) : M User.t :=
  let base := UserCreate.base user_create in
  let* existing_user :=
    find_one users {["username" := VStr (UserBase.username base)]} [] in
  if found_truthy existing_user then
    raise (HTTPException 400 "Username already registered")
  else
    let* existing_email :=
      find_one users {["email" := VStr (UserBase.email base)]} [] in
    if found_truthy existing_email then
      raise (HTTPException 400 "Email already registered")
    else
      let* password_hash :=
        do_get_password_hash (UserCreate.password user_create) in
      let dflt := factories rt 0 0 in
      let user_obj :=
        UserInDB.Build
          (User.Build base (default_id dflt) (default_created_at dflt)
             (default_updated_at dflt))
          password_hash in
      let d := UserInDB_model_dump user_obj in
      let d := <["created_at" := VStr (isoformat (default_created_at dflt))]> d in
      let d := <["updated_at" := VStr (isoformat (default_updated_at dflt))]> d in
      insert_one users (new_object_id rt) d;;
      ret (UserInDB.user user_obj).

(** [login]. [rejected] is the condition
    [not user_doc or not verify_password(...)], whose second operand is
    evaluated only when a document was found. *)
Definition login (rt : runtime) (user_login : UserLogin.t) : M Token.t :=
  let* user_doc :=
    find_one users {["username" := VStr (UserLogin.username user_login)]} ["_id"] in
  let* rejected :=
    match user_doc with
    | None => ret true
    | Some d =>
        if negb (dict_truthy d) then ret true
        else
          let* hashed := dict_item d "password_hash" in
          let* ok := do_verify_password (UserLogin.password user_login) hashed in
          ret (negb ok)
    end in
  match rejected, user_doc with
  | false, Some user_doc =>
      if negb (truthy (dict_get_default user_doc "is_active" (VBool true))) then
        raise (HTTPException HTTP_403_FORBIDDEN "User account is inactive")
      else
        let* sub := dict_item user_doc "username" in
        let* access_token := do_create_access_token {["sub" := sub]} in
        let* user_doc := pure (convert_timestamps user_doc) in
        let* user :=
          pure (User_of (factories rt 0 0) (delete "password_hash" user_doc)) in
        ret (Token.Build access_token "bearer" user)
  | _, _ =>
      raise (HTTPException HTTP_401_UNAUTHORIZED "Incorrect username or password")
  end.

Definition get_me (current_user : User.t) : M User.t :=
  ret current_user.

(** *** User management routes *)

(** [get_users]; [current_user] has passed [require_role([ADMIN])]. *)
Definition get_users (rt : runtime) (role : option UserRole)
    (current_user : User.t) : M (list User.t) :=
  let query : doc :=
    match role with
    | Some r => {["role" := VStr (UserRole_value r)]}
    | None => ∅
    end in
  let* found := find_to_list users query ["_id"; "password_hash"] 1000 in
  let* found := mapM (fun user => pure (convert_timestamps user)) found in
  mapM (fun ku => pure (User_of (factories rt 0 (fst ku)) (snd ku)))
    (imap (fun k user => (k, user)) found).

Definition get_user (rt : runtime) (user_id : string)
    (current_user : User.t) : M User.t :=
  let* user :=
    find_one users {["id" := VStr user_id]} ["_id"; "password_hash"] in
  match user with
  | Some user =>
      if dict_truthy user then pure (load_User (factories rt 0 0) user)
      else raise (HTTPException 404 "User not found")
  | None => raise (HTTPException 404 "User not found")
  end.

Definition update_user (rt : runtime) (user_id : string) (updates : doc)
    (current_user : User.t) : M User.t :=
  if bool_decide (User.id current_user ≠ user_id)
     && bool_decide (User.role current_user ≠ ADMIN) then
    raise (HTTPException 403 "Not enough permissions")
  else
    let updates :=
      if bool_decide (is_Some (updates !! "password")) then delete "password" updates
      else updates in
    let updates := <["updated_at" := VStr (isoformat (utcnow rt 0))]> updates in
    let* matched_count := update_one users {["id" := VStr user_id]} updates in
    if Nat.eqb matched_count 0 then
      raise (HTTPException 404 "User not found")
    else
      let* user :=
        find_one users {["id" := VStr user_id]} ["_id"; "password_hash"] in
      match user with
      | None => raise AttributeError
      | Some user => pure (load_User (factories rt 1 0) user)
      end.

(** [delete_user]; [current_user] has passed [require_role([ADMIN])]. *)
Definition delete_user (user_id : string) (current_user : User.t) : M string :=
  let* deleted_count := delete_one users {["id" := VStr user_id]} in
  if Nat.eqb deleted_count 0 then
    raise (HTTPException 404 "User not found")
  else ret "User deleted successfully".

(** *** Settings routes *)

(** [create_settings]; [current_user] has passed
    [require_role([ADMIN])]. *)
Definition create_settings (rt : runtime) (settings_create : SettingsBase.t)
    (current_user : User.t) : M Settings.t :=
  delete_many settings ∅;;
  let settings_obj :=
    Settings.Build settings_create (uuid4 rt 0) (utcnow rt 0) in
  let d := Settings_model_dump settings_obj in
  let d := <["updated_at" := VStr (isoformat (utcnow rt 0))]> d in
  insert_one settings (new_object_id rt) d;;
  ret settings_obj.

(** [get_settings] has no parameter: the route declares no dependency. *)
Definition get_settings (rt : runtime) : M Settings.t :=
  let* found := find_one settings ∅ ["_id"] in
  if negb (found_truthy found) then
    lift ValidationError
      (Settings_validate (uuid4 rt 0) (utcnow rt 0)
         {["school_name" := VStr "School Management System"]})
  else
    match found with
    | Some d =>
        let* d := pure (convert_timestamp "updated_at" d) in
        lift ValidationError (Settings_validate (uuid4 rt 0) (utcnow rt 0) d)
    | None => raise AttributeError
    end.

(** *** The application

    A request names a route and carries the parameters of its path,
    query and body; the bearer credentials of the [Authorization] header
    come beside it. Each route first resolves the dependencies its
    signature declares; the places of the handler come after the three
    of [get_current_user], used or not. *)

Inductive request :=
| POST_auth_register (user_create : UserCreate.t)
| POST_auth_login (user_login : UserLogin.t)
| GET_auth_me
| GET_users (role : option UserRole)
| GET_users_id (user_id : string)
| PUT_users_id (user_id : string) (updates : doc)
| DELETE_users_id (user_id : string)
| POST_settings (settings_create : SettingsBase.t)
| GET_settings.

Inductive response :=
| UserResponse (u : User.t)
| UserListResponse (l : list User.t)
| TokenResponse (t : Token.t)
| SettingsResponse (x : Settings.t)
| MessageResponse (message : string).

(** [security = HTTPBearer()]. *)
Definition security (credentials : option string) : M string :=
  lift not_authenticated credentials.

(** The places of a handler that runs behind a dependency with [n]
    places for the clock and [k] places for a UUID. *)
Definition advance (n k : nat) (rt : runtime) : runtime :=
  Runtime (fun i => uuid4 rt (k + i)) (fun i => utcnow rt (n + i)) (new_object_id rt).

(** [Depends(get_current_user)]. *)
Definition Depends_get_current_user (rt : runtime) (credentials : option string)
  : M User.t :=
  let* token := security credentials in
  get_current_user rt token.

(** [Depends(require_role(allowed_roles))]. *)
Definition Depends_require_role (allowed_roles : list UserRole) (rt : runtime)
    (credentials : option string) : M User.t :=
  let* current_user := Depends_get_current_user rt credentials in
  require_role allowed_roles current_user.

Definition app (rt : runtime) (credentials : option string) (req : request)
  : M response :=
  let rt' := advance 2 1 rt in
  match req with
  | POST_auth_register user_create =>
      let* u := register rt user_create in
      ret (UserResponse u)
  | POST_auth_login user_login =>
      let* t := login rt user_login in
      ret (TokenResponse t)
  | GET_auth_me =>
      let* current_user := Depends_get_current_user rt credentials in
      let* u := get_me current_user in
      ret (UserResponse u)
  | GET_users role =>
      let* current_user := Depends_require_role [ADMIN] rt credentials in
      let* l := get_users rt' role current_user in
      ret (UserListResponse l)
  | GET_users_id user_id =>
      let* current_user := Depends_get_current_user rt credentials in
      let* u := get_user rt' user_id current_user in
      ret (UserResponse u)
  | PUT_users_id user_id updates =>
      let* current_user := Depends_get_current_user rt credentials in
      let* u := update_user rt' user_id updates current_user in
      ret (UserResponse u)
  | DELETE_users_id user_id =>
      let* current_user := Depends_require_role [ADMIN] rt credentials in
      let* m := delete_user user_id current_user in
      ret (MessageResponse m)
  | POST_settings settings_create =>
      let* current_user := Depends_require_role [ADMIN] rt credentials in
      let* x := create_settings rt' settings_create current_user in
      ret (SettingsResponse x)
  | GET_settings =>
      let* x := get_settings rt in
      ret (SettingsResponse x)
  end.

(** A sequence of requests, each with its credentials and runtime. *)
Definition run (reqs : list (runtime * option string * request)) (w : world) : world :=
  foldl (fun w r => final (app (fst (fst r)) (snd (fst r)) (snd r) w)) w reqs.

End Server.

(** ** Observations on the users collection *)

(** The field [k] of every stored user, in the order of the collection. *)
Definition stored_field (k : string) (w : world) : list (option value) :=
  (fun d : doc => d !! k) <$> db_users w.

(** A computation after which every user that was stored is still stored,
    at its place and with the same field [k]. *)
Definition keeps_field (k : string) {A} (m : M A) : Prop :=
  forall w, stored_field k w `prefix_of` stored_field k (final (m w)).

(** The position of the first document that matches: the one
    [update_one] rewrites. *)
Fixpoint position (filter : doc) (l : list doc) : option nat :=
  match l with
  | [] => None
  | d :: l' => if matches filter d then Some 0 else S <$> position filter l'
  end.

(** The position [update_one] writes at, when it writes. *)
Definition writes_at (filter set : doc) (l : list doc) : option nat :=
  if sets_fields set && encodes set then
    match set_first filter set l with
    | Ok (Some _) => position filter l
    | _ => None
    end
  else None.

Section Scope.
Context `{Auth} `{Library}.

(** The dictionary [update_user] hands to [$set]: the payload of the
    request without its key ["password"], with the stamp. *)
Definition stamped (rt : runtime) (updates : doc) : doc :=
  <["updated_at" := VStr (isoformat (utcnow rt 0))]>
    (if bool_decide (is_Some (updates !! "password")) then delete "password" updates
     else updates).

(** The requests that can change the field [k] of the user stored at
    position [i], in the state [w]: an update that names [k], passes
    the self-or-admin check and is written to that user. Deletions are out
    of scope, as is a permitted update with a key that is not a field
    name: its effect is not modelled. A request that is refused, by the
    dependency, by the handler or by the store, is none of these. *)
Definition rewrites (k : string) (i : nat) (rt : runtime)
    (credentials : option string) (req : request) (w : world) : bool :=
  match req with
  | PUT_users_id user_id updates =>
      match outcome (Depends_get_current_user rt credentials w) with
      | Ok current_user =>
          (bool_decide (User.id current_user = user_id)
           || bool_decide (User.role current_user = ADMIN))
          && (negb (sets_fields updates)
              || bool_decide (is_Some (updates !! k))
                 && bool_decide
                      (writes_at {["id" := VStr user_id]}
                         (stamped (advance 2 1 rt) updates) (db_users w)
                       = Some i))
      | Raise _ => false
      end
  | DELETE_users_id _ => true
  | _ => false
  end.

(** A sequence of requests none of which, in the state it meets, is such
    a request. *)
Fixpoint untouched (k : string) (i : nat)
    (reqs : list (runtime * option string * request)) (w : world) : Prop :=
  match reqs with
  | [] => True
  | q :: reqs' =>
      rewrites k i (fst (fst q)) (snd (fst q)) (snd q) w = false
      /\ untouched k i reqs' (final (app (fst (fst q)) (snd (fst q)) (snd q) w))
  end.

End Scope.

(** ** Response bodies

    What a client receives: the JSON rendering of the value a route
    returns. *)

Inductive json :=
| JValue (v : value)
| JObject (fields : list (string * json))
| JArray (items : list json).

Definition json_of_dict (d : doc) : json :=
  JObject ((fun kv => (fst kv, JValue (snd kv))) <$> map_to_list d).

Section Bodies.
Context `{Library}.

Definition body (r : response) : json :=
  match r with
  | UserResponse u => json_of_dict (User_model_dump u)
  | UserListResponse l => JArray ((fun u => json_of_dict (User_model_dump u)) <$> l)
  | TokenResponse t =>
      JObject
        [("access_token", JValue (VStr (Token.access_token t)));
         ("token_type", JValue (VStr (Token.token_type t)));
         ("user", json_of_dict (User_model_dump (Token.user t)))]
  | SettingsResponse x => json_of_dict (Settings_model_dump x)
  | MessageResponse message => JObject [("message", JValue (VStr message))]
  end.

End Bodies.

(** Does a field named [k] occur anywhere in the body? *)
Fixpoint has_field (k : string) (j : json) : bool :=
  match j with
  | JValue _ => false
  | JObject fields =>
      existsb (fun f : string * json => String.eqb (fst f) k || has_field k (snd f)) fields
  | JArray items => existsb (has_field k) items
  end.

(** ** A concrete deployment

    Simple collaborators, with which the routes run inside Rocq, and the
    registration of the user Alice. *)

Module Scenario.

Definition auth : Auth := {|
  get_password_hash := fun password => "hash:" ++ password;
  verify_password := fun password hashed => String.eqb hashed ("hash:" ++ password);
  create_access_token := fun data =>
    match data !! "sub" with
    | Some (VStr s) => "token:" ++ s
    | _ => "token:"
    end;
  decode_access_token := fun token =>
    if String.eqb token "anonymous" then Some ∅
    else if String.prefix "token:" token
    then Some {["sub" := VStr (String.substring 6 (String.length token - 6) token)]}
    else None
|}.

Definition library : Library := {|
  isoformat := fun d =>
    if Z.eqb (posix_us d) 0 then "1970-01-01T00:00:00+00:00"
    else "1970-01-01T00:00:01+00:00";
  fromisoformat := fun s =>
    if String.eqb s "1970-01-01T00:00:00+00:00" then Some (Datetime 0)
    else if String.eqb s "1970-01-01T00:00:01+00:00" then Some (Datetime 1000000)
    else None;
  validate_email := fun s =>
    match String.index 0 "@" s with
    | Some _ => Some s
    | None => None
    end;
  coerce_datetime := fun _ => None;
  not_authenticated := HTTPException 403 "Not authenticated"
|}.

Definition rt : runtime := {|
  uuid4 := fun _ => "id-alice";
  utcnow := fun _ => Datetime 0;
  new_object_id := "oid-1"
|}.

Definition rt2 : runtime := {|
  uuid4 := fun _ => "id-bob";
  utcnow := fun _ => Datetime 1000000;
  new_object_id := "oid-2"
|}.

Definition alice : UserCreate.t :=
  UserCreate.Build
    (UserBase.Build "alice" "a@x.com" "Alice" TEACHER None None None true)
    "secret123".

Definition bob : UserCreate.t :=
  UserCreate.Build
    (UserBase.Build "bob" "b@x.com" "Bob" ADMIN None None None true)
    "hunter2".

(** Alicia asks for a new username with Alice's email. *)
Definition alicia : UserCreate.t :=
  UserCreate.Build
    (UserBase.Build "alicia" "a@x.com" "Alicia" STUDENT None None None true)
    "pw-alicia".

(** Carol's account is created inactive. *)
Definition carol : UserCreate.t :=
  UserCreate.Build
    (UserBase.Build "carol" "c@x.com" "Carol" STUDENT None None None false)
    "pw-carol".

Definition rt3 : runtime := {|
  uuid4 := fun _ => "id-carol";
  utcnow := fun _ => Datetime 0;
  new_object_id := "oid-3"
|}.

Definition school : SettingsBase.t :=
  SettingsBase.Build "Hill School" None None None (Some "office@hill.example")
    None None "EUR" "E" "UTC" "en" "YYYY-MM-DD" "HH:mm".

Definition empty : world := World [] [] [].

Definition app_ := @app auth library.

(** The database after Alice, then Bob, then Carol registered. *)
Definition w_alice : world :=
  final (app_ rt None (POST_auth_register alice) empty).

Definition w_alice_bob : world :=
  final (app_ rt2 None (POST_auth_register bob) w_alice).

Definition w_three : world :=
  final (app_ rt3 None (POST_auth_register carol) w_alice_bob).

(** The documents stored for Alice and Carol. *)
Definition alice_doc : doc := default ∅ (db_users w_three !! 0).
Definition carol_doc : doc := default ∅ (db_users w_three !! 2).

(** The users as the routes return them. *)
Definition alice_user : User.t :=
  User.Build (UserCreate.base alice) "id-alice" (Datetime 0) (Datetime 0).

Definition bob_user : User.t :=
  User.Build (UserCreate.base bob) "id-bob" (Datetime 1000000) (Datetime 1000000).

Definition carol_user : User.t :=
  User.Build (UserCreate.base carol) "id-carol" (Datetime 0) (Datetime 0).

End Scenario.

(** ** The dependencies of the routes

    Read off the signatures: a route is admin-only when it declares
    [Depends(require_role([UserRole.ADMIN]))]. *)

Definition admin_route (req : request) : bool :=
  match req with
  | GET_users _ | DELETE_users_id _ | POST_settings _ => true
  | _ => false
  end.

(** ** What registration stores *)

Section Stored.
Context `{Auth} `{Library}.

(** The user object [register] builds for a request. *)
Definition registered_user (rt : runtime) (user_create : UserCreate.t) : User.t :=
  User.Build (UserCreate.base user_create) (uuid4 rt 0) (utcnow rt 0) (utcnow rt 1).

(** The document the users collection holds for it after [insert_one]. *)
Definition registered_document (rt : runtime) (user_create : UserCreate.t) : doc :=
  <["_id" := VObjectId (new_object_id rt)]>
    (<["updated_at" := VStr (isoformat (utcnow rt 1))]>
       (<["created_at" := VStr (isoformat (utcnow rt 0))]>
          (UserInDB_model_dump
             (UserInDB.Build (registered_user rt user_create)
                (get_password_hash (UserCreate.password user_create)))))).

(** A batch of registration requests, sent without credentials. *)
Definition registrations (l : list (runtime * UserCreate.t))
  : list (runtime * option string * request) :=
  (fun p => (fst p, None, POST_auth_register (snd p))) <$> l.

End Stored.

(** ** The fields of the [User] model *)

Definition User_fields : list string :=
  ["username"; "email"; "name"; "role"; "phone"; "address"; "photo"; "is_active";
   "id"; "created_at"; "updated_at"].

(** ** School years

    [SchoolYearBase], [SchoolYearCreate] (which adds nothing) and
    [SchoolYear] of [models.py], and the school-year routes of [server.py].
    These routes use the collection [db.school_years] only, so they are
    functions of that collection; the user their dependency resolved is
    an argument. *)

Module SchoolYearBase.
Record t := Build {
  year : string;
  start_date : datetime;
  end_date : datetime;
  is_current : bool
}.
End SchoolYearBase.

Module SchoolYear.
Record t := Build {
  base : SchoolYearBase.t;
  id : string;
  created_at : datetime
}.
Definition is_current (x : t) := SchoolYearBase.is_current (base x).
End SchoolYear.

(** [update_many(filter, {"$set": set})]. *)
Definition update_many (filter set : doc) (l : list doc) : list doc :=
  (fun d => if matches filter d then set ∪ d else d) <$> l.

(** [f] on every element in turn, up to the first exception. *)
Fixpoint result_mapM {A B} (f : A -> result B) (l : list A) : result (list B) :=
  match l with
  | [] => Ok []
  | a :: l' =>
      result_bind (f a) (fun b =>
      result_bind (result_mapM f l') (fun bs => Ok (b :: bs)))
  end.

Section SchoolYears.
Context `{Library}.

Definition SchoolYear_validate (fresh_id : string) (now : datetime) (kw : doc)
  : option SchoolYear.t :=
  year ← kw !! "year" ≫= validate_str;
  start_date ← kw !! "start_date" ≫= validate_datetime;
  end_date ← kw !! "end_date" ≫= validate_datetime;
  is_current ← from_option validate_bool (Some false) (kw !! "is_current");
  id ← from_option validate_str (Some fresh_id) (kw !! "id");
  created_at ← from_option validate_datetime (Some now) (kw !! "created_at");
  Some (SchoolYear.Build (SchoolYearBase.Build year start_date end_date is_current)
          id created_at).

Definition SchoolYear_model_dump (x : SchoolYear.t) : doc :=
  list_to_map
    [("year", VStr (SchoolYearBase.year (SchoolYear.base x)));
     ("start_date", VDatetime (SchoolYearBase.start_date (SchoolYear.base x)));
     ("end_date", VDatetime (SchoolYearBase.end_date (SchoolYear.base x)));
     ("is_current", VBool (SchoolYearBase.is_current (SchoolYear.base x)));
     ("id", VStr (SchoolYear.id x));
     ("created_at", VDatetime (SchoolYear.created_at x))].

(** The document [create_school_year] inserts for a year object: its dump
    with the three dates in ISO form. *)
Definition school_year_document (oid : string) (x : SchoolYear.t) : doc :=
  <["_id" := VObjectId oid]>
    (<["end_date" := VStr (isoformat (SchoolYearBase.end_date (SchoolYear.base x)))]>
       (<["start_date" :=
            VStr (isoformat (SchoolYearBase.start_date (SchoolYear.base x)))]>
          (<["created_at" := VStr (isoformat (SchoolYear.created_at x))]>
             (SchoolYear_model_dump x)))).

(** [create_school_year]; [current_user] has passed
    [require_role([ADMIN])]. It returns the year object and the new
    collection. *)
Definition create_school_year (rt : runtime) (school_year : SchoolYearBase.t)
    (current_user : User.t) (school_years : list doc)
  : SchoolYear.t * list doc :=
  let school_years :=
    if SchoolYearBase.is_current school_year
    then update_many ∅ {["is_current" := VBool false]} school_years
    else school_years in
  let year_obj := SchoolYear.Build school_year (uuid4 rt 0) (utcnow rt 0) in
  (year_obj,
   (school_years ++ [school_year_document (new_object_id rt) year_obj])%list).

(** The three conversions the school-year routes apply to a document they
    have read, and the model built from it. *)
Definition load_SchoolYear (fresh_id : string) (now : datetime) (year : doc)
  : result SchoolYear.t :=
  result_bind (convert_timestamp "created_at" year) (fun year =>
  result_bind (convert_timestamp "start_date" year) (fun year =>
  result_bind (convert_timestamp "end_date" year) (fun year =>
  or_raise ValidationError (SchoolYear_validate fresh_id now year)))).

(** [get_school_years]: all conversions come before the first model is
    built. *)
Definition get_school_years (rt : runtime) (current_user : User.t)
    (school_years : list doc) : result (list SchoolYear.t) :=
  let years := take 100 (project ["_id"] <$> school_years) in
  result_bind
    (result_mapM
       (fun year =>
          result_bind (convert_timestamp "created_at" year) (fun year =>
          result_bind (convert_timestamp "start_date" year)
            (convert_timestamp "end_date")))
       years)
    (fun years =>
       result_mapM
         (fun ky =>
            or_raise ValidationError
              (SchoolYear_validate (uuid4 rt (fst ky)) (utcnow rt (fst ky)) (snd ky)))
         (imap (fun k year => (k, year)) years)).

Definition get_current_school_year (rt : runtime) (current_user : User.t)
    (school_years : list doc) : result SchoolYear.t :=
  let year :=
    project ["_id"] <$> List.find (matches {["is_current" := VBool true]}) school_years in
  if negb (found_truthy year) then
    Raise (HTTPException 404 "No current school year set")
  else
    match year with
    | Some year => load_SchoolYear (uuid4 rt 0) (utcnow rt 0) year
    | None => Raise AttributeError
    end.

(** The stored years that are marked current. *)
Definition current_years (school_years : list doc) : list doc :=
  List.filter (fun d : doc => bool_decide (d !! "is_current" = Some (VBool true)))
    school_years.

End SchoolYears.

(** ** Students

    [Gender], [BloodGroup], [StudentBase], [StudentCreate] (which adds
    nothing) and [Student] of [models.py], and the route [create_student],
    a function of the collection [db.students]. *)

Inductive Gender := MALE | FEMALE | OTHER.

Definition Gender_value (g : Gender) : string :=
  match g with
  | MALE => "male"
  | FEMALE => "female"
  | OTHER => "other"
  end.

Inductive BloodGroup :=
| A_POSITIVE | A_NEGATIVE | B_POSITIVE | B_NEGATIVE
| O_POSITIVE | O_NEGATIVE | AB_POSITIVE | AB_NEGATIVE.

Definition BloodGroup_value (b : BloodGroup) : string :=
  match b with
  | A_POSITIVE => "A+"
  | A_NEGATIVE => "A-"
  | B_POSITIVE => "B+"
  | B_NEGATIVE => "B-"
  | O_POSITIVE => "O+"
  | O_NEGATIVE => "O-"
  | AB_POSITIVE => "AB+"
  | AB_NEGATIVE => "AB-"
  end.

Module StudentBase.
Record t := Build {
  user_id : string;
  name : string;
  roll_no : string;
  class_id : string;
  section_id : string;
  school_year_id : string;
  gender : option Gender;
  dob : option datetime;
  blood_group : option BloodGroup;
  religion : option string;
  email : option string;
  phone : option string;
  address : option string;
  photo : option string;
  parent_id : option string;
  admission_date : option datetime;
  guardian_name : option string;
  guardian_phone : option string;
  guardian_relation : option string
}.
End StudentBase.

Module Student.
Record t := Build {
  base : StudentBase.t;
  id : string;
  created_at : datetime;
  updated_at : datetime
}.
End Student.

Definition optional_datetime_value (o : option datetime) : value :=
  match o with
  | Some t => VDatetime t
  | None => VNone
  end.

Section Students.
Context `{Library}.

Definition Student_model_dump (x : Student.t) : doc :=
  let b := Student.base x in
  list_to_map
    [("user_id", VStr (StudentBase.user_id b));
     ("name", VStr (StudentBase.name b));
     ("roll_no", VStr (StudentBase.roll_no b));
     ("class_id", VStr (StudentBase.class_id b));
     ("section_id", VStr (StudentBase.section_id b));
     ("school_year_id", VStr (StudentBase.school_year_id b));
     ("gender", optional_str_value (Gender_value <$> StudentBase.gender b));
     ("dob", optional_datetime_value (StudentBase.dob b));
     ("blood_group", optional_str_value (BloodGroup_value <$> StudentBase.blood_group b));
     ("religion", optional_str_value (StudentBase.religion b));
     ("email", optional_str_value (StudentBase.email b));
     ("phone", optional_str_value (StudentBase.phone b));
     ("address", optional_str_value (StudentBase.address b));
     ("photo", optional_str_value (StudentBase.photo b));
     ("parent_id", optional_str_value (StudentBase.parent_id b));
     ("admission_date", optional_datetime_value (StudentBase.admission_date b));
     ("guardian_name", optional_str_value (StudentBase.guardian_name b));
     ("guardian_phone", optional_str_value (StudentBase.guardian_phone b));
     ("guardian_relation", optional_str_value (StudentBase.guardian_relation b));
     ("id", VStr (Student.id x));
     ("created_at", VDatetime (Student.created_at x));
     ("updated_at", VDatetime (Student.updated_at x))].

(** [if doc.get(k): doc[k] = doc[k].isoformat()], on a dumped optional
    date: a [datetime] is truthy, [None] is not. *)
Definition isoformat_if_set (k : string) (d : doc) : doc :=
  if truthy (dict_get d k) then
    match dict_get d k with
    | VDatetime t => <[k := VStr (isoformat t)]> d
    | _ => d
    end
  else d.

(** [create_student]; [current_user] has passed
    [require_role([ADMIN])]. *)
Definition create_student (rt : runtime) (student : StudentBase.t)
    (current_user : User.t) (students : list doc)
  : result Student.t * list doc :=
  let existing :=
    List.find
      (matches
         {["roll_no" := VStr (StudentBase.roll_no student);
           "class_id" := VStr (StudentBase.class_id student);
           "school_year_id" := VStr (StudentBase.school_year_id student)]})
      students in
  if found_truthy existing then
    (Raise (HTTPException 400 "Roll number already exists in this class"), students)
  else
    let student_obj :=
      Student.Build student (uuid4 rt 0) (utcnow rt 0) (utcnow rt 1) in
    let d := Student_model_dump student_obj in
    let d := <["created_at" := VStr (isoformat (utcnow rt 0))]> d in
    let d := <["updated_at" := VStr (isoformat (utcnow rt 1))]> d in
    let d := isoformat_if_set "dob" d in
    let d := isoformat_if_set "admission_date" d in
    (Ok student_obj,
     (students ++ [<["_id" := VObjectId (new_object_id rt)]> d])%list).

(** Where a stored student is enrolled: roll number, class and school
    year. *)
Definition enrolment (d : doc) : option value * option value * option value :=
  (d !! "roll_no", d !! "class_id", d !! "school_year_id").

End Students.

(** ** The deployment, continued

    Bob's document, two school years created one after the other, a stored
    year whose start date cannot be read, and two students who ask for the
    same roll number. *)

Module Campus.
Import Scenario.

Definition bob_doc : doc := default ∅ (db_users w_three !! 1).

(** Alice, alone in the database, after she updated her own record with a
    role that is no member of [UserRole], with the string "no" as her
    active flag, or with an integer as her hash. *)
Definition w_root : world :=
  final (app_ rt2 (Some "token:alice")
           (PUT_users_id "id-alice" {["role" := VStr "root"]}) w_alice).

Definition w_no : world :=
  final (app_ rt2 (Some "token:alice")
           (PUT_users_id "id-alice" {["is_active" := VStr "no"]}) w_alice).

Definition w_int : world :=
  final (app_ rt2 (Some "token:alice")
           (PUT_users_id "id-alice" {["password_hash" := VInt 5]}) w_alice).

Definition root_doc : doc := default ∅ (db_users w_root !! 0).
Definition no_doc : doc := default ∅ (db_users w_no !! 0).
Definition int_doc : doc := default ∅ (db_users w_int !! 0).

Definition year_2024 : SchoolYearBase.t :=
  SchoolYearBase.Build "2024-2025" (Datetime 0) (Datetime 1000000) true.

Definition year_2025 : SchoolYearBase.t :=
  SchoolYearBase.Build "2025-2026" (Datetime 1000000) (Datetime 1000000) true.

Definition years_2024 : list doc :=
  snd (@create_school_year library rt year_2024 bob_user []).

Definition years_2025 : list doc :=
  snd (@create_school_year library rt2 year_2025 bob_user years_2024).

Definition year_2024_doc : doc := default ∅ (years_2024 !! 0).

Definition broken_year : doc :=
  {["year" := VStr "2026-2027"; "start_date" := VStr "next autumn"]}.

Definition ann : StudentBase.t :=
  StudentBase.Build "id-carol" "Ann" "1" "class-1" "section-a" "year-2024"
    (Some FEMALE) (Some (Datetime 0)) (Some O_POSITIVE) None None None None None None
    None None None None.

Definition ben : StudentBase.t :=
  StudentBase.Build "id-ben" "Ben" "1" "class-1" "section-b" "year-2024"
    (Some MALE) None None None None None None None None
    (Some (Datetime 1000000)) None None None.

Definition students_ann : list doc :=
  snd (@create_student library rt3 ann bob_user []).

End Campus.

(** * Properties *)

(** ** The document store *)

Lemma matches_singleton (k : string) (v : value) (d : doc) :
  matches {[k := v]} d = field_matches d k v.
Proof.
  unfold matches. rewrite map_to_list_singleton. simpl.
  apply andb_true_r.
Qed.

Lemma matches_empty (d : doc) : matches ∅ d = true.
Proof. unfold matches. by rewrite map_to_list_empty. Qed.

Lemma field_matches_Some (d : doc) (k : string) (v : value) :
  v ≠ VNone -> field_matches d k v = true <-> d !! k = Some v.
Proof.
  intros Hv. unfold field_matches.
  destruct (d !! k) as [x|]; rewrite bool_decide_eq_true; naive_solver.
Qed.

Lemma find_singleton_Some (k : string) (v : value) (l : list doc) (d : doc) :
  v ≠ VNone -> List.find (matches {[k := v]}) l = Some d ->
  d ∈ l /\ d !! k = Some v.
Proof.
  intros Hv Hf. apply find_some in Hf as [Hin Hm].
  rewrite matches_singleton in Hm.
  split; [by apply list_elem_of_In | by apply field_matches_Some].
Qed.

Lemma find_singleton_None (k : string) (v : value) (l : list doc) :
  v ≠ VNone ->
  List.find (matches {[k := v]}) l = None <-> forall d, d ∈ l -> d !! k ≠ Some v.
Proof.
  intros Hv. split.
  - intros Hf d Hin Hd.
    apply list_elem_of_In in Hin.
    pose proof (find_none _ _ Hf d Hin) as Hm.
    rewrite matches_singleton in Hm.
    apply (field_matches_Some d k v Hv) in Hd. congruence.
  - intros Hall. destruct (List.find _ l) as [d|] eqn:Hf; [|done].
    apply find_singleton_Some in Hf as [Hin Hd]; [|done].
    by destruct (Hall d Hin).
Qed.

Lemma find_singleton_VStr (k s : string) (l : list doc) (d : doc) :
  List.find (matches {[k := VStr s]}) l = Some d ->
  d ∈ l /\ d !! k = Some (VStr s).
Proof. by apply find_singleton_Some. Qed.

Lemma find_singleton_cases (k : string) (v : value) (l : list doc) :
  v ≠ VNone ->
  ((exists d : doc, d ∈ l /\ d !! k = Some v)
   /\ exists d, List.find (matches {[k := v]}) l = Some d)
  \/ (~ (exists d : doc, d ∈ l /\ d !! k = Some v)
      /\ List.find (matches {[k := v]}) l = None).
Proof.
  intros Hv. destruct (List.find (matches {[k := v]}) l) as [d|] eqn:Hf.
  - left. split; [|by exists d].
    apply find_singleton_Some in Hf as [? ?]; [by exists d | done].
  - right. split; [|done]. intros (d & Hin & Hd).
    by destruct (proj1 (find_singleton_None k v l Hv) Hf d Hin).
Qed.

(** Deciding whether some stored document has the value [v] at [k]. *)
Lemma existsb_stored_true (k : string) (v : value) (l : list doc) :
  existsb (fun d : doc => bool_decide (d !! k = Some v)) l = true ->
  exists d : doc, d ∈ l /\ d !! k = Some v.
Proof.
  intros (d & Hin & Hd)%existsb_exists. exists d.
  split; [by apply list_elem_of_In | by apply bool_decide_eq_true in Hd].
Qed.

Lemma existsb_stored_false (k : string) (v : value) (l : list doc) :
  existsb (fun d : doc => bool_decide (d !! k = Some v)) l = false ->
  forall d : doc, d ∈ l -> d !! k ≠ Some v.
Proof.
  intros Hex d Hin Hd.
  assert (Ht : existsb (fun d : doc => bool_decide (d !! k = Some v)) l = true).
  { apply existsb_exists. exists d.
    split; [by apply list_elem_of_In | by apply bool_decide_eq_true]. }
  congruence.
Qed.

Lemma project_lookup (excluded : list string) (d : doc) (k : string) :
  project excluded d !! k = if bool_decide (k ∈ excluded) then None else d !! k.
Proof.
  induction excluded as [|x xs IH]; simpl; [done|].
  rewrite lookup_delete, IH.
  destruct (decide (x = k)) as [->|Hne].
  - rewrite bool_decide_eq_true_2; [done | apply elem_of_cons; by left].
  - destruct (bool_decide (k ∈ xs)) eqn:E.
    + apply bool_decide_eq_true in E.
      rewrite bool_decide_eq_true_2; [done | apply elem_of_cons; by right].
    + apply bool_decide_eq_false in E. rewrite bool_decide_eq_false_2; [done|].
      rewrite elem_of_cons. intros [?|?]; [congruence | done].
Qed.

Lemma dict_truthy_lookup (d : doc) (k : string) (v : value) :
  d !! k = Some v -> dict_truthy d = true.
Proof.
  intros Hd. unfold dict_truthy. apply negb_true_iff, bool_decide_eq_false.
  intros ->. by rewrite lookup_empty in Hd.
Qed.

(** ** C3: the role check *)

Section RoleCheck.
Context `{Auth} `{Library}.

(** C3. [require_role] raises the 403 "Not enough permissions" exactly when
    the role of the resolved user is not one of the allowed roles, and
    otherwise returns that user; in particular the check for [[ADMIN]]
    denies a teacher and allows an admin. The check never changes the
    database. *)
Theorem require_role_denies_iff_not_member :
  forall (allowed_roles : list UserRole) (current_user : User.t) (w : world),
    (outcome (require_role allowed_roles current_user w)
       = Raise (HTTPException 403 "Not enough permissions")
     <-> User.role current_user ∉ allowed_roles)
    /\ (outcome (require_role allowed_roles current_user w) = Ok current_user
        <-> User.role current_user ∈ allowed_roles)
    /\ final (require_role allowed_roles current_user w) = w
    /\ (User.role current_user = TEACHER ->
        outcome (require_role [ADMIN] current_user w)
          = Raise (HTTPException 403 "Not enough permissions"))
    /\ (User.role current_user = ADMIN ->
        outcome (require_role [ADMIN] current_user w) = Ok current_user).
Proof.
  intros allowed_roles current_user w. unfold require_role, outcome, final.
  assert (Hadmin : forall r, r ∈ [ADMIN] <-> r = ADMIN)
    by (intros r; apply list_elem_of_singleton).
  split_and!.
  - case_bool_decide; simpl; [done | split; [discriminate | done]].
  - case_bool_decide as Hd; simpl.
    + split; [discriminate | done].
    + split; [intros _ | done].
      by destruct (decide (User.role current_user ∈ allowed_roles)).
  - by case_bool_decide.
  - intros Hr. rewrite bool_decide_eq_true_2; [done|].
    rewrite Hadmin, Hr. discriminate.
  - intros Hr. rewrite bool_decide_eq_false_2; [done|].
    intros Hn. by apply Hn, Hadmin.
Qed.

End RoleCheck.

(** ** The request monad and the store operations, evaluated *)

Lemma find_one_eq (c : collection) (filter : doc) (excluded : list string) (w : world) :
  find_one c filter excluded w
  = (Ok (project excluded <$> List.find (matches filter) (documents c w)),
     logged (db_find_one c filter) w).
Proof. reflexivity. Qed.

Lemma update_one_eq (c : collection) (filter set : doc) (w : world) :
  update_one c filter set w
  = let w1 := logged (db_update_one c filter set) w in
    if negb (sets_fields set) then (Raise (NotModelled "update path"), w1)
    else if negb (encodes set) then (Raise OverflowError, w1)
    else
      match set_first filter set (documents c w) with
      | Ok (Some l') => (Ok 1, snd (put_collection c l' w1))
      | Ok None => (Ok 0, w1)
      | Raise e => (Raise e, w1)
      end.
Proof.
  unfold update_one, bind, emit, get_collection, pure. simpl.
  destruct (sets_fields set); [|done]. destruct (encodes set); [|done]. simpl.
  replace (documents c (logged (db_update_one c filter set) w)) with (documents c w)
    by (by destruct c).
  by destruct (set_first filter set (documents c w)) as [[l'|]|e].
Qed.

(** The two conditions on a payload, by its keys and values. *)
Lemma sets_fields_spec (set : doc) :
  sets_fields set = true <-> forall k v, set !! k = Some v -> field_name k = true.
Proof.
  unfold sets_fields. rewrite forallb_forall. split.
  - intros Hall k v Hk. apply (Hall (k, v)).
    by apply list_elem_of_In, elem_of_map_to_list.
  - intros Hall [k v] Hin. apply (Hall k v).
    by apply elem_of_map_to_list, list_elem_of_In.
Qed.

Lemma encodes_spec (set : doc) :
  encodes set = true <-> forall k v, set !! k = Some v -> encodable v = true.
Proof.
  unfold encodes. rewrite forallb_forall. split.
  - intros Hall k v Hk. apply (Hall (k, v)).
    by apply list_elem_of_In, elem_of_map_to_list.
  - intros Hall [k v] Hin. apply (Hall k v).
    by apply elem_of_map_to_list, list_elem_of_In.
Qed.

(** What [set_first] returns. *)
Lemma set_first_Raise (filter set : doc) (l : list doc) (e : exn) :
  set_first filter set l = Raise e -> e = WriteError.
Proof.
  induction l as [|x l IH]; simpl; [discriminate|].
  destruct (matches filter x).
  - unfold set_fields. destruct (set !! "_id") as [v|]; [|discriminate].
    case_bool_decide; [discriminate|]. simpl. congruence.
  - destruct (set_first filter set l) as [r|e']; simpl; [discriminate|].
    intros [= <-]. by apply IH.
Qed.

Lemma set_first_None (filter set : doc) (l : list doc) :
  List.find (matches filter) l = None -> set_first filter set l = Ok None.
Proof.
  induction l as [|x l IH]; simpl; [done|].
  destruct (matches filter x); [discriminate|].
  intros Hf. by rewrite (IH Hf).
Qed.

Lemma position_find (filter : doc) (l : list doc) (i : nat) :
  position filter l = Some i ->
  exists d, l !! i = Some d /\ List.find (matches filter) l = Some d.
Proof.
  revert i. induction l as [|x l IH]; intros i; simpl; [discriminate|].
  destruct (matches filter x).
  - intros [= <-]. by exists x.
  - destruct (position filter l) as [j|]; [|discriminate].
    intros [= <-]. destruct (IH j eq_refl) as (d & Hd & Hf). by exists d.
Qed.

Lemma find_position (filter : doc) (l : list doc) (d : doc) :
  List.find (matches filter) l = Some d ->
  exists i, position filter l = Some i /\ l !! i = Some d.
Proof.
  induction l as [|x l IH]; simpl; [discriminate|].
  destruct (matches filter x).
  - intros [= ->]. by exists 0.
  - intros (i & Hp & Hi)%IH. exists (S i). by rewrite Hp.
Qed.

(** A successful [set_first] rewrote the document at the position of the
    first match, and only that one. *)
Lemma set_first_Some (filter set : doc) (l l' : list doc) :
  set_first filter set l = Ok (Some l') ->
  exists i d,
    position filter l = Some i /\ l !! i = Some d /\ l' = <[i := set ∪ d]> l.
Proof.
  revert l'. induction l as [|x l IH]; intros l'; simpl; [discriminate|].
  destruct (matches filter x).
  - unfold set_fields.
    destruct (set !! "_id") as [v|]; [case_bool_decide; [|discriminate]|];
      simpl; intros [= <-]; by exists 0, x.
  - destruct (set_first filter set l) as [[l1|]|e]; simpl; try discriminate.
    intros [= <-]. destruct (IH l1 eq_refl) as (i & d & Hp & Hi & ->).
    exists (S i), d. by rewrite Hp.
Qed.

(** With a payload that leaves [_id] alone the first match is always
    rewritten. *)
Lemma find_set_first (filter set : doc) (l : list doc) (d : doc) :
  set !! "_id" = None ->
  List.find (matches filter) l = Some d ->
  exists i,
    position filter l = Some i /\ l !! i = Some d
    /\ set_first filter set l = Ok (Some (<[i := set ∪ d]> l)).
Proof.
  intros Hid. induction l as [|x l IH]; simpl; [discriminate|].
  destruct (matches filter x).
  - intros [= ->]. exists 0. unfold set_fields. by rewrite Hid.
  - intros (i & Hp & Hi & Hs)%IH. exists (S i). by rewrite Hp, Hs.
Qed.

(** Evaluate the observations of a finished computation. *)
Ltac observe :=
  cbn [outcome final fst snd logged trace db_users db_settings];
  rewrite <- ?app_assoc; try done.

(** *** Read-only computations *)

Create HintDb readonly.

Lemma preserves_db_ret {A} (a : A) : preserves_db (ret a).
Proof. by intros w. Qed.

Lemma preserves_db_raise {A} (e : exn) : preserves_db (@raise A e).
Proof. by intros w. Qed.

Lemma preserves_db_pure {A} (r : result A) : preserves_db (pure r).
Proof. by intros w. Qed.

Lemma preserves_db_lift {A} (e : exn) (o : option A) : preserves_db (lift e o).
Proof. by intros w. Qed.

Lemma preserves_db_emit (e : event) : preserves_db (emit e).
Proof. by intros w. Qed.

Lemma preserves_db_get_collection (c : collection) : preserves_db (get_collection c).
Proof. by intros w. Qed.

Lemma preserves_db_bind {A B} (m : M A) (k : A -> M B) :
  preserves_db m -> (forall a, preserves_db (k a)) -> preserves_db (bind m k).
Proof.
  intros Hm Hk w. unfold bind. specialize (Hm w).
  destruct (m w) as [[a|e] w']; simpl in Hm.
  - destruct (Hk a w') as [-> ->]. done.
  - done.
Qed.

Lemma preserves_db_find_one (c : collection) (filter : doc) (excluded : list string) :
  preserves_db (find_one c filter excluded).
Proof. by intros w. Qed.

Lemma preserves_db_find_to_list (c : collection) (filter : doc)
    (excluded : list string) (n : nat) :
  preserves_db (find_to_list c filter excluded n).
Proof. by intros w. Qed.

Lemma preserves_db_mapM {A B} (f : A -> M B) (l : list A) :
  (forall a, preserves_db (f a)) -> preserves_db (mapM f l).
Proof.
  intros Hf. induction l as [|a l IH]; simpl.
  - apply preserves_db_ret.
  - apply preserves_db_bind; [done | intros b].
    apply preserves_db_bind; [done | intros bs]. apply preserves_db_ret.
Qed.

#[global] Hint Resolve preserves_db_ret preserves_db_raise preserves_db_pure
  preserves_db_lift preserves_db_emit preserves_db_get_collection
  preserves_db_find_one preserves_db_find_to_list : readonly.

(** Decompose a handler along its binds and its case distinctions. *)
Ltac readonly :=
  repeat first
    [ progress eauto with readonly
    | apply preserves_db_bind; [|intros ?]
    | apply preserves_db_mapM; intros ?
    | match goal with
      | |- preserves_db (match ?x with _ => _ end) => destruct x
      | |- preserves_db (if ?x then _ else _) => destruct x
      end ].

Section Loading.
Context `{Library}.

Lemma convert_timestamp_Raise (k : string) (d : doc) (e : exn) :
  convert_timestamp k d = Raise e -> e = ValueError.
Proof.
  unfold convert_timestamp.
  destruct (dict_get d k); try discriminate.
  destruct (fromisoformat s); simpl; congruence.
Qed.

Lemma convert_timestamps_Raise (d : doc) (e : exn) :
  convert_timestamps d = Raise e -> e = ValueError.
Proof.
  unfold convert_timestamps.
  destruct (convert_timestamp "created_at" d) eqn:H1; simpl.
  - apply convert_timestamp_Raise.
  - intros [= <-]. by apply convert_timestamp_Raise in H1.
Qed.

(** Loading a stored user fails only with the exceptions of the
    libraries, never with an HTTP error of the routes. *)
Lemma load_User_Raise (dflt : defaults) (d : doc) (e : exn) :
  load_User dflt d = Raise e -> e = ValueError \/ e = ValidationError.
Proof.
  unfold load_User.
  destruct (convert_timestamps d) eqn:Hc; simpl.
  - unfold User_of. destruct (User_validate dflt a); simpl; [discriminate|].
    intros [= <-]. by right.
  - intros [= <-]. left. by apply convert_timestamps_Raise in Hc.
Qed.

End Loading.

(** ** C8: who may update a user *)

Section UpdatePermission.
Context `{Auth} `{Library}.

(** C8. [update_user] rejects the request with the 403 "Not enough
    permissions" exactly when the requesting user is neither the target
    ([current_user.id] equals [user_id]) nor accepted by the role check for
    the admin role; a rejected request leaves the world as it was, and a
    permitted one is never answered with that 403. *)
Theorem update_user_permitted_iff_self_or_admin :
  forall (rt : runtime) (user_id : string) (updates : doc)
         (current_user : User.t) (w : world),
    let permitted :=
      User.id current_user = user_id
      \/ outcome (require_role [ADMIN] current_user w) = Ok current_user in
    (outcome (update_user rt user_id updates current_user w)
       = Raise (HTTPException 403 "Not enough permissions")
     <-> ~ permitted)
    /\ (~ permitted -> final (update_user rt user_id updates current_user w) = w).
Proof.
  intros rt user_id updates current_user w permitted.
  assert (Hperm : permitted <->
            User.id current_user = user_id \/ User.role current_user = ADMIN).
  { unfold permitted, require_role, outcome.
    case_bool_decide as Hr; simpl; rewrite list_elem_of_singleton in Hr.
    - split; intros [?|?]; auto; congruence.
    - split; intros _; right; [by destruct (decide (User.role current_user = ADMIN)) | done]. }
  rewrite Hperm. clear Hperm permitted.
  unfold update_user.
  destruct (decide (User.id current_user = user_id)) as [Hid|Hid];
    [|destruct (decide (User.role current_user = ADMIN)) as [Hr|Hr]].
  3: { rewrite !bool_decide_eq_true_2 by done. simpl.
       split; [split; [intros _ [?|?]; done | done] | done]. }
  all: assert (Hguard :
      bool_decide (User.id current_user ≠ user_id)
      && bool_decide (User.role current_user ≠ ADMIN) = false)
    by (apply andb_false_iff;
        first [left; by apply bool_decide_eq_false_2; intros Hn; apply Hn
              |right; by apply bool_decide_eq_false_2; intros Hn; apply Hn]).
  all: rewrite Hguard; clear Hguard.
  all: split; [split; [|intros Hn; destruct Hn; auto] | intros Hn; destruct Hn; auto].
  all: unfold bind; rewrite update_one_eq; cbv zeta.
  all: destruct (sets_fields _); simpl; [|discriminate].
  all: destruct (encodes _); simpl; [|discriminate].
  all: destruct (set_first _ _ _) as [[l'|]|e] eqn:Hs; simpl;
         [|discriminate|apply set_first_Raise in Hs as ->; discriminate].
  all: match goal with |- context [List.find ?f ?l] => destruct (List.find f l) end;
         simpl; [|discriminate].
  all: unfold pure, outcome; simpl.
  all: match goal with |- context [load_User ?a ?b] =>
         destruct (load_User a b) eqn:Hl; [discriminate|] end.
  all: apply load_User_Raise in Hl as [-> | ->]; discriminate.
Qed.

End UpdatePermission.

(** ** C9: registration *)

Section Registration.
Context `{Auth} `{Library}.

Lemma insert_one_eq (c : collection) (oid : string) (d : doc) (w : world) :
  insert_one c oid d w
  = (Ok tt,
     snd (put_collection c (documents c w ++ [<["_id" := VObjectId oid]> d])
            (logged (db_insert_one c d) w))).
Proof.
  unfold insert_one, bind, emit, get_collection. simpl. by destruct c.
Qed.

Lemma found_truthy_singleton (k s : string) (l : list doc) (d : doc) :
  List.find (matches {[k := VStr s]}) l = Some d ->
  found_truthy (project [] <$> Some d) = true.
Proof.
  intros Hf. apply find_singleton_Some in Hf as [_ Hd]; [|done].
  simpl. by eapply dict_truthy_lookup.
Qed.

(** C9. [register] answers 400 "Username already registered" when a stored
    document has the requested username, and 400 "Email already registered"
    when none has the username but one has the requested email; in both
    cases no document is inserted and both collections are unchanged.
    Otherwise it succeeds: the response is the user built from the request
    with fresh [id] and timestamps, its rendering has no [password_hash]
    field, and exactly one document, carrying the hash, is appended to the
    users collection. *)
Theorem register_duplicate_or_public_record :
  forall (rt : runtime) (user_create : UserCreate.t) (w : world),
    let base := UserCreate.base user_create in
    let r := register rt user_create w in
    let username_taken :=
      exists d : doc, d ∈ db_users w /\ d !! "username" = Some (VStr (UserBase.username base)) in
    let email_taken :=
      exists d : doc, d ∈ db_users w /\ d !! "email" = Some (VStr (UserBase.email base)) in
    (username_taken ->
       outcome r = Raise (HTTPException 400 "Username already registered")
       /\ db_users (final r) = db_users w /\ db_settings (final r) = db_settings w)
    /\ (~ username_taken -> email_taken ->
       outcome r = Raise (HTTPException 400 "Email already registered")
       /\ db_users (final r) = db_users w /\ db_settings (final r) = db_settings w)
    /\ (~ username_taken -> ~ email_taken ->
       exists (u : User.t) (stored : doc),
         outcome r = Ok u
         /\ User.base u = base
         /\ User.id u = uuid4 rt 0
         /\ has_field "password_hash" (body (UserResponse u)) = false
         /\ db_users (final r) = (db_users w ++ [stored])%list
         /\ stored !! "username" = Some (VStr (UserBase.username base))
         /\ stored !! "email" = Some (VStr (UserBase.email base))
         /\ stored !! "role" = Some (VStr (UserRole_value (UserBase.role base)))
         /\ stored !! "password_hash"
            = Some (VStr (get_password_hash (UserCreate.password user_create)))
         /\ db_settings (final r) = db_settings w).
Proof.
  intros rt user_create w base r username_taken email_taken.
  pose proof (find_singleton_cases "username" (VStr (UserBase.username base))
                (db_users w) ltac:(done)) as Hu.
  pose proof (find_singleton_cases "email" (VStr (UserBase.email base))
                (db_users w) ltac:(done)) as He.
  fold username_taken in Hu. fold email_taken in He.
  split_and!.
  - intros Ht. destruct Hu as [(_ & d & Hf)|[? _]]; [|done]. subst r. unfold register, bind. rewrite find_one_eq.
    fold base. unfold documents. rewrite Hf.
    rewrite (found_truthy_singleton _ _ _ _ Hf). done.
  - intros Hnu Ht. destruct Hu as [[? _]|[_ Hnf]]; [done|].
    destruct He as [(_ & d & Hf)|[? _]]; [|done].
    subst r. unfold register, bind. rewrite find_one_eq.
    fold base. unfold documents. rewrite Hnf. simpl.
    rewrite Hf. rewrite (found_truthy_singleton _ _ _ _ Hf). done.
  - intros Hnu Hne. destruct Hu as [[? _]|[_ Hnf]]; [done|].
    destruct He as [[? _]|[_ Hnf']]; [done|].
    subst r. unfold register, bind. rewrite find_one_eq.
    fold base. unfold documents. rewrite Hnf. simpl. rewrite Hnf'. simpl.
    eexists _, _. split_and!; try reflexivity.
Qed.

End Registration.

(** ** What loading a stored user preserves *)

Lemma validate_optional_str_value (o : option string) :
  validate_optional_str (Some (optional_str_value o)) = Some o.
Proof. by destruct o. Qed.

Lemma UserRole_of_string_Some (s : string) (r : UserRole) :
  UserRole_of_string s = Some r -> s = UserRole_value r.
Proof.
  unfold UserRole_of_string. intros Hf.
  apply find_some in Hf as [_ Hr]. symmetry. by apply String.eqb_eq.
Qed.

Lemma UserRole_of_string_value (r : UserRole) :
  UserRole_of_string (UserRole_value r) = Some r.
Proof. by destruct r. Qed.

Section LoadedFields.
Context `{Library}.

Lemma convert_timestamp_other (k k' : string) (d d' : doc) :
  convert_timestamp k d = Ok d' -> k' ≠ k -> d' !! k' = d !! k'.
Proof.
  unfold convert_timestamp. intros Hc Hne.
  destruct (dict_get d k); try (by injection Hc as <-).
  destruct (fromisoformat s); simpl in Hc; [|discriminate].
  injection Hc as <-. by rewrite lookup_insert_ne.
Qed.

Lemma convert_timestamps_other (k : string) (d d' : doc) :
  convert_timestamps d = Ok d' -> k ≠ "created_at" -> k ≠ "updated_at" ->
  d' !! k = d !! k.
Proof.
  unfold convert_timestamps. intros Hc H1 H2.
  destruct (convert_timestamp "created_at" d) as [d1|] eqn:Hc1; simpl in Hc; [|discriminate].
  rewrite (convert_timestamp_other _ _ _ _ Hc H2).
  by rewrite (convert_timestamp_other _ _ _ _ Hc1 H1).
Qed.

(** The fields of a validated user are those of the dictionary. *)
Lemma User_validate_fields (dflt : defaults) (kw : doc) (u : User.t) :
  User_validate dflt kw = Some u ->
  kw !! "username" = Some (VStr (User.username u))
  /\ kw !! "role" = Some (VStr (UserRole_value (User.role u)))
  /\ from_option validate_bool (Some true) (kw !! "is_active") = Some (User.is_active u)
  /\ from_option validate_str (Some (default_id dflt)) (kw !! "id") = Some (User.id u).
Proof.
  unfold User_validate, UserBase_validate. intros Hv.
  repeat match type of Hv with
         | (mbind _ ?o) = Some _ =>
             let E := fresh "E" in destruct o eqn:E; simpl in Hv; [|discriminate]
         | (_ ≫= _) = Some _ => fail
         end.
  simplify_option_eq.
  repeat match goal with
         | H : validate_str ?v = Some _ |- _ => destruct v; try discriminate; injection H as <-
         | H : validate_UserRole ?v = Some _ |- _ =>
             destruct v; try discriminate; simpl in H;
             apply UserRole_of_string_Some in H; subst
         end.
  done.
Qed.

Lemma load_User_fields (dflt : defaults) (kw : doc) (u : User.t) :
  load_User dflt kw = Ok u ->
  kw !! "username" = Some (VStr (User.username u))
  /\ kw !! "role" = Some (VStr (UserRole_value (User.role u)))
  /\ from_option validate_bool (Some true) (kw !! "is_active") = Some (User.is_active u)
  /\ from_option validate_str (Some (default_id dflt)) (kw !! "id") = Some (User.id u).
Proof.
  unfold load_User. intros Hl.
  destruct (convert_timestamps kw) as [kw'|] eqn:Hc; simpl in Hl; [|discriminate].
  unfold User_of in Hl. destruct (User_validate dflt kw') as [u'|] eqn:Hv; [|discriminate].
  injection Hl as ->. apply User_validate_fields in Hv.
  by rewrite !(convert_timestamps_other _ _ _ Hc) in Hv.
Qed.

End LoadedFields.

(** ** C2 and C5: resolving a token to a user *)

Section Resolution.
Context `{Auth} `{Library}.

Lemma get_current_user_eq (rt : runtime) (token : string) (w : world) :
  get_current_user rt token w
  = let w1 := logged (call_decode_access_token token) w in
    match decode_access_token token with
    | None =>
        (Raise (HTTPException 401 "Invalid authentication credentials"), w1)
    | Some payload =>
        if bool_decide (dict_get payload "sub" = VNone) then
          (Raise (HTTPException 401 "Invalid authentication credentials"), w1)
        else
          let w2 := logged (db_find_one users {["username" := dict_get payload "sub"]}) w1 in
          match List.find (matches {["username" := dict_get payload "sub"]}) (db_users w) with
          | None => (Raise (HTTPException 401 "User not found"), w2)
          | Some d =>
              (load_User (factories rt 0 0) (project ["_id"; "password_hash"] d), w2)
          end
    end.
Proof.
  unfold get_current_user, bind, do_decode_access_token, emit, ret. simpl.
  destruct (decode_access_token token) as [payload|]; [|done].
  case_bool_decide; [done|].
  cbn [db_users logged].
  by destruct (List.find _ (db_users w)).
Qed.


End Resolution.

(** ** C1: the login flow *)

Section Login.
Context `{Auth} `{Library}.

(** [login] on a request whose username no stored document has. *)
Lemma login_not_found (rt : runtime) (user_login : UserLogin.t) (w : world) :
  let q : doc := {["username" := VStr (UserLogin.username user_login)]} in
  List.find (matches q) (db_users w) = None ->
  login rt user_login w
  = (Raise (HTTPException 401 "Incorrect username or password"),
     logged (db_find_one users q) w).
Proof.
  intros q Hf. unfold login, bind. rewrite find_one_eq.
  unfold documents. fold q. by rewrite Hf.
Qed.

(** [login] once the lookup found a document with a string hash: the
    verification, then the active check, then the token. *)
Lemma login_found (rt : runtime) (user_login : UserLogin.t) (w : world)
    (d : doc) (h : string) :
  let q : doc := {["username" := VStr (UserLogin.username user_login)]} in
  let password := UserLogin.password user_login in
  let w1 := logged (db_find_one users q) w in
  let w2 := logged (call_verify_password password (VStr h)) w1 in
  let data : doc := {["sub" := VStr (UserLogin.username user_login)]} in
  let w3 := logged (call_create_access_token data) w2 in
  List.find (matches q) (db_users w) = Some d ->
  d !! "password_hash" = Some (VStr h) ->
  login rt user_login w
  = if verify_password password h then
      if truthy (dict_get_default d "is_active" (VBool true)) then
        match convert_timestamps (delete "_id" d) with
        | Ok d' =>
            match User_validate (factories rt 0 0) (delete "password_hash" d') with
            | Some u => (Ok (Token.Build (create_access_token data) "bearer" u), w3)
            | None => (Raise ValidationError, w3)
            end
        | Raise e => (Raise e, w3)
        end
      else (Raise (HTTPException 403 "User account is inactive"), w2)
    else (Raise (HTTPException 401 "Incorrect username or password"), w2).
Proof.
  intros q password w1 w2 data w3 Hf Hh.
  destruct (find_singleton_VStr _ _ _ _ Hf) as [_ Hu].
  unfold login, bind. rewrite find_one_eq.
  unfold documents. fold q. rewrite Hf. cbn [fmap option_fmap option_map project foldr].
  assert (Hh' : delete "_id" d !! "password_hash" = Some (VStr h))
    by (by rewrite lookup_delete_ne).
  assert (Hu' : delete "_id" d !! "username"
                = Some (VStr (UserLogin.username user_login)))
    by (by rewrite lookup_delete_ne).
  rewrite (dict_truthy_lookup _ _ _ Hh').
  cbn [negb]. unfold dict_item, lift, pure, or_raise. rewrite Hh', Hu'.
  unfold do_verify_password, do_create_access_token, bind, emit, ret.
  fold password w1 w2.
  destruct (verify_password password h); cbn [negb]; [|done].
  unfold dict_get_default. rewrite lookup_delete_ne by done.
  destruct (truthy (default (VBool true) (d !! "is_active"))); cbn [negb]; [|done].
  fold data w3.
  destruct (convert_timestamps (delete "_id" d)) as [d'|e]; [|done].
  unfold User_of, or_raise.
  by destruct (User_validate _ _).
Qed.

Lemma login_preserves_db (rt : runtime) (user_login : UserLogin.t) :
  preserves_db (login rt user_login).
Proof.
  unfold login, dict_item, do_verify_password, do_create_access_token. readonly.
Qed.

(** [login] on a stored document without a hash, or with a hash that is
    not a string. *)
Lemma login_no_hash (rt : runtime) (user_login : UserLogin.t) (w : world) (d : doc) :
  let q : doc := {["username" := VStr (UserLogin.username user_login)]} in
  List.find (matches q) (db_users w) = Some d ->
  d !! "password_hash" = None ->
  login rt user_login w
  = (Raise (KeyError "password_hash"), logged (db_find_one users q) w).
Proof.
  intros q Hf Hh.
  destruct (find_singleton_VStr _ _ _ _ Hf) as [_ Hu].
  unfold login, bind. rewrite find_one_eq.
  unfold documents. fold q. rewrite Hf. cbn [fmap option_fmap option_map project foldr].
  assert (Hu' : delete "_id" d !! "username"
                = Some (VStr (UserLogin.username user_login)))
    by (by rewrite lookup_delete_ne).
  rewrite (dict_truthy_lookup _ _ _ Hu'). cbn [negb].
  unfold dict_item, lift, pure, or_raise.
  rewrite lookup_delete_ne by done. by rewrite Hh.
Qed.

Lemma login_other_hash (rt : runtime) (user_login : UserLogin.t) (w : world)
    (d : doc) (v : value) :
  let q : doc := {["username" := VStr (UserLogin.username user_login)]} in
  List.find (matches q) (db_users w) = Some d ->
  d !! "password_hash" = Some v ->
  (forall h, v ≠ VStr h) ->
  login rt user_login w
  = (Raise TypeError,
     logged (call_verify_password (UserLogin.password user_login) v)
       (logged (db_find_one users q) w)).
Proof.
  intros q Hf Hh Hv.
  unfold login, bind. rewrite find_one_eq.
  unfold documents. fold q. rewrite Hf. cbn [fmap option_fmap option_map project foldr].
  assert (Hh' : delete "_id" d !! "password_hash" = Some v)
    by (by rewrite lookup_delete_ne).
  rewrite (dict_truthy_lookup _ _ _ Hh'). cbn [negb].
  unfold dict_item, lift, pure, or_raise. rewrite Hh'.
  unfold do_verify_password, bind, emit, raise.
  destruct v as [| | |h| |]; try done. by destruct (Hv h).
Qed.

End Login.

(** ** A registered user can be loaded again

    The documents [register] writes are accepted by the [User] model when
    the libraries read back what they printed, so the conditions "the
    stored document loads" of the statements above hold for every user
    that was registered. *)

Section RoundTrip.
Context `{Auth} `{Library}.

Lemma find_app_None {A} (f : A -> bool) (l l' : list A) :
  List.find f l = None -> List.find f (l ++ l') = List.find f l'.
Proof.
  induction l as [|x l IH]; simpl; [done|].
  destruct (f x); [discriminate | exact IH].
Qed.

Lemma stored_user_loads (u : User.t) (h oid : string) (dflt : defaults) :
  fromisoformat (isoformat (User.created_at u)) = Some (User.created_at u) ->
  fromisoformat (isoformat (User.updated_at u)) = Some (User.updated_at u) ->
  validate_email (User.email u) = Some (User.email u) ->
  load_User dflt
    (project ["_id"; "password_hash"]
       (<["_id" := VObjectId oid]>
          (<["updated_at" := VStr (isoformat (User.updated_at u))]>
             (<["created_at" := VStr (isoformat (User.created_at u))]>
                (UserInDB_model_dump (UserInDB.Build u h))))))
  = Ok u.
Proof.
  destruct u as [b id c upd]. destruct b. unfold User.email. simpl.
  intros Hc Hu He.
  unfold load_User, convert_timestamps, convert_timestamp.
  set (m := delete "_id" _).
  assert (dict_get m "created_at" = VStr (isoformat c)) as -> by reflexivity.
  rewrite Hc. cbn [or_raise result_bind].
  set (m1 := <["created_at" := VDatetime c]> m).
  assert (dict_get m1 "updated_at" = VStr (isoformat upd)) as -> by reflexivity.
  rewrite Hu. cbn [or_raise result_bind].
  set (m2 := <["updated_at" := VDatetime upd]> m1).
  unfold User_of, User_validate, UserBase_validate.
  assert (m2 !! "username" = Some (VStr username)) as -> by reflexivity.
  assert (m2 !! "email" = Some (VStr email)) as -> by reflexivity.
  assert (m2 !! "name" = Some (VStr name)) as -> by reflexivity.
  assert (m2 !! "role" = Some (VStr (UserRole_value role))) as -> by reflexivity.
  assert (m2 !! "phone" = Some (optional_str_value phone)) as -> by reflexivity.
  assert (m2 !! "address" = Some (optional_str_value address)) as -> by reflexivity.
  assert (m2 !! "photo" = Some (optional_str_value photo)) as -> by reflexivity.
  assert (m2 !! "is_active" = Some (VBool is_active)) as -> by reflexivity.
  assert (m2 !! "id" = Some (VStr id)) as -> by reflexivity.
  assert (m2 !! "created_at" = Some (VDatetime c)) as -> by reflexivity.
  assert (m2 !! "updated_at" = Some (VDatetime upd)) as -> by reflexivity.
  rewrite !validate_optional_str_value. simpl.
  by rewrite He, UserRole_of_string_value.
Qed.

(** Registration followed by the resolution of a token for the new
    username returns the registered user. *)
Lemma register_then_get_current_user (rt rt' : runtime) (user_create : UserCreate.t)
    (w : world) (u : User.t) (token : string) (payload : doc) :
  outcome (register rt user_create w) = Ok u ->
  decode_access_token token = Some payload ->
  payload !! "sub" = Some (VStr (User.username u)) ->
  fromisoformat (isoformat (User.created_at u)) = Some (User.created_at u) ->
  fromisoformat (isoformat (User.updated_at u)) = Some (User.updated_at u) ->
  validate_email (User.email u) = Some (User.email u) ->
  outcome (get_current_user rt' token (final (register rt user_create w))) = Ok u.
Proof.
  intros Hreg Hdec Hsub Hc Hu He.
  rewrite get_current_user_eq. cbv zeta. rewrite Hdec.
  assert (Hg : dict_get payload "sub" = VStr (User.username u))
    by (unfold dict_get; by rewrite Hsub).
  rewrite Hg, bool_decide_eq_false_2 by done.
  revert Hreg. unfold register, bind. rewrite find_one_eq. unfold documents.
  destruct (List.find _ (db_users w)) as [d|] eqn:Hf1.
  { by rewrite (found_truthy_singleton _ _ _ _ Hf1). }
  cbn [fmap option_fmap option_map found_truthy]. rewrite find_one_eq.
  cbn [documents db_users logged].
  destruct (List.find (matches {["email" := _]}) (db_users w)) as [d|] eqn:Hf2.
  { by rewrite (found_truthy_singleton _ _ _ _ Hf2). }
  cbn [fmap option_fmap option_map found_truthy].
  unfold do_get_password_hash, bind, emit, ret. rewrite insert_one_eq.
  cbn [outcome final fst snd put_collection documents db_users logged].
  intros [= <-]. cbn [User.username User.base] in *.
  rewrite (find_app_None _ _ _ Hf1). cbn [List.find].
  rewrite matches_singleton.
  assert (field_matches
            (<["_id" := VObjectId (new_object_id rt)]>
               (<["updated_at" := VStr (isoformat (default_updated_at (factories rt 0 0)))]>
                  (<["created_at" :=
                       VStr (isoformat (default_created_at (factories rt 0 0)))]>
                     (UserInDB_model_dump
                        (UserInDB.Build
                           (User.Build (UserCreate.base user_create)
                              (default_id (factories rt 0 0))
                              (default_created_at (factories rt 0 0))
                              (default_updated_at (factories rt 0 0)))
                           (get_password_hash (UserCreate.password user_create)))))))
            "username" (VStr (UserBase.username (UserCreate.base user_create))) = true)
    as ->.
  { apply field_matches_Some; [done | reflexivity]. }
  cbn [outcome fst].
  exact (stored_user_loads
           (User.Build (UserCreate.base user_create) (default_id (factories rt 0 0))
              (default_created_at (factories rt 0 0))
              (default_updated_at (factories rt 0 0)))
           _ _ _ Hc Hu He).
Qed.

End RoundTrip.

(** ** C5: the active flag is checked at login only *)

Section Deactivated.
Context `{Auth} `{Library}.


End Deactivated.

(** ** C4: no response carries the password hash *)

Section Responses.
Context `{Auth} `{Library}.

Lemma bind_Ok_inv {A B} (m : M A) (k : A -> M B) (w : world) (b : B) :
  outcome (bind m k w) = Ok b ->
  exists a w', m w = (Ok a, w') /\ outcome (k a w') = Ok b.
Proof.
  unfold bind. destruct (m w) as [[a|e] w']; [|discriminate].
  intros Hk. by exists a, w'.
Qed.

(** A route that ends in [ret (f a)] answers with an [f a]. *)
Lemma bind_ret_Ok_inv {A B} (m : M A) (f : A -> B) (w : world) (b : B) :
  outcome (bind m (fun a => ret (f a)) w) = Ok b -> exists a, b = f a.
Proof.
  intros (a & w' & _ & Hb)%bind_Ok_inv. exists a. by injection Hb.
Qed.

Lemma user_body_no_password_hash (u : User.t) :
  has_field "password_hash" (json_of_dict (User_model_dump u)) = false.
Proof. reflexivity. Qed.

Lemma body_no_password_hash (resp : response) :
  has_field "password_hash" (body resp) = false.
Proof.
  destruct resp as [u|l|t|x|m]; try reflexivity.
  cbn [body has_field]. induction l as [|u l IH]; [done|].
  cbn [fmap list_fmap existsb]. rewrite user_body_no_password_hash. exact IH.
Qed.

(** C4. Whatever the request, a successful response of the application has
    no field named [password_hash] anywhere in its body. Registration,
    self-info and user-read answer with one user, login with a token and a
    user, and the user list with a list of users: none of these records
    carries the stored hash. *)
Theorem responses_exclude_password_hash :
  forall (rt : runtime) (credentials : option string) (req : request)
         (w : world) (resp : response),
    outcome (app rt credentials req w) = Ok resp ->
    has_field "password_hash" (body resp) = false
    /\ match req with
       | POST_auth_register _ | GET_auth_me | GET_users_id _ =>
           exists u, resp = UserResponse u
                     /\ User_model_dump u !! "password_hash" = None
       | POST_auth_login _ =>
           exists t, resp = TokenResponse t
                     /\ User_model_dump (Token.user t) !! "password_hash" = None
       | GET_users _ =>
           exists l, resp = UserListResponse l
                     /\ Forall (fun u => User_model_dump u !! "password_hash" = None) l
       | _ => True
       end.
Proof.
  intros rt credentials req w resp Hok.
  split; [apply body_no_password_hash|].
  destruct req; unfold app in Hok; try done.
  - apply bind_ret_Ok_inv in Hok as [u ->]. by exists u.
  - apply bind_ret_Ok_inv in Hok as [t ->]. by exists t.
  - apply bind_Ok_inv in Hok as (cu & w' & _ & Hok).
    apply bind_ret_Ok_inv in Hok as [u ->]. by exists u.
  - apply bind_Ok_inv in Hok as (cu & w' & _ & Hok).
    apply bind_ret_Ok_inv in Hok as [l ->]. exists l. split; [done|].
    by apply Forall_forall.
  - apply bind_Ok_inv in Hok as (cu & w' & _ & Hok).
    apply bind_ret_Ok_inv in Hok as [u ->]. by exists u.
Qed.

End Responses.

(** ** C10: the settings are public *)

Section PublicSettings.
Context `{Auth} `{Library}.

Lemma filter_not_matches_empty (l : list doc) :
  List.filter (fun d => negb (matches ∅ d)) l = [].
Proof.
  induction l as [|d l IH]; [done|]. simpl. by rewrite matches_empty.
Qed.

(** The settings collection after [create_settings]: one document. *)
Lemma create_settings_stored (rt : runtime) (settings_create : SettingsBase.t)
    (current_user : User.t) (w : world) :
  db_settings (final (create_settings rt settings_create current_user w))
  = [<["_id" := VObjectId (new_object_id rt)]>
       (<["updated_at" := VStr (isoformat (utcnow rt 0))]>
          (Settings_model_dump
             (Settings.Build settings_create (uuid4 rt 0) (utcnow rt 0))))].
Proof.
  unfold create_settings, delete_many, insert_one, emit, get_collection,
    put_collection, ret, bind.
  cbn [final snd fst db_settings documents logged].
  by rewrite filter_not_matches_empty.
Qed.

(** The stored settings document, read back. *)
Lemma Settings_validate_stored (x : Settings.t) (oid iso fresh_id : string)
    (now : datetime) :
  (forall e, SettingsBase.email (Settings.base x) = Some e -> validate_email e = Some e) ->
  Settings_validate fresh_id now
    (<["updated_at" := VDatetime (Settings.updated_at x)]>
       (project ["_id"]
          (<["_id" := VObjectId oid]>
             (<["updated_at" := VStr iso]> (Settings_model_dump x)))))
  = Some x.
Proof.
  intros Hemail. destruct x as [b id upd]. destruct b. simpl in Hemail.
  unfold Settings_validate, SettingsBase_validate.
  set (m := <["updated_at" := _]> _).
  assert (m !! "school_name" = Some (VStr school_name)) as -> by reflexivity.
  assert (m !! "school_code" = Some (optional_str_value school_code)) as -> by reflexivity.
  assert (m !! "address" = Some (optional_str_value address)) as -> by reflexivity.
  assert (m !! "phone" = Some (optional_str_value phone)) as -> by reflexivity.
  assert (m !! "email" = Some (optional_str_value email)) as -> by reflexivity.
  assert (m !! "website" = Some (optional_str_value website)) as -> by reflexivity.
  assert (m !! "logo" = Some (optional_str_value logo)) as -> by reflexivity.
  assert (m !! "currency" = Some (VStr currency)) as -> by reflexivity.
  assert (m !! "currency_symbol" = Some (VStr currency_symbol)) as -> by reflexivity.
  assert (m !! "timezone" = Some (VStr timezone)) as -> by reflexivity.
  assert (m !! "language" = Some (VStr language)) as -> by reflexivity.
  assert (m !! "date_format" = Some (VStr date_format)) as -> by reflexivity.
  assert (m !! "time_format" = Some (VStr time_format)) as -> by reflexivity.
  assert (m !! "id" = Some (VStr id)) as -> by reflexivity.
  assert (m !! "updated_at" = Some (VDatetime upd)) as -> by reflexivity.
  rewrite !validate_optional_str_value.
  assert (validate_optional_EmailStr (Some (optional_str_value email)) = Some email) as ->.
  { destruct email as [e|]; [|done]. simpl. by rewrite (Hemail e). }
  reflexivity.
Qed.

(** C10. [GET /settings] declares no dependency: the application answers it
    in the same way with or without bearer credentials, and without
    decoding any token. When the settings collection is empty the answer is
    a success carrying the default settings, whose [school_name] is "School
    Management System". When the collection holds the document that
    [create_settings] wrote, and the libraries read back what they printed,
    the answer is that settings object. *)
Theorem get_settings_needs_no_credentials :
  forall (rt : runtime) (credentials : option string) (w : world),
    let r := app rt None GET_settings w in
    app rt credentials GET_settings w = r
    /\ trace (final r) = (trace w ++ [db_find_one settings ∅])%list
    /\ db_users (final r) = db_users w
    /\ db_settings (final r) = db_settings w
    /\ (db_settings w = [] ->
        outcome r
        = Ok (SettingsResponse
                (Settings.Build
                   (SettingsBase.Build "School Management System"
                      None None None None None None
                      "USD" "$" "UTC" "en" "YYYY-MM-DD" "HH:mm")
                   (uuid4 rt 0) (utcnow rt 0))))
    /\ (forall (rt0 : runtime) (settings_create : SettingsBase.t)
               (admin : User.t) (w0 : world),
          db_settings w = db_settings (final (create_settings rt0 settings_create admin w0)) ->
          fromisoformat (isoformat (utcnow rt0 0)) = Some (utcnow rt0 0) ->
          (forall e, SettingsBase.email settings_create = Some e ->
                     validate_email e = Some e) ->
          outcome r
          = Ok (SettingsResponse
                  (Settings.Build settings_create (uuid4 rt0 0) (utcnow rt0 0)))).
Proof.
  intros rt credentials w r. subst r.
  unfold app, get_settings, bind. rewrite find_one_eq. unfold documents.
  split_and!.
  - done.
  - destruct (List.find _ _) as [d|]; simpl.
    + destruct (dict_truthy _); simpl; [|done].
      unfold pure. destruct (convert_timestamp _ _); simpl; [|done].
      by destruct (Settings_validate _ _ _).
    + done.
  - destruct (List.find _ _) as [d|]; simpl.
    + destruct (dict_truthy _); simpl; [|done].
      unfold pure. destruct (convert_timestamp _ _); simpl; [|done].
      by destruct (Settings_validate _ _ _).
    + done.
  - destruct (List.find _ _) as [d|]; simpl.
    + destruct (dict_truthy _); simpl; [|done].
      unfold pure. destruct (convert_timestamp _ _); simpl; [|done].
      by destruct (Settings_validate _ _ _).
    + done.
  - by intros ->.
  - intros rt0 settings_create admin w0 -> Hiso Hemail.
    rewrite create_settings_stored. cbn [List.find].
    rewrite matches_empty. cbn [fmap option_fmap option_map].
    set (stored := <["_id" := _]> _).
    assert (Hs : project ["_id"] stored !! "school_name"
                 = Some (VStr (SettingsBase.school_name settings_create)))
      by reflexivity.
    cbn [found_truthy]. rewrite (dict_truthy_lookup _ _ _ Hs). cbn [negb].
    assert (Hu : dict_get (project ["_id"] stored) "updated_at"
                 = VStr (isoformat (utcnow rt0 0))) by reflexivity.
    unfold convert_timestamp. rewrite Hu, Hiso. unfold pure, lift, or_raise, result_bind.
    subst stored.
    by rewrite (Settings_validate_stored
                  (Settings.Build settings_create (uuid4 rt0 0) (utcnow rt0 0))).
Qed.

End PublicSettings.

(** ** C6 and C7: what an update can change *)

Lemma keeps_field_preserves_db (k : string) {A} (m : M A) :
  preserves_db m -> keeps_field k m.
Proof.
  intros Hm w. unfold stored_field. by rewrite (proj1 (Hm w)).
Qed.

Lemma keeps_field_bind (k : string) {A B} (m : M A) (f : A -> M B) :
  keeps_field k m -> (forall a, keeps_field k (f a)) -> keeps_field k (bind m f).
Proof.
  intros Hm Hf w. unfold bind. specialize (Hm w).
  destruct (m w) as [[a|e] w']; simpl in Hm; [|done].
  etrans; [exact Hm | apply Hf].
Qed.

Lemma keeps_field_insert_one (k : string) (c : collection) (oid : string) (d : doc) :
  keeps_field k (insert_one c oid d).
Proof.
  intros w. rewrite insert_one_eq. unfold stored_field.
  destruct c; cbn [final snd put_collection db_users logged documents]; [|done].
  rewrite fmap_app. by apply prefix_app_r.
Qed.

Lemma insert_keeps_field (k : string) (set d : doc) (l : list doc) (i : nat) :
  set !! k = None -> l !! i = Some d ->
  (fun x : doc => x !! k) <$> <[i := set ∪ d]> l = (fun x : doc => x !! k) <$> l.
Proof.
  intros Hk Hi. rewrite list_fmap_insert, lookup_union_r by done.
  apply list_insert_id. by rewrite list_lookup_fmap, Hi.
Qed.

Lemma keeps_field_update_one (k : string) (filter set : doc) :
  set !! k = None -> keeps_field k (update_one users filter set).
Proof.
  intros Hk w. rewrite update_one_eq. cbv zeta. unfold stored_field, documents.
  destruct (sets_fields set); [|done]. destruct (encodes set); [|done]. simpl.
  destruct (set_first filter set (db_users w)) as [[l'|]|e] eqn:Hs; [|done|done].
  cbn [final snd put_collection db_users logged].
  apply set_first_Some in Hs as (i & d & _ & Hi & ->).
  by rewrite (insert_keeps_field k _ _ _ _ Hk Hi).
Qed.

Lemma keeps_field_delete_many_settings (k : string) (filter : doc) :
  keeps_field k (delete_many settings filter).
Proof. by intros w. Qed.

Section Updates.
Context `{Auth} `{Library}.

Lemma get_current_user_preserves_db (rt : runtime) (token : string) :
  preserves_db (get_current_user rt token).
Proof. unfold get_current_user, do_decode_access_token. readonly. Qed.

Lemma Depends_get_current_user_preserves_db (rt : runtime) (credentials : option string) :
  preserves_db (Depends_get_current_user rt credentials).
Proof.
  unfold Depends_get_current_user, security.
  apply preserves_db_bind; [readonly | intros; apply get_current_user_preserves_db].
Qed.

Lemma require_role_preserves_db (allowed_roles : list UserRole) (u : User.t) :
  preserves_db (require_role allowed_roles u).
Proof. unfold require_role. readonly. Qed.

Lemma Depends_require_role_preserves_db (allowed_roles : list UserRole)
    (rt : runtime) (credentials : option string) :
  preserves_db (Depends_require_role allowed_roles rt credentials).
Proof.
  unfold Depends_require_role.
  apply preserves_db_bind;
    [apply Depends_get_current_user_preserves_db | intros; apply require_role_preserves_db].
Qed.

Lemma get_users_preserves_db (rt : runtime) (role : option UserRole) (u : User.t) :
  preserves_db (get_users rt role u).
Proof. unfold get_users. readonly. Qed.

Lemma get_user_preserves_db (rt : runtime) (user_id : string) (u : User.t) :
  preserves_db (get_user rt user_id u).
Proof. unfold get_user. readonly. Qed.

Lemma get_settings_preserves_db (rt : runtime) : preserves_db (get_settings rt).
Proof. unfold get_settings. readonly. Qed.

Lemma register_keeps_field (k : string) (rt : runtime) (user_create : UserCreate.t) :
  keeps_field k (register rt user_create).
Proof.
  unfold register, do_get_password_hash.
  repeat first
    [ apply keeps_field_insert_one
    | apply keeps_field_bind; [|intros ?]
    | match goal with
      | |- keeps_field _ (if ?x then _ else _) => destruct x
      end
    | apply keeps_field_preserves_db; readonly ].
Qed.

Lemma create_settings_keeps_field (k : string) (rt : runtime)
    (settings_create : SettingsBase.t) (u : User.t) :
  keeps_field k (create_settings rt settings_create u).
Proof.
  unfold create_settings.
  apply keeps_field_bind; [apply keeps_field_delete_many_settings | intros _].
  apply keeps_field_bind; [apply keeps_field_insert_one | intros _].
  apply keeps_field_preserves_db; readonly.
Qed.

(** The requests other than updates and deletions keep every field of
    every stored user. *)
Lemma app_keeps_field (k : string) (rt : runtime) (credentials : option string)
    (req : request) :
  match req with
  | PUT_users_id _ _ | DELETE_users_id _ => False
  | _ => True
  end ->
  keeps_field k (app rt credentials req).
Proof.
  intros Hreq.
  pose proof (Depends_get_current_user_preserves_db rt credentials) as Hcu.
  pose proof (Depends_require_role_preserves_db [ADMIN] rt credentials) as Hadm.
  assert (Hret : forall (resp : response), keeps_field k (ret resp))
    by (intros resp; apply keeps_field_preserves_db, preserves_db_ret).
  destruct req; unfold app; try done.
  - apply keeps_field_bind; [apply register_keeps_field | done].
  - apply keeps_field_bind;
      [apply keeps_field_preserves_db, login_preserves_db | done].
  - apply keeps_field_bind; [by apply keeps_field_preserves_db | intros cu].
    apply keeps_field_bind; [|done].
    apply keeps_field_preserves_db, preserves_db_ret.
  - apply keeps_field_bind; [by apply keeps_field_preserves_db | intros cu].
    apply keeps_field_bind; [|done].
    apply keeps_field_preserves_db, get_users_preserves_db.
  - apply keeps_field_bind; [by apply keeps_field_preserves_db | intros cu].
    apply keeps_field_bind; [|done].
    apply keeps_field_preserves_db, get_user_preserves_db.
  - apply keeps_field_bind; [by apply keeps_field_preserves_db | intros cu].
    apply keeps_field_bind; [|done].
    apply create_settings_keeps_field.
  - apply keeps_field_bind; [|done].
    apply keeps_field_preserves_db, get_settings_preserves_db.
Qed.

(** *** The payload of [$set] *)

Lemma stamped_lookup (rt : runtime) (updates : doc) (k : string) :
  k ≠ "updated_at" ->
  stamped rt updates !! k = if bool_decide (k = "password") then None else updates !! k.
Proof.
  intros Hk. unfold stamped. rewrite lookup_insert_ne by done.
  case_bool_decide as Hp; case_bool_decide as Hk'; subst;
    rewrite ?lookup_delete_eq, ?lookup_delete_ne by done; try done.
  destruct (updates !! "password") eqn:E; [|done]. destruct Hp. by eexists.
Qed.

Lemma stamped_stamp (rt : runtime) (updates : doc) :
  stamped rt updates !! "updated_at" = Some (VStr (isoformat (utcnow rt 0))).
Proof. unfold stamped. by rewrite lookup_insert_eq. Qed.

Lemma stamped_Some (rt : runtime) (updates : doc) (k : string) (v : value) :
  stamped rt updates !! k = Some v ->
  (k = "updated_at" /\ v = VStr (isoformat (utcnow rt 0)))
  \/ (k ≠ "updated_at" /\ updates !! k = Some v).
Proof.
  destruct (decide (k = "updated_at")) as [->|Hk].
  - rewrite stamped_stamp. intros [= <-]. by left.
  - rewrite stamped_lookup by done. case_bool_decide; [discriminate|]. by right.
Qed.

Lemma sets_fields_stamped (rt : runtime) (updates : doc) :
  sets_fields (stamped rt updates) = sets_fields updates.
Proof.
  apply eq_true_iff_eq. rewrite !sets_fields_spec. split.
  - intros Hall k v Hk.
    destruct (decide (k = "updated_at")) as [->|Hne]; [done|].
    destruct (decide (k = "password")) as [->|Hp]; [done|].
    apply (Hall k v). rewrite stamped_lookup by done.
    by rewrite bool_decide_eq_false_2.
  - intros Hall k v [[-> _]|[_ Hk]]%stamped_Some; [done | by apply (Hall k v)].
Qed.

Lemma encodes_stamped (rt : runtime) (updates : doc) :
  encodes updates = true -> encodes (stamped rt updates) = true.
Proof.
  rewrite !encodes_spec.
  intros Hall k v [[_ ->]|[_ Hk]]%stamped_Some; [done | by apply (Hall k v)].
Qed.

(** *** What [update_user] does once the request is permitted *)

Lemma update_user_eq (rt : runtime) (user_id : string) (updates : doc)
    (u : User.t) (w : world) :
  User.id u = user_id \/ User.role u = ADMIN ->
  let set := stamped rt updates in
  let q : doc := {["id" := VStr user_id]} in
  let w1 := logged (db_update_one users q set) w in
  update_user rt user_id updates u w
  = if negb (sets_fields set) then (Raise (NotModelled "update path"), w1)
    else if negb (encodes set) then (Raise OverflowError, w1)
    else
      match set_first q set (db_users w) with
      | Raise e => (Raise e, w1)
      | Ok None => (Raise (HTTPException 404 "User not found"), w1)
      | Ok (Some l') =>
          let w2 :=
            logged (db_find_one users q) (World l' (db_settings w) (trace w1)) in
          match List.find (matches q) l' with
          | None => (Raise AttributeError, w2)
          | Some d' =>
              (load_User (factories rt 1 0) (project ["_id"; "password_hash"] d'), w2)
          end
      end.
Proof.
  intros Hperm set q w1. unfold update_user.
  assert (bool_decide (User.id u ≠ user_id) && bool_decide (User.role u ≠ ADMIN) = false)
    as ->.
  { apply andb_false_iff. destruct Hperm as [Hp|Hp]; [left | right];
      apply bool_decide_eq_false_2; by intros Hn. }
  unfold bind. rewrite update_one_eq. cbv zeta. unfold documents.
  fold (stamped rt updates). fold set q w1.
  destruct (sets_fields set); [|done]. destruct (encodes set); [|done]. cbn [negb].
  destruct (set_first q set (db_users w)) as [[l'|]|e]; [|done|done].
  cbn [Nat.eqb]. rewrite find_one_eq.
  cbn [documents put_collection snd logged db_users db_settings trace].
  by destruct (List.find (matches q) l').
Qed.

Lemma update_user_refused (rt : runtime) (user_id : string) (updates : doc)
    (u : User.t) (w : world) :
  ~ (User.id u = user_id \/ User.role u = ADMIN) ->
  update_user rt user_id updates u w
  = (Raise (HTTPException 403 "Not enough permissions"), w).
Proof.
  intros Hperm. unfold update_user.
  assert (bool_decide (User.id u ≠ user_id) && bool_decide (User.role u ≠ ADMIN) = true)
    as ->; [|done].
  apply andb_true_iff. split; apply bool_decide_eq_true_2; intros Hn; apply Hperm; auto.
Qed.

(** The users collection after [update_user]: as it was, or with the
    first user that has the id rewritten. The settings are never
    touched. *)
Lemma update_user_db (rt : runtime) (user_id : string) (updates : doc)
    (u : User.t) (w : world) :
  let r := update_user rt user_id updates u w in
  (db_users (final r) = db_users w
   \/ (User.id u = user_id \/ User.role u = ADMIN)
      /\ sets_fields updates = true
      /\ exists i d,
           writes_at {["id" := VStr user_id]} (stamped rt updates) (db_users w) = Some i
           /\ db_users w !! i = Some d
           /\ db_users (final r) = <[i := stamped rt updates ∪ d]> (db_users w))
  /\ db_settings (final r) = db_settings w.
Proof.
  intros r. subst r.
  destruct (decide (User.id u = user_id \/ User.role u = ADMIN)) as [Hperm|Hperm];
    [|rewrite (update_user_refused _ _ _ _ _ Hperm); by split; [left|]].
  rewrite (update_user_eq _ _ _ _ _ Hperm). cbv zeta. unfold writes_at.
  rewrite sets_fields_stamped.
  destruct (sets_fields updates) eqn:Hs; [|by split; [left|]].
  destruct (encodes _); [|by split; [left|]]. simpl.
  destruct (set_first _ _ (db_users w)) as [[l'|]|e] eqn:Hf;
    [|by split; [left|]|by split; [left|]].
  apply set_first_Some in Hf as (i & d & Hp & Hi & ->).
  split.
  - right. split_and!; [done | done |]. exists i, d.
    split_and!; [done | done |]. by destruct (List.find _ _).
  - by destruct (List.find _ _).
Qed.

(** *** One request, and a sequence of requests *)

Lemma app_untouched (k : string) (i : nat) (rt : runtime)
    (credentials : option string) (req : request) (w : world) (r : option value) :
  k ≠ "updated_at" ->
  rewrites k i rt credentials req w = false ->
  stored_field k w !! i = Some r ->
  stored_field k (final (app rt credentials req w)) !! i = Some r.
Proof.
  intros Hk Hreq Hi.
  destruct req as [| | | | |user_id updates|user_id| |];
    try (eapply prefix_lookup_Some; [exact Hi | by apply app_keeps_field]);
    try discriminate Hreq.
  unfold app, bind. cbn [rewrites] in Hreq. unfold outcome in Hreq.
  pose proof (Depends_get_current_user_preserves_db rt credentials w) as [Hdb _].
  unfold final in Hdb.
  destruct (Depends_get_current_user rt credentials w) as [[cu|e] w'] eqn:Hdep;
    cbn [fst snd] in *; [|unfold stored_field, final in *; cbn [snd]; by rewrite Hdb].
  assert (Hrun : stored_field k (final (update_user (advance 2 1 rt) user_id updates cu w'))
                   !! i = Some r).
  { destruct (update_user_db (advance 2 1 rt) user_id updates cu w')
      as [[Hsame|(Hperm & Hfields & j & d & Hp & Hj & Hnew)] _];
      unfold stored_field in *; [by rewrite Hsame, Hdb|].
    rewrite Hnew, Hdb in *.
    assert (Hguard : bool_decide (User.id cu = user_id)
                     || bool_decide (User.role cu = ADMIN) = true).
    { apply orb_true_iff. destruct Hperm; [left | right]; by apply bool_decide_eq_true_2. }
    rewrite Hguard, Hfields in Hreq. cbn [andb negb orb] in Hreq.
    apply andb_false_iff in Hreq as [Hnone|Hother].
    - assert (Hnk : stamped (advance 2 1 rt) updates !! k = None).
      { rewrite stamped_lookup by done.
        destruct (bool_decide (k = "password")); [done|].
        apply bool_decide_eq_false in Hnone.
        destruct (updates !! k) eqn:E; [|done]. destruct Hnone. by eexists. }
      by rewrite (insert_keeps_field k _ _ _ _ Hnk Hj).
    - apply bool_decide_eq_false in Hother.
      rewrite list_lookup_fmap, list_lookup_insert_ne, <- list_lookup_fmap; [done|].
      intros <-. by apply Hother. }
  by destruct (update_user (advance 2 1 rt) user_id updates cu w') as [[u'|e] w''].
Qed.

Lemma run_untouched (k : string) (i : nat)
    (reqs : list (runtime * option string * request)) (w : world) (r : option value) :
  k ≠ "updated_at" ->
  untouched k i reqs w ->
  stored_field k w !! i = Some r ->
  stored_field k (run reqs w) !! i = Some r.
Proof.
  intros Hk. revert w.
  induction reqs as [|[[rt credentials] req] reqs IH]; intros w; [done|].
  cbn [untouched fst snd]. intros [Hreq Hrest] Hi.
  unfold run. cbn [foldl fst snd]. apply IH; [exact Hrest|].
  by apply app_untouched.
Qed.

(** C6, as the code has it. Across any sequence of requests, the user
    stored at a position keeps its stored role as long as no request of
    the sequence is a deletion, or an update that passes the self-or-admin
    check and either is written to that user with a payload that has a
    [role] key, or has a key that is not a field name. Registrations,
    logins, token resolutions, reads, the settings routes, updates of other
    users and updates that are refused, by the credentials, by the
    self-or-admin check or by the store, never touch it. An update sent by
    the user itself or by an admin, whose payload has a [role] key beside
    other field names, values that can be encoded and no [_id], does store
    the payload's value as the role of the first user with the id, whatever
    role was stored. *)
Theorem role_kept_unless_update_names_it :
  (forall (reqs : list (runtime * option string * request)) (w : world)
          (i : nat) (r : option value),
     untouched "role" i reqs w ->
     stored_field "role" w !! i = Some r ->
     stored_field "role" (run reqs w) !! i = Some r)
  /\ (forall (rt : runtime) (user_id : string) (updates : doc) (u : User.t)
             (w : world) (v : value) (d : doc),
        updates !! "role" = Some v ->
        sets_fields updates = true ->
        encodes updates = true ->
        updates !! "_id" = None ->
        User.id u = user_id \/ User.role u = ADMIN ->
        List.find (matches {["id" := VStr user_id]}) (db_users w) = Some d ->
        exists i, position {["id" := VStr user_id]} (db_users w) = Some i
                  /\ db_users w !! i = Some d
                  /\ stored_field "role" (final (update_user rt user_id updates u w)) !! i
                     = Some (Some v)).
Proof.
  split.
  - intros reqs w i r Hall Hi. by apply run_untouched.
  - intros rt user_id updates u w v d Hv Hfields Henc Hid Hperm Hf.
    assert (Hid' : stamped rt updates !! "_id" = None).
    { rewrite stamped_lookup by done. by rewrite bool_decide_eq_false_2. }
    destruct (find_set_first _ (stamped rt updates) _ _ Hid' Hf) as (i & Hp & Hi & Hs).
    exists i. split_and!; [done | done |].
    rewrite (update_user_eq _ _ _ _ _ Hperm). cbv zeta.
    rewrite sets_fields_stamped, Hfields, (encodes_stamped _ _ Henc), Hs. simpl.
    assert (Hdb : forall x : result User.t * world,
              db_users (snd x) = <[i := stamped rt updates ∪ d]> (db_users w) ->
              stored_field "role" (final x) !! i = Some (Some v)).
    { intros x Hx. unfold stored_field, final. rewrite Hx.
      rewrite list_lookup_fmap, list_lookup_insert_eq by (by eapply lookup_lt_Some).
      cbn [fmap option_fmap option_map]. f_equal. apply lookup_union_Some_l.
      rewrite stamped_lookup by done. by rewrite bool_decide_eq_false_2. }
    apply Hdb. by destruct (List.find _ (<[i := _]> _)).
Qed.

End Updates.

(** ** The claims on the concrete deployment *)

Section Deployment.
#[local] Existing Instance Scenario.auth.
#[local] Existing Instance Scenario.library.
Import Scenario.

(** C6, as stated, fails: Alice registered as a teacher; one update of her
    own record, with a payload that names [role], makes her stored role
    admin. *)
Lemma update_user_changes_role :
  UserBase.role (UserCreate.base alice) = TEACHER
  /\ stored_field "role" w_alice = [Some (VStr "teacher")]
  /\ stored_field "role"
       (run [(rt2, Some "token:alice",
              PUT_users_id "id-alice" {["role" := VStr "admin"]})] w_alice)
     = [Some (VStr "admin")].
Proof. by vm_compute. Qed.

(** C7 fails on the code. The payload key ["password"] is dropped before
    the update, but the stored field is [password_hash]: a payload that
    names it replaces the stored hash, after which the old password is
    refused and the password of the new hash is accepted. *)
Theorem update_user_overwrites_password_hash :
  let payload : doc := {["password_hash" := VStr "hash:letmein"]} in
  let w' := final (app rt2 (Some "token:alice") (PUT_users_id "id-alice" payload) w_alice) in
  stored_field "password_hash" w_alice = [Some (VStr "hash:secret123")]
  /\ outcome (app rt2 (Some "token:alice") (PUT_users_id "id-alice" payload) w_alice)
     = Ok (UserResponse
             (User.Build (UserCreate.base alice) "id-alice" (Datetime 0)
                (Datetime 1000000)))
  /\ stored_field "password_hash" w' = [Some (VStr "hash:letmein")]
  /\ outcome (login rt (UserLogin.Build "alice" "secret123") w')
     = Raise (HTTPException 401 "Incorrect username or password")
  /\ (exists t, outcome (login rt (UserLogin.Build "alice" "letmein") w') = Ok t)
  /\ stored_field "password_hash"
       (final (app rt2 (Some "token:alice")
                 (PUT_users_id "id-alice" {["password" := VStr "letmein"]}) w_alice))
     = [Some (VStr "hash:secret123")].
Proof.
  cbv zeta. split_and!; try by vm_compute.
  eexists. by vm_compute.
Qed.

(** Discharge a side condition on the concrete database by evaluation. *)
Ltac some_stored := apply existsb_stored_true; vm_compute; reflexivity.

Ltac none_stored := apply existsb_stored_false; vm_compute; reflexivity.

Ltac not_stored :=
  let d := fresh "d" in
  let Hin := fresh "Hin" in
  let Hd := fresh "Hd" in
  intros (d & Hin & Hd); revert d Hin Hd; none_stored.

Ltac evaluated := vm_compute; reflexivity.

(** The same for an equation between documents, decided rather than
    normalised. *)
Ltac decided := apply (bool_decide_eq_true_1 _); vm_compute; reflexivity.

(** C3 on the deployment: the admin-only check refuses the teacher Alice
    and lets the admin Bob through. *)
Lemma require_role_denies_teacher_allows_admin :
  User.role alice_user = TEACHER
  /\ outcome (require_role [ADMIN] alice_user w_three)
     = Raise (HTTPException 403 "Not enough permissions")
  /\ User.role bob_user = ADMIN
  /\ outcome (require_role [ADMIN] bob_user w_three) = Ok bob_user.
Proof.
  destruct (require_role_denies_iff_not_member [ADMIN] alice_user w_three)
    as (_ & _ & _ & Hteacher & _).
  destruct (require_role_denies_iff_not_member [ADMIN] bob_user w_three)
    as (_ & _ & _ & _ & Hadmin).
  split_and!; [reflexivity | apply Hteacher; reflexivity
              | reflexivity | apply Hadmin; reflexivity].
Defined.

(** C8 on the deployment: the teacher Alice may not update Bob, and the
    refused request changes nothing. *)
Lemma update_user_refuses_other_user :
  outcome (update_user rt2 "id-bob" {["name" := VStr "Robert"]} alice_user w_three)
  = Raise (HTTPException 403 "Not enough permissions")
  /\ final (update_user rt2 "id-bob" {["name" := VStr "Robert"]} alice_user w_three)
     = w_three.
Proof.
  destruct (update_user_permitted_iff_self_or_admin rt2 "id-bob"
              {["name" := VStr "Robert"]} alice_user w_three) as [Hiff Hfinal].
  assert (Hno : ~ (User.id alice_user = "id-bob"
                   \/ outcome (require_role [ADMIN] alice_user w_three) = Ok alice_user)).
  { intros [Hid|Hrole]; [discriminate Hid | discriminate Hrole]. }
  split; [apply Hiff, Hno | apply Hfinal, Hno].
Defined.

(** C9 on the deployment: a second Alice, a new name with Alice's email,
    and the registration of Bob. *)
Lemma register_twice_then_other :
  (outcome (register rt2 alice w_alice)
   = Raise (HTTPException 400 "Username already registered")
   /\ db_users (final (register rt2 alice w_alice)) = db_users w_alice)
  /\ (outcome (register rt2 alicia w_alice)
      = Raise (HTTPException 400 "Email already registered")
      /\ db_users (final (register rt2 alicia w_alice)) = db_users w_alice)
  /\ (exists u,
        outcome (register rt2 bob w_alice) = Ok u
        /\ User.base u = UserCreate.base bob
        /\ has_field "password_hash" (body (UserResponse u)) = false).
Proof.
  destruct (register_duplicate_or_public_record rt2 alice w_alice) as (Hname & _ & _).
  destruct (register_duplicate_or_public_record rt2 alicia w_alice) as (_ & Hmail & _).
  destruct (register_duplicate_or_public_record rt2 bob w_alice) as (_ & _ & Hnew).
  split; [|split].
  - assert (Ht : exists d : doc,
               d ∈ db_users w_alice /\ d !! "username" = Some (VStr "alice"))
      by some_stored.
    destruct (Hname Ht) as (Ho & Hu & _). split; assumption.
  - assert (Hn : ~ exists d : doc,
               d ∈ db_users w_alice /\ d !! "username" = Some (VStr "alicia"))
      by not_stored.
    assert (Ht : exists d : doc,
               d ∈ db_users w_alice /\ d !! "email" = Some (VStr "a@x.com"))
      by some_stored.
    destruct (Hmail Hn Ht) as (Ho & Hu & _). split; assumption.
  - assert (Hn : ~ exists d : doc,
               d ∈ db_users w_alice /\ d !! "username" = Some (VStr "bob"))
      by not_stored.
    assert (Hm : ~ exists d : doc,
               d ∈ db_users w_alice /\ d !! "email" = Some (VStr "b@x.com"))
      by not_stored.
    destruct (Hnew Hn Hm) as (u & stored & Ho & Hb & _ & Hf & _).
    exists u. split_and!; assumption.
Defined.


(** C4 on the deployment: the body of Alice's login response. *)
Lemma login_response_has_no_password_hash :
  has_field "password_hash"
    (body (TokenResponse (Token.Build "token:alice" "bearer" alice_user))) = false.
Proof.
  refine (proj1 (responses_exclude_password_hash rt None
                   (POST_auth_login (UserLogin.Build "alice" "secret123")) w_three
                   (TokenResponse (Token.Build "token:alice" "bearer" alice_user)) _)).
  evaluated.
Defined.


(** C6, amended, on the deployment: Alice stays a teacher through a login,
    an update of her name, her refused attempt to make Bob a teacher, Bob's
    change of his own role, her own update of role and [_id], which the
    store refuses, and another registration; her own update that names the
    role makes her an admin. *)
Lemma role_kept_then_changed_on_deployment :
  stored_field "role"
    (run [(rt, None, POST_auth_login (UserLogin.Build "alice" "secret123"));
          (rt2, Some "token:alice",
           PUT_users_id "id-alice" {["name" := VStr "Alice B."]});
          (rt2, Some "token:alice",
           PUT_users_id "id-bob" {["role" := VStr "teacher"]});
          (rt2, Some "token:bob",
           PUT_users_id "id-bob" {["role" := VStr "librarian"]});
          (rt2, Some "token:alice",
           PUT_users_id "id-alice"
             {["role" := VStr "admin"; "_id" := VStr "id-alice"]});
          (rt3, None, POST_auth_register carol)] w_alice_bob) !! 0
  = Some (Some (VStr "teacher"))
  /\ stored_field "role" w_alice_bob !! 0 = Some (Some (VStr "teacher"))
  /\ stored_field "role"
       (final (update_user rt2 "id-alice" {["role" := VStr "admin"]}
                 alice_user w_alice_bob)) !! 0
     = Some (Some (VStr "admin")).
Proof.
  destruct (@role_kept_unless_update_names_it auth library) as [Hkept Hset].
  split_and!.
  - apply Hkept; [|evaluated].
    cbn [untouched fst snd]. repeat (split; [evaluated|]). exact I.
  - evaluated.
  - destruct (Hset rt2 "id-alice" {["role" := VStr "admin"]} alice_user w_alice_bob
                (VStr "admin") alice_doc)
      as (i & Hp & _ & Hi);
      [evaluated | evaluated | evaluated | evaluated | left; reflexivity | decided |].
    assert (H0 : position {["id" := VStr "id-alice"]} (db_users w_alice_bob) = Some 0)
      by evaluated.
    rewrite H0 in Hp. injection Hp as <-. exact Hi.
Defined.

(** C10 on the deployment: the default settings without credentials, and
    the settings an admin stored. *)
Lemma get_settings_on_deployment :
  app rt (Some "garbage") GET_settings w_three = app rt None GET_settings w_three
  /\ (exists x, outcome (app rt None GET_settings w_three) = Ok (SettingsResponse x)
                /\ Settings.school_name x = "School Management System")
  /\ outcome (app rt None GET_settings
                (final (create_settings rt2 school bob_user w_three)))
     = Ok (SettingsResponse (Settings.Build school "id-bob" (Datetime 1000000))).
Proof.
  destruct (get_settings_needs_no_credentials rt (Some "garbage") w_three)
    as (Hsame & _ & _ & _ & Hdefault & _).
  destruct (get_settings_needs_no_credentials rt None
              (final (create_settings rt2 school bob_user w_three)))
    as (_ & _ & _ & _ & _ & Hstored).
  split_and!.
  - exact Hsame.
  - eexists. split; [apply Hdefault; evaluated | reflexivity].
  - apply (Hstored rt2 school bob_user w_three); [reflexivity | evaluated |].
    intros e [= <-]. evaluated.
Defined.

End Deployment.

(** * Further properties of the routes *)

(** ** The admin-only routes *)

Section Gates.
Context `{Auth} `{Library}.

(** X1. On an admin-only route (listing users, deleting a user, writing
    the settings), a request whose token resolves to a user that is not an
    admin is answered 403 "Not enough permissions", and neither collection
    is changed. *)
Theorem admin_routes_refuse_other_roles :
  forall (rt : runtime) (credentials : option string) (req : request)
         (w w' : world) (u : User.t),
    admin_route req = true ->
    Depends_get_current_user rt credentials w = (Ok u, w') ->
    User.role u ≠ ADMIN ->
    app rt credentials req w
    = (Raise (HTTPException 403 "Not enough permissions"), w')
    /\ db_users w' = db_users w
    /\ db_settings w' = db_settings w.
Proof.
  intros rt credentials req w w' u Hadm Hdep Hrole.
  assert (Hreq : Depends_require_role [ADMIN] rt credentials w
                 = (Raise (HTTPException 403 "Not enough permissions"), w')).
  { unfold Depends_require_role, bind. rewrite Hdep. unfold require_role.
    rewrite bool_decide_eq_true_2; [done|].
    rewrite list_elem_of_singleton. exact Hrole. }
  split.
  - destruct req; try discriminate Hadm; unfold app, bind; by rewrite Hreq.
  - pose proof (Depends_get_current_user_preserves_db rt credentials w) as Hp.
    rewrite Hdep in Hp. exact Hp.
Qed.

End Gates.

(** ** Deleting a user *)

Lemma remove_first_None (filter : doc) (l : list doc) :
  List.find (matches filter) l = None -> remove_first filter l = None.
Proof.
  induction l as [|x l IH]; simpl; [done|].
  destruct (matches filter x); [discriminate|].
  intros Hf. by rewrite (IH Hf).
Qed.

Lemma remove_first_Some (filter : doc) (l : list doc) (d : doc) :
  List.find (matches filter) l = Some d ->
  exists l1 l2,
    l = (l1 ++ d :: l2)%list
    /\ remove_first filter l = Some (l1 ++ l2)%list
    /\ Forall (fun x => matches filter x = false) l1.
Proof.
  induction l as [|x l IH]; simpl; [discriminate|].
  destruct (matches filter x) eqn:Hm.
  - intros [= ->]. by exists [], l.
  - intros (l1 & l2 & -> & Hr & Hall)%IH.
    exists (x :: l1), l2. rewrite Hr. split_and!; [done | done | by constructor].
Qed.

Lemma delete_one_eq (c : collection) (filter : doc) (w : world) :
  delete_one c filter w
  = match remove_first filter (documents c w) with
    | Some l' =>
        (Ok 1, snd (put_collection c l' (logged (db_delete_one c filter) w)))
    | None => (Ok 0, logged (db_delete_one c filter) w)
    end.
Proof.
  unfold delete_one, bind, emit, get_collection. simpl.
  replace (documents c (logged (db_delete_one c filter) w)) with (documents c w)
    by (by destruct c).
  by destruct (remove_first filter (documents c w)).
Qed.

Section Deletion.
Context `{Auth} `{Library}.

(** X2. [delete_user] answers 404 "User not found" and changes nothing
    when no stored user has the given id. Otherwise it answers "User
    deleted successfully" and removes exactly one document, the first one
    with that id: the users before it and after it stay, in their order.
    The settings are never touched. *)
Theorem delete_user_removes_first_match :
  forall (user_id : string) (current_user : User.t) (w : world),
    let r := delete_user user_id current_user w in
    ((forall d : doc, d ∈ db_users w -> d !! "id" ≠ Some (VStr user_id)) ->
       outcome r = Raise (HTTPException 404 "User not found")
       /\ db_users (final r) = db_users w)
    /\ (forall d : doc,
          List.find (matches {["id" := VStr user_id]}) (db_users w) = Some d ->
          outcome r = Ok "User deleted successfully"
          /\ exists l1 l2,
               db_users w = (l1 ++ d :: l2)%list
               /\ db_users (final r) = (l1 ++ l2)%list
               /\ Forall (fun x : doc => x !! "id" ≠ Some (VStr user_id)) l1)
    /\ db_settings (final r) = db_settings w.
Proof.
  intros user_id current_user w r. subst r.
  unfold delete_user, bind. rewrite delete_one_eq. unfold documents.
  split_and!.
  - intros Hall.
    rewrite remove_first_None; [done|]. by apply find_singleton_None.
  - intros d Hf.
    destruct (remove_first_Some _ _ _ Hf) as (l1 & l2 & Hl & -> & Hno).
    split; [done|]. exists l1, l2. split_and!; [done | done |].
    eapply Forall_impl; [exact Hno|]. intros x Hx Hid. cbv beta in Hx.
    rewrite matches_singleton in Hx.
    apply (field_matches_Some x "id" (VStr user_id)) in Hid; [congruence | done].
  - by destruct (remove_first _ _).
Qed.


End Deletion.

(** ** Listing users *)



Lemma mapM_pure_world {A B} (f : A -> result B) (l : list A) (w : world) :
  final (mapM (fun a => pure (f a)) l w) = w.
Proof.
  induction l as [|a l IH]; simpl; [done|].
  unfold bind, pure at 1. destruct (f a) as [b|e]; [|done].
  destruct (mapM (fun a => pure (f a)) l w) as [[bs|e] w']; simpl in IH; by subst.
Qed.


Section Listing.
Context `{Auth} `{Library}.


End Listing.

(** ** Updating a user *)

Lemma set_first_app (filter set : doc) (l1 l2 : list doc) (d : doc) :
  set !! "_id" = None ->
  Forall (fun x => matches filter x = false) l1 ->
  matches filter d = true ->
  set_first filter set (l1 ++ d :: l2) = Ok (Some (l1 ++ (set ∪ d) :: l2)%list).
Proof.
  intros Hid Hall Hd. induction Hall as [|x l1 Hx _ IH]; simpl.
  - unfold set_fields. by rewrite Hd, Hid.
  - by rewrite Hx, IH.
Qed.

(** The same without the condition on [_id]: the first match is rewritten,
    or the update is refused. *)
Lemma set_first_app_cases (filter set : doc) (l1 l2 : list doc) (d : doc) :
  Forall (fun x => matches filter x = false) l1 ->
  matches filter d = true ->
  set_first filter set (l1 ++ d :: l2) = Ok (Some (l1 ++ (set ∪ d) :: l2)%list)
  \/ set_first filter set (l1 ++ d :: l2) = Raise WriteError.
Proof.
  intros Hall Hd. induction Hall as [|x l1 Hx _ IH]; simpl.
  - rewrite Hd. unfold set_fields.
    destruct (set !! "_id") as [v|]; [case_bool_decide|]; simpl; auto.
  - rewrite Hx. destruct IH as [-> | ->]; simpl; auto.
Qed.

Lemma find_app_first (f : doc -> bool) (l1 l2 : list doc) :
  Forall (fun x => f x = false) l1 ->
  List.find f (l1 ++ l2) = List.find f l2.
Proof.
  intros Hall. induction Hall as [|x l1 Hx _ IH]; simpl; [done|]. by rewrite Hx.
Qed.


Lemma no_id_no_match (user_id : string) (l : list doc) :
  Forall (fun x : doc => x !! "id" ≠ Some (VStr user_id)) l ->
  Forall (fun x => matches {["id" := VStr user_id]} x = false) l.
Proof.
  intros Hall. eapply Forall_impl; [exact Hall|].
  intros x Hx. cbv beta in Hx. rewrite matches_singleton.
  destruct (field_matches x "id" (VStr user_id)) eqn:Hm; [|done].
  apply field_matches_Some in Hm; [by destruct Hx | done].
Qed.

Lemma has_id_match (user_id : string) (d : doc) :
  d !! "id" = Some (VStr user_id) ->
  matches {["id" := VStr user_id]} d = true.
Proof.
  intros Hd. rewrite matches_singleton. by apply field_matches_Some.
Qed.

Section Updating.
Context `{Auth} `{Library}.

(** A permitted update of a stored user, with a payload of field names
    that can be encoded and leaves [_id] alone: the store is written. *)
Lemma update_user_written (rt : runtime) (user_id : string) (updates : doc)
    (u : User.t) (w : world) (l1 l2 : list doc) (d : doc) :
  User.id u = user_id \/ User.role u = ADMIN ->
  sets_fields updates = true ->
  encodes updates = true ->
  updates !! "_id" = None ->
  db_users w = (l1 ++ d :: l2)%list ->
  Forall (fun x : doc => x !! "id" ≠ Some (VStr user_id)) l1 ->
  d !! "id" = Some (VStr user_id) ->
  let set := stamped rt updates in
  let q : doc := {["id" := VStr user_id]} in
  let l' := (l1 ++ (set ∪ d) :: l2)%list in
  let w2 :=
    logged (db_find_one users q)
      (World l' (db_settings w) (trace (logged (db_update_one users q set) w))) in
  update_user rt user_id updates u w
  = match List.find (matches q) l' with
    | None => (Raise AttributeError, w2)
    | Some d' =>
        (load_User (factories rt 1 0) (project ["_id"; "password_hash"] d'), w2)
    end.
Proof.
  intros Hperm Hfields Henc Hid Hl Hl1 Hd set q l' w2.
  rewrite (update_user_eq _ _ _ _ _ Hperm). cbv zeta.
  rewrite sets_fields_stamped, Hfields, (encodes_stamped _ _ Henc). cbn [negb].
  assert (Hid' : stamped rt updates !! "_id" = None).
  { rewrite stamped_lookup by done. by rewrite bool_decide_eq_false_2. }
  by rewrite Hl, (set_first_app _ _ _ _ _ Hid' (no_id_no_match _ _ Hl1)
                    (has_id_match _ _ Hd)).
Qed.

(** X5. A permitted [update_user] on a stored user, whose payload has only
    field names and values that can be encoded and does not name [_id],
    rewrites that one document and nothing else. In it, [updated_at]
    becomes the time of the request, even when the payload names
    [updated_at]; every other key of the payload except ["password"] is
    stored with the payload's value; and a field the payload does not
    name, or the field ["password"], keeps what it had. The documents
    before and after it, and the settings, are unchanged. *)
Theorem update_user_sets_payload_and_stamp :
  forall (rt : runtime) (user_id : string) (updates : doc) (u : User.t)
         (w : world) (l1 l2 : list doc) (d : doc),
    User.id u = user_id \/ User.role u = ADMIN ->
    sets_fields updates = true ->
    encodes updates = true ->
    updates !! "_id" = None ->
    db_users w = (l1 ++ d :: l2)%list ->
    Forall (fun x : doc => x !! "id" ≠ Some (VStr user_id)) l1 ->
    d !! "id" = Some (VStr user_id) ->
    exists d' : doc,
      db_users (final (update_user rt user_id updates u w)) = (l1 ++ d' :: l2)%list
      /\ d' !! "updated_at" = Some (VStr (isoformat (utcnow rt 0)))
      /\ (forall k v, k ≠ "password" -> k ≠ "updated_at" ->
                      updates !! k = Some v -> d' !! k = Some v)
      /\ (forall k, k ≠ "updated_at" -> updates !! k = None \/ k = "password" ->
                    d' !! k = d !! k)
      /\ db_settings (final (update_user rt user_id updates u w)) = db_settings w.
Proof.
  intros rt user_id updates u w l1 l2 d Hperm Hfields Henc Hid Hl Hl1 Hd.
  rewrite (update_user_written _ _ _ _ _ _ _ _ Hperm Hfields Henc Hid Hl Hl1 Hd).
  cbv zeta. exists (stamped rt updates ∪ d).
  split_and!.
  - by destruct (List.find _ _).
  - apply lookup_union_Some_l, stamped_stamp.
  - intros k v Hp Hk Hv. apply lookup_union_Some_l.
    rewrite stamped_lookup, bool_decide_eq_false_2 by done. exact Hv.
  - intros k Hk Hn. apply lookup_union_r. rewrite stamped_lookup by done.
    case_bool_decide; [done|]. by destruct Hn.
  - by destruct (List.find _ _).
Qed.

(** X6. A permitted [update_user] for an id that no stored user has
    changes neither collection. It answers 404 "User not found" when the
    keys of the payload are field names and its values can be encoded,
    whether or not it names [_id]. A payload of field names with an
    integer beyond 64 bits, under a key that reaches the store (any but
    ["password"] and ["updated_at"]), raises [OverflowError] instead: the
    driver encodes the update before anything is looked up. *)
Theorem update_user_unknown_id :
  forall (rt : runtime) (user_id : string) (updates : doc) (u : User.t) (w : world),
    User.id u = user_id \/ User.role u = ADMIN ->
    (forall d : doc, d ∈ db_users w -> d !! "id" ≠ Some (VStr user_id)) ->
    (sets_fields updates = true -> encodes updates = true ->
       outcome (update_user rt user_id updates u w)
       = Raise (HTTPException 404 "User not found"))
    /\ (sets_fields updates = true ->
        (exists k z, k ≠ "password" /\ k ≠ "updated_at"
                     /\ updates !! k = Some (VInt z) /\ encodable (VInt z) = false) ->
        outcome (update_user rt user_id updates u w) = Raise OverflowError)
    /\ db_users (final (update_user rt user_id updates u w)) = db_users w
    /\ db_settings (final (update_user rt user_id updates u w)) = db_settings w.
Proof.
  intros rt user_id updates u w Hperm Hall.
  assert (Hf : set_first {["id" := VStr user_id]} (stamped rt updates) (db_users w)
               = Ok None).
  { apply set_first_None. by apply find_singleton_None. }
  rewrite (update_user_eq _ _ _ _ _ Hperm). cbv zeta.
  rewrite sets_fields_stamped, Hf.
  split_and!.
  - intros -> Henc. by rewrite (encodes_stamped _ _ Henc).
  - intros -> (k & z & Hk & Hne & Hz & Hbig). cbn [negb].
    assert (encodes (stamped rt updates) = false) as ->; [|done].
    apply not_true_is_false. rewrite encodes_spec. intros Henc.
    assert (Hs : stamped rt updates !! k = Some (VInt z)).
    { rewrite stamped_lookup by done. by rewrite bool_decide_eq_false_2. }
    specialize (Henc k _ Hs). congruence.
  - by destruct (sets_fields updates), (encodes _).
  - by destruct (sets_fields updates), (encodes _).
Qed.

Lemma User_validate_name (dflt : defaults) (kw : doc) (u' : User.t) :
  User_validate dflt kw = Some u' ->
  kw !! "name" = Some (VStr (User.name u'))
  /\ from_option validate_datetime (Some (default_updated_at dflt)) (kw !! "updated_at")
     = Some (User.updated_at u').
Proof.
  unfold User_validate, UserBase_validate. intros Hv.
  simplify_option_eq.
  repeat match goal with
         | H : validate_str ?v = Some _ |- _ => destruct v; try discriminate; injection H as <-
         end.
  done.
Qed.

(** X7. The response of a permitted [update_user] whose payload leaves
    [id] alone is the updated document, loaded as a [User]: it has the id
    of the request, its [updated_at] is the time of the request as read
    back from its ISO form, and its name is the payload's when the payload
    gives one and the stored one otherwise. *)
Theorem update_user_returns_updated_user :
  forall (rt : runtime) (user_id : string) (updates : doc) (u : User.t)
         (w : world) (l1 l2 : list doc) (d : doc) (u' : User.t),
    User.id u = user_id \/ User.role u = ADMIN ->
    db_users w = (l1 ++ d :: l2)%list ->
    Forall (fun x : doc => x !! "id" ≠ Some (VStr user_id)) l1 ->
    d !! "id" = Some (VStr user_id) ->
    updates !! "id" = None ->
    outcome (update_user rt user_id updates u w) = Ok u' ->
    User.id u' = user_id
    /\ fromisoformat (isoformat (utcnow rt 0)) = Some (User.updated_at u')
    /\ (forall n, updates !! "name" = Some (VStr n) -> User.name u' = n)
    /\ (updates !! "name" = None -> d !! "name" = Some (VStr (User.name u'))).
Proof.
  intros rt user_id updates u w l1 l2 d u' Hperm Hl Hl1 Hd Hid.
  rewrite (update_user_eq _ _ _ _ _ Hperm). cbv zeta.
  set (set := stamped rt updates).
  destruct (sets_fields set); [|discriminate].
  destruct (encodes set); [|discriminate]. cbn [negb].
  rewrite Hl.
  destruct (set_first_app_cases {["id" := VStr user_id]} set l1 l2 d
              (no_id_no_match _ _ Hl1) (has_id_match _ _ Hd)) as [-> | ->];
    [|discriminate].
  assert (Hset : forall k, k ≠ "updated_at" -> k ≠ "password" -> set !! k = updates !! k).
  { intros k Hk Hp. unfold set. rewrite stamped_lookup by done.
    by rewrite bool_decide_eq_false_2. }
  assert (Hd' : (set ∪ d) !! "id" = Some (VStr user_id)).
  { rewrite lookup_union_r; [done|]. by rewrite Hset. }
  rewrite (find_app_first _ _ _ (no_id_no_match _ _ Hl1)). cbn [List.find].
  rewrite (has_id_match _ _ Hd'). cbn [outcome fst].
  intros Hload. unfold load_User in Hload.
  destruct (convert_timestamps _) as [kw|] eqn:Hc; [|discriminate].
  cbn [result_bind] in Hload. unfold User_of, or_raise in Hload.
  destruct (User_validate _ kw) as [u''|] eqn:Hv; [|discriminate].
  injection Hload as ->.
  destruct (User_validate_fields _ _ _ Hv) as (_ & _ & _ & Hi).
  destruct (User_validate_name _ _ _ Hv) as (Hn & Hu).
  rewrite (convert_timestamps_other "id" _ _ Hc) in Hi by done.
  rewrite (convert_timestamps_other "name" _ _ Hc) in Hn by done.
  rewrite project_lookup in Hi, Hn. simpl in Hi, Hn.
  rewrite Hd' in Hi. simpl in Hi.
  split_and!.
  - congruence.
  - revert Hc Hu. unfold convert_timestamps.
    destruct (convert_timestamp "created_at" _) as [kw1|] eqn:Hc1; [|discriminate].
    cbn [result_bind]. unfold convert_timestamp at 1.
    assert (Hup : dict_get kw1 "updated_at" = VStr (isoformat (utcnow rt 0))).
    { unfold dict_get. rewrite (convert_timestamp_other _ _ _ _ Hc1) by done.
      rewrite project_lookup. simpl.
      rewrite (lookup_union_Some_l _ _ _ (VStr (isoformat (utcnow rt 0)))); [done|].
      apply stamped_stamp. }
    rewrite Hup. destruct (fromisoformat _) as [t|]; [|discriminate].
    cbn [or_raise result_bind]. intros [= <-]. rewrite lookup_insert_eq. simpl.
    congruence.
  - intros n Hname.
    rewrite (lookup_union_Some_l _ _ _ (VStr n)) in Hn; [congruence|].
    by rewrite Hset.
  - intros Hname. rewrite lookup_union_r in Hn; [done|]. by rewrite Hset.
Qed.


End Updating.

(** ** Registration: what is stored, and what it allows afterwards *)

Section Registered.
Context `{Auth} `{Library}.

(** The two ways [register] can end. *)
Lemma register_cases (rt : runtime) (user_create : UserCreate.t) (w : world) :
  let base := UserCreate.base user_create in
  (db_users (final (register rt user_create w)) = db_users w
   /\ exists e, outcome (register rt user_create w) = Raise e)
  \/ (List.find (matches {["username" := VStr (UserBase.username base)]}) (db_users w)
      = None
      /\ List.find (matches {["email" := VStr (UserBase.email base)]}) (db_users w)
         = None
      /\ outcome (register rt user_create w) = Ok (registered_user rt user_create)
      /\ db_users (final (register rt user_create w))
         = (db_users w ++ [registered_document rt user_create])%list).
Proof.
  intros base. unfold register, bind. rewrite find_one_eq. unfold documents.
  fold base.
  destruct (List.find _ (db_users w)) as [d|] eqn:Hf1.
  { left. rewrite (found_truthy_singleton _ _ _ _ Hf1). split; [done | by eexists]. }
  cbn [fmap option_fmap option_map found_truthy]. rewrite find_one_eq.
  cbn [documents db_users logged].
  destruct (List.find (matches {["email" := _]}) (db_users w)) as [d|] eqn:Hf2.
  { left. rewrite (found_truthy_singleton _ _ _ _ Hf2). split; [done | by eexists]. }
  right. cbn [fmap option_fmap option_map found_truthy].
  unfold do_get_password_hash, bind, emit, ret. rewrite insert_one_eq.
  done.
Qed.

(** X9. [register] keeps usernames and emails pairwise distinct: if no
    two stored users share a username, and no two share an email, the same
    holds after any registration request, and so after any batch of
    registration requests on an empty database. *)
Theorem register_keeps_usernames_and_emails_distinct :
  (forall (rt : runtime) (user_create : UserCreate.t) (w : world),
     NoDup (stored_field "username" w) ->
     NoDup (stored_field "email" w) ->
     NoDup (stored_field "username" (final (register rt user_create w)))
     /\ NoDup (stored_field "email" (final (register rt user_create w))))
  /\ (forall (l : list (runtime * UserCreate.t)) (w : world),
        db_users w = [] ->
        NoDup (stored_field "username" (run (registrations l) w))
        /\ NoDup (stored_field "email" (run (registrations l) w))).
Proof.
  assert (Hstep : forall (rt : runtime) (user_create : UserCreate.t) (w : world),
     NoDup (stored_field "username" w) ->
     NoDup (stored_field "email" w) ->
     NoDup (stored_field "username" (final (register rt user_create w)))
     /\ NoDup (stored_field "email" (final (register rt user_create w)))).
  { intros rt user_create w Hu He. unfold stored_field in *.
    destruct (register_cases rt user_create w) as [[-> _]|(Hf1 & Hf2 & _ & ->)];
      [done|].
    rewrite !fmap_app. cbn [fmap list_fmap].
    assert (Hfresh : forall k s,
              List.find (matches {[k := VStr s]}) (db_users w) = None ->
              Some (VStr s) ∉ (fun d : doc => d !! k) <$> db_users w).
    { intros k s Hf (d & Hd & Hin)%list_elem_of_fmap.
      by apply (proj1 (find_singleton_None k (VStr s) _ ltac:(done)) Hf d Hin). }
    split; apply NoDup_app; split_and!; try done.
    - intros x Hx ->%list_elem_of_singleton. by apply (Hfresh _ _ Hf1).
    - apply NoDup_singleton.
    - intros x Hx ->%list_elem_of_singleton. by apply (Hfresh _ _ Hf2).
    - apply NoDup_singleton. }
  split; [exact Hstep|].
  intros l w Hw.
  assert (Hinv : NoDup (stored_field "username" w) /\ NoDup (stored_field "email" w)).
  { unfold stored_field. rewrite Hw. split; apply NoDup_nil_2. }
  clear Hw. revert w Hinv.
  induction l as [|[rt uc] l IH]; intros w [Hu He]; [done|].
  unfold registrations, run. cbn [fmap list_fmap foldl fst snd].
  apply IH. unfold app, bind.
  destruct (register rt uc w) as [[u|e] w'] eqn:Hr;
    pose proof (Hstep rt uc w Hu He) as Hs; by rewrite Hr in Hs.
Qed.

Lemma convert_timestamp_delete (k k' : string) (d x : doc) :
  k ≠ k' ->
  convert_timestamp k' d = Ok x ->
  convert_timestamp k' (delete k d) = Ok (delete k x).
Proof.
  intros Hk. unfold convert_timestamp, dict_get.
  rewrite lookup_delete_ne by done.
  destruct (default VNone (d !! k')); try (by intros [= <-]).
  destruct (fromisoformat s); simpl; [|discriminate].
  intros [= <-]. by rewrite delete_insert_ne.
Qed.

Lemma convert_timestamps_delete (k : string) (d x : doc) :
  k ≠ "created_at" -> k ≠ "updated_at" ->
  convert_timestamps d = Ok x ->
  convert_timestamps (delete k d) = Ok (delete k x).
Proof.
  intros H1 H2. unfold convert_timestamps.
  destruct (convert_timestamp "created_at" d) as [d1|] eqn:Hc1; [|discriminate].
  cbn [result_bind]. intros Hc2.
  rewrite (convert_timestamp_delete _ _ _ _ H1 Hc1). cbn [result_bind].
  by apply convert_timestamp_delete.
Qed.

(** The registered document, as [login] reads and loads it. *)
Lemma registered_document_login (rt : runtime) (user_create : UserCreate.t)
    (dflt : defaults) :
  let u := registered_user rt user_create in
  fromisoformat (isoformat (User.created_at u)) = Some (User.created_at u) ->
  fromisoformat (isoformat (User.updated_at u)) = Some (User.updated_at u) ->
  validate_email (User.email u) = Some (User.email u) ->
  exists d',
    convert_timestamps (delete "_id" (registered_document rt user_create)) = Ok d'
    /\ User_validate dflt (delete "password_hash" d') = Some u.
Proof.
  intros u Hc Hu He.
  pose proof (stored_user_loads u
                (get_password_hash (UserCreate.password user_create))
                (new_object_id rt) dflt Hc Hu He) as Hload.
  unfold load_User in Hload. cbn [project foldr] in Hload.
  set (stored := registered_document rt user_create) in *.
  change (<["_id" := VObjectId (new_object_id rt)]> _) with stored in Hload.
  assert (Hconv : exists d', convert_timestamps (delete "_id" stored) = Ok d').
  { unfold convert_timestamps, convert_timestamp.
    assert (dict_get (delete "_id" stored) "created_at"
            = VStr (isoformat (utcnow rt 0))) as -> by reflexivity.
    change (User.created_at u) with (utcnow rt 0) in Hc. rewrite Hc.
    cbn [or_raise result_bind].
    set (m1 := <["created_at" := _]> _).
    assert (dict_get m1 "updated_at" = VStr (isoformat (utcnow rt 1))) as ->
      by reflexivity.
    change (User.updated_at u) with (utcnow rt 1) in Hu. rewrite Hu.
    cbn [or_raise result_bind]. by eexists. }
  destruct Hconv as [d' Hd']. exists d'. split; [done|].
  rewrite (delete_delete _ "_id" "password_hash") in Hload.
  rewrite (convert_timestamps_delete "password_hash" _ _ ltac:(done) ltac:(done) Hd')
    in Hload.
  cbn [result_bind] in Hload. unfold User_of, or_raise in Hload.
  by destruct (User_validate dflt _) as [u'|]; [injection Hload as -> | ].
Qed.

(** X10. A user who has just registered with an active account can log
    in: when the hasher verifies the passwords it hashed and the libraries
    read back what they printed, [login] with the registered username and
    password answers with a bearer token for that username and with the
    registered user. *)
Theorem register_then_login :
  forall (rt rt' : runtime) (user_create : UserCreate.t) (w : world) (u : User.t),
    let username := UserBase.username (UserCreate.base user_create) in
    let password := UserCreate.password user_create in
    outcome (register rt user_create w) = Ok u ->
    UserBase.is_active (UserCreate.base user_create) = true ->
    verify_password password (get_password_hash password) = true ->
    fromisoformat (isoformat (User.created_at u)) = Some (User.created_at u) ->
    fromisoformat (isoformat (User.updated_at u)) = Some (User.updated_at u) ->
    validate_email (User.email u) = Some (User.email u) ->
    outcome (login rt' (UserLogin.Build username password)
               (final (register rt user_create w)))
    = Ok (Token.Build (create_access_token {["sub" := VStr username]}) "bearer" u).
Proof.
  intros rt rt' user_create w u username password Hreg Hact Hver Hc Hu He.
  destruct (register_cases rt user_create w) as [[_ [e Herr]]|(Hf1 & _ & Hok & Hdb)];
    [congruence|].
  rewrite Hok in Hreg. injection Hreg as <-.
  set (stored := registered_document rt user_create) in *.
  assert (Hfind : List.find (matches {["username" := VStr username]})
                    (db_users (final (register rt user_create w))) = Some stored).
  { rewrite Hdb, (find_app_None _ _ _ Hf1). cbn [List.find].
    fold username.
    assert (matches {["username" := VStr username]} stored = true) as ->; [|done].
    rewrite matches_singleton. apply field_matches_Some; [done | reflexivity]. }
  rewrite (login_found rt' (UserLogin.Build username password) _ stored
             (get_password_hash password) Hfind eq_refl).
  cbn [UserLogin.username UserLogin.password]. rewrite Hver.
  assert (dict_get_default stored "is_active" (VBool true)
          = VBool (UserBase.is_active (UserCreate.base user_create))) as ->
    by reflexivity.
  rewrite Hact. cbn [truthy].
  destruct (registered_document_login rt user_create (factories rt' 0 0) Hc Hu He)
    as (d' & Hd' & Hval).
  fold stored in Hd'. by rewrite Hd', Hval.
Qed.

End Registered.

(** ** C1: the login flow *)

Section LoginFlow.
Context `{Auth} `{Library}.

(** C1, as the code has it. [login] looks the username up, then verifies
    the password, then checks the active flag, then issues the token, and
    never changes the database. It answers 401 "Incorrect username or
    password" both when no stored document has the username (the password
    is then never verified) and when the password does not verify against
    the stored hash (whatever the active flag is); otherwise 403 "User
    account is inactive" when the stored flag is falsy (no token is then
    created); otherwise it creates the token and answers 200 with it and
    the stored user without its hash, provided the stored document is one
    the [User] model accepts. A stored document without a hash, with a hash
    that is not a string, with a timestamp that cannot be read or with
    fields the model rejects makes [login] raise instead, each at its place
    in this order. For a document that [register] wrote none of this
    happens: the answer is one of the three above. *)
Theorem login_checks_credentials_then_active_then_issues :
  forall (rt : runtime) (user_login : UserLogin.t) (w : world),
    let username := UserLogin.username user_login in
    let password := UserLogin.password user_login in
    let r := login rt user_login w in
    let credential_lookup := db_find_one users {["username" := VStr username]} in
    let issue_token := call_create_access_token {["sub" := VStr username]} in
    let invalid := Raise (HTTPException 401 "Incorrect username or password") in
    ((forall d : doc, d ∈ db_users w -> d !! "username" ≠ Some (VStr username)) ->
       outcome r = invalid
       /\ trace (final r) = (trace w ++ [credential_lookup])%list)
    /\ (forall d : doc,
          List.find (matches {["username" := VStr username]}) (db_users w) = Some d ->
          (d !! "password_hash" = None ->
             outcome r = Raise (KeyError "password_hash")
             /\ trace (final r) = (trace w ++ [credential_lookup])%list)
          /\ (forall v : value,
                d !! "password_hash" = Some v -> (forall h, v ≠ VStr h) ->
                outcome r = Raise TypeError
                /\ trace (final r)
                   = (trace w ++ [credential_lookup; call_verify_password password v])%list)
          /\ (forall h : string,
                d !! "password_hash" = Some (VStr h) ->
                let secret_verify := call_verify_password password (VStr h) in
                let active := truthy (dict_get_default d "is_active" (VBool true)) in
                (verify_password password h = false ->
                   outcome r = invalid
                   /\ trace (final r)
                      = (trace w ++ [credential_lookup; secret_verify])%list)
                /\ (verify_password password h = true -> active = false ->
                    outcome r = Raise (HTTPException 403 "User account is inactive")
                    /\ trace (final r)
                       = (trace w ++ [credential_lookup; secret_verify])%list)
                /\ (verify_password password h = true -> active = true ->
                    trace (final r)
                    = (trace w ++ [credential_lookup; secret_verify; issue_token])%list
                    /\ (forall e, convert_timestamps (project ["_id"] d) = Raise e ->
                                  outcome r = Raise ValueError)
                    /\ (forall d' : doc,
                          convert_timestamps (project ["_id"] d) = Ok d' ->
                          User_validate (factories rt 0 0) (delete "password_hash" d')
                          = None ->
                          outcome r = Raise ValidationError)
                    /\ (forall (d' : doc) (u : User.t),
                          convert_timestamps (project ["_id"] d) = Ok d' ->
                          User_validate (factories rt 0 0) (delete "password_hash" d')
                          = Some u ->
                          let t :=
                            Token.Build (create_access_token {["sub" := VStr username]})
                              "bearer" u in
                          outcome r = Ok t
                          /\ User.username u = username
                          /\ has_field "password_hash" (body (TokenResponse t)) = false)))
          /\ (forall (rt0 : runtime) (user_create : UserCreate.t),
                let u := registered_user rt0 user_create in
                d = registered_document rt0 user_create ->
                fromisoformat (isoformat (User.created_at u)) = Some (User.created_at u) ->
                fromisoformat (isoformat (User.updated_at u)) = Some (User.updated_at u) ->
                validate_email (User.email u) = Some (User.email u) ->
                outcome r
                = if verify_password password
                       (get_password_hash (UserCreate.password user_create))
                  then
                    if User.is_active u
                    then
                      Ok (Token.Build (create_access_token {["sub" := VStr username]})
                            "bearer" u)
                    else Raise (HTTPException 403 "User account is inactive")
                  else invalid))
    /\ db_users (final r) = db_users w
    /\ db_settings (final r) = db_settings w.
Proof.
  intros rt user_login w username password r credential_lookup issue_token invalid.
  split_and!.
  - intros Hall. subst r.
    rewrite login_not_found; [done|].
    by apply find_singleton_None.
  - intros d Hf. subst r. split_and!.
    + intros Hh. by rewrite (login_no_hash rt user_login w d Hf Hh).
    + intros v Hh Hv. rewrite (login_other_hash rt user_login w d v Hf Hh Hv).
      split; observe.
    + intros h Hh secret_verify active.
      rewrite (login_found rt user_login w d h Hf Hh). fold username password active.
      split_and!.
      * intros ->. observe.
      * intros -> ->. observe.
      * intros -> ->. cbn [project foldr].
        split_and!.
        -- destruct (convert_timestamps (delete "_id" d)) as [d'|e]; [|observe].
           destruct (User_validate _ _); observe.
        -- intros e He. rewrite He. by rewrite (convert_timestamps_Raise _ _ He).
        -- intros d' Hc Hv. by rewrite Hc, Hv.
        -- intros d' u Hc Hv. rewrite Hc, Hv. split_and!; try observe.
           apply User_validate_fields in Hv as (Hu & _).
           rewrite lookup_delete_ne in Hu by done.
           rewrite (convert_timestamps_other _ _ _ Hc) in Hu by done.
           rewrite lookup_delete_ne in Hu by done.
           destruct (find_singleton_VStr _ _ _ _ Hf) as [_ Hd].
           fold username in Hd. congruence.
    + intros rt0 user_create u -> Hc Hu He.
      rewrite (login_found rt user_login w _
                 (get_password_hash (UserCreate.password user_create)) Hf eq_refl).
      fold username password.
      destruct (verify_password _ _); [|done].
      assert (dict_get_default (registered_document rt0 user_create) "is_active"
                (VBool true)
              = VBool (UserBase.is_active (UserCreate.base user_create))) as ->
        by reflexivity.
      cbn [truthy]. change (User.is_active u)
        with (UserBase.is_active (UserCreate.base user_create)).
      destruct (UserBase.is_active (UserCreate.base user_create)); [|done].
      destruct (registered_document_login rt0 user_create (factories rt 0 0) Hc Hu He)
        as (d' & Hd' & Hval).
      by rewrite Hd', Hval.
  - apply login_preserves_db.
  - apply login_preserves_db.
Qed.

End LoginFlow.

(** ** School years: one current year *)

Lemma matches_spec (filter d : doc) :
  matches filter d = true
  <-> forall k v, filter !! k = Some v -> field_matches d k v = true.
Proof.
  unfold matches. rewrite forallb_forall. split.
  - intros Hall k v Hk. apply (Hall (k, v)).
    by apply list_elem_of_In, elem_of_map_to_list.
  - intros Hall [k v] Hin. apply Hall.
    by apply elem_of_map_to_list, list_elem_of_In.
Qed.

Lemma update_many_all (set : doc) (l : list doc) :
  update_many ∅ set l = (fun d => set ∪ d) <$> l.
Proof.
  unfold update_many. apply list_fmap_ext. intros i d _. by rewrite matches_empty.
Qed.

Section OneCurrentYear.
Context `{Library}.

Lemma current_years_unset (l : list doc) :
  current_years (update_many ∅ {["is_current" := VBool false]} l) = [].
Proof.
  rewrite update_many_all. unfold current_years.
  induction l as [|d l IH]; [done|]. cbn [fmap list_fmap List.filter].
  rewrite bool_decide_eq_false_2; [exact IH|].
  rewrite (lookup_union_Some_l _ _ _ (VBool false)); [discriminate|].
  by rewrite lookup_singleton_eq.
Qed.

Lemma current_years_app (l1 l2 : list doc) :
  current_years (l1 ++ l2) = (current_years l1 ++ current_years l2)%list.
Proof. unfold current_years. apply List.filter_app. Qed.

Lemma find_current (l : list doc) :
  List.find (matches {["is_current" := VBool true]}) l = head (current_years l).
Proof.
  unfold current_years. induction l as [|d l IH]; [done|]. simpl.
  rewrite matches_singleton.
  destruct (field_matches d "is_current" (VBool true)) eqn:Hm.
  - apply field_matches_Some in Hm; [|done]. by rewrite bool_decide_eq_true_2.
  - rewrite bool_decide_eq_false_2; [exact IH|].
    intros Hd. apply (field_matches_Some d "is_current" (VBool true)) in Hd; [|done].
    congruence.
Qed.

(** X11. [create_school_year] keeps at most one school year current.
    Creating a year marked current unmarks every stored year, so that the
    new year is the only current one, whatever was stored; creating a year
    not marked current leaves the current years as they were. In both cases
    the stored years keep their other fields and the new document comes
    last. *)
Theorem create_school_year_keeps_one_current :
  forall (rt : runtime) (school_year : SchoolYearBase.t) (current_user : User.t)
         (l : list doc),
    let year_obj := SchoolYear.Build school_year (uuid4 rt 0) (utcnow rt 0) in
    let stored := school_year_document (new_object_id rt) year_obj in
    let l' := snd (create_school_year rt school_year current_user l) in
    fst (create_school_year rt school_year current_user l) = year_obj
    /\ (SchoolYearBase.is_current school_year = true -> current_years l' = [stored])
    /\ (SchoolYearBase.is_current school_year = false ->
        current_years l' = current_years l)
    /\ (length (current_years l) <= 1 -> length (current_years l') <= 1)
    /\ (exists l0,
          l' = (l0 ++ [stored])%list
          /\ length l0 = length l
          /\ forall k, k ≠ "is_current" ->
               (fun d : doc => d !! k) <$> l0 = (fun d : doc => d !! k) <$> l).
Proof.
  intros rt school_year current_user l year_obj stored l'.
  subst l'. unfold create_school_year. fold year_obj stored. cbn [fst snd].
  assert (Hstored : current_years [stored]
                    = if SchoolYearBase.is_current school_year then [stored] else []).
  { unfold current_years. cbn [List.filter].
    assert (stored !! "is_current"
            = Some (VBool (SchoolYearBase.is_current school_year))) as -> by reflexivity.
    by destruct (SchoolYearBase.is_current school_year). }
  split_and!.
  - done.
  - intros Hc. rewrite Hc in *. by rewrite current_years_app, current_years_unset, Hstored.
  - intros Hc. rewrite Hc in *. rewrite current_years_app, Hstored. apply app_nil_r.
  - intros Hle. rewrite current_years_app, Hstored.
    destruct (SchoolYearBase.is_current school_year).
    + by rewrite current_years_unset.
    + by rewrite app_nil_r.
  - destruct (SchoolYearBase.is_current school_year).
    + eexists. split; [done|]. rewrite update_many_all. split; [by rewrite length_fmap|].
      intros k Hk. rewrite <- list_fmap_compose. apply list_fmap_ext.
      intros i d _. simpl. apply lookup_union_r. by rewrite lookup_singleton_ne.
    + by eexists.
Qed.

Lemma new_current_year_is_the_only_one (rt : runtime)
    (school_year : SchoolYearBase.t) (admin : User.t) (l : list doc) :
  SchoolYearBase.is_current school_year = true ->
  current_years (snd (create_school_year rt school_year admin l))
  = [school_year_document (new_object_id rt)
       (SchoolYear.Build school_year (uuid4 rt 0) (utcnow rt 0))]
  /\ fst (create_school_year rt school_year admin l)
     = SchoolYear.Build school_year (uuid4 rt 0) (utcnow rt 0).
Proof.
  intros Hc. unfold create_school_year. cbn [fst snd]. rewrite Hc.
  split; [|done].
  rewrite current_years_app, current_years_unset. unfold current_years.
  cbn [List.filter].
  rewrite bool_decide_eq_true_2; [done|].
  transitivity (Some (VBool (SchoolYearBase.is_current school_year)));
    [reflexivity | by rewrite Hc].
Qed.

(** X12. [get_current_school_year] answers 404 "No current school year set"
    when no stored year is marked current. After a year marked current was
    created, it answers with that year, provided the library reads back the
    three dates it printed. *)
Theorem get_current_school_year_after_create :
  (forall (rt : runtime) (current_user : User.t) (l : list doc),
     current_years l = [] ->
     get_current_school_year rt current_user l
     = Raise (HTTPException 404 "No current school year set"))
  /\ (forall (rt rt' : runtime) (school_year : SchoolYearBase.t)
             (admin current_user : User.t) (l : list doc),
        SchoolYearBase.is_current school_year = true ->
        fromisoformat (isoformat (utcnow rt 0)) = Some (utcnow rt 0) ->
        fromisoformat (isoformat (SchoolYearBase.start_date school_year))
        = Some (SchoolYearBase.start_date school_year) ->
        fromisoformat (isoformat (SchoolYearBase.end_date school_year))
        = Some (SchoolYearBase.end_date school_year) ->
        get_current_school_year rt' current_user
          (snd (create_school_year rt school_year admin l))
        = Ok (fst (create_school_year rt school_year admin l))).
Proof.
  split.
  - intros rt current_user l Hnone. unfold get_current_school_year.
    by rewrite find_current, Hnone.
  - intros rt rt' school_year admin current_user l Hc Hnow Hstart Hend.
    unfold get_current_school_year. rewrite find_current.
    destruct (new_current_year_is_the_only_one rt school_year admin l Hc)
      as [-> ->].
    cbn [head fmap option_fmap option_map found_truthy].
    set (stored := school_year_document _ _).
    assert (Hs : project ["_id"] stored !! "year"
                 = Some (VStr (SchoolYearBase.year school_year))) by reflexivity.
    rewrite (dict_truthy_lookup _ _ _ Hs). cbn [negb].
    unfold load_SchoolYear, convert_timestamp.
    destruct school_year as [year start_date end_date is_current].
    cbn [SchoolYearBase.start_date SchoolYearBase.end_date] in *.
    set (m := project ["_id"] stored).
    assert (dict_get m "created_at" = VStr (isoformat (utcnow rt 0))) as ->
      by reflexivity.
    rewrite Hnow. cbn [or_raise result_bind].
    set (m1 := <["created_at" := _]> m).
    assert (dict_get m1 "start_date" = VStr (isoformat start_date)) as -> by reflexivity.
    rewrite Hstart. cbn [or_raise result_bind].
    set (m2 := <["start_date" := _]> m1).
    assert (dict_get m2 "end_date" = VStr (isoformat end_date)) as -> by reflexivity.
    rewrite Hend. cbn [or_raise result_bind].
    set (m3 := <["end_date" := _]> m2).
    unfold SchoolYear_validate.
    assert (m3 !! "year" = Some (VStr year)) as -> by reflexivity.
    assert (m3 !! "start_date" = Some (VDatetime start_date)) as -> by reflexivity.
    assert (m3 !! "end_date" = Some (VDatetime end_date)) as -> by reflexivity.
    assert (m3 !! "is_current" = Some (VBool is_current)) as -> by reflexivity.
    assert (m3 !! "id" = Some (VStr (uuid4 rt 0))) as -> by reflexivity.
    assert (m3 !! "created_at" = Some (VDatetime (utcnow rt 0))) as -> by reflexivity.
    reflexivity.
Qed.

End OneCurrentYear.

(** ** Students: one roll number per class and year *)

Section RollNumbers.
Context `{Library}.

Lemma enrolment_filter (r c y : string) (d : doc) :
  matches {["roll_no" := VStr r; "class_id" := VStr c; "school_year_id" := VStr y]} d
  = true
  <-> enrolment d = (Some (VStr r), Some (VStr c), Some (VStr y)).
Proof.
  rewrite matches_spec. unfold enrolment. split.
  - intros Hall.
    assert (Hr : field_matches d "roll_no" (VStr r) = true)
      by (apply Hall; by simplify_map_eq).
    assert (Hc : field_matches d "class_id" (VStr c) = true)
      by (apply Hall; by simplify_map_eq).
    assert (Hy : field_matches d "school_year_id" (VStr y) = true)
      by (apply Hall; by simplify_map_eq).
    apply field_matches_Some in Hr, Hc, Hy; try done. by rewrite Hr, Hc, Hy.
  - intros [= Hr Hc Hy] k v Hk.
    destruct (decide (k = "roll_no")) as [->|?];
      [|destruct (decide (k = "class_id")) as [->|?];
        [|destruct (decide (k = "school_year_id")) as [->|?]]];
      simplify_map_eq; by apply field_matches_Some.
Qed.

(** X13. [create_student] refuses, with 400 "Roll number already exists in
    this class" and without inserting, a student whose roll number, class
    and school year are those of a stored student. Otherwise it appends one
    document with the student's fields. So the enrolments (roll number,
    class, school year) of the stored students stay pairwise distinct. *)
Theorem create_student_keeps_roll_numbers_distinct :
  forall (rt : runtime) (student : StudentBase.t) (current_user : User.t)
         (l : list doc),
    let key :=
      (Some (VStr (StudentBase.roll_no student)),
       Some (VStr (StudentBase.class_id student)),
       Some (VStr (StudentBase.school_year_id student))) in
    let r := create_student rt student current_user l in
    (key ∈ enrolment <$> l ->
       fst r = Raise (HTTPException 400 "Roll number already exists in this class")
       /\ snd r = l)
    /\ (key ∉ enrolment <$> l ->
        fst r = Ok (Student.Build student (uuid4 rt 0) (utcnow rt 0) (utcnow rt 1))
        /\ exists d : doc,
             snd r = (l ++ [d])%list
             /\ enrolment d = key
             /\ d !! "name" = Some (VStr (StudentBase.name student))
             /\ d !! "id" = Some (VStr (uuid4 rt 0)))
    /\ (NoDup (enrolment <$> l) -> NoDup (enrolment <$> snd r)).
Proof.
  intros rt student current_user l key r.
  set (q := {["roll_no" := VStr (StudentBase.roll_no student);
              "class_id" := VStr (StudentBase.class_id student);
              "school_year_id" := VStr (StudentBase.school_year_id student)]} : doc).
  assert (Hfound : forall d, List.find (matches q) l = Some d ->
                             key ∈ enrolment <$> l /\ found_truthy (Some d) = true).
  { intros d Hf. apply find_some in Hf as [Hin Hm].
    apply enrolment_filter in Hm. split.
    - apply list_elem_of_fmap. exists d. split; [done | by apply list_elem_of_In].
    - injection Hm as Hr _ _. by eapply dict_truthy_lookup. }
  assert (Hnone : List.find (matches q) l = None -> key ∉ enrolment <$> l).
  { intros Hf (d & Hd & Hin)%list_elem_of_fmap.
    apply list_elem_of_In in Hin. pose proof (find_none _ _ Hf d Hin) as Hm.
    symmetry in Hd. apply enrolment_filter in Hd. fold q in Hd. congruence. }
  assert (Hnew : forall d0 : doc,
            d0 = isoformat_if_set "admission_date"
                   (isoformat_if_set "dob"
                      (<["updated_at" := VStr (isoformat (utcnow rt 1))]>
                         (<["created_at" := VStr (isoformat (utcnow rt 0))]>
                            (Student_model_dump
                               (Student.Build student (uuid4 rt 0) (utcnow rt 0)
                                  (utcnow rt 1)))))) ->
            enrolment (<["_id" := VObjectId (new_object_id rt)]> d0) = key
            /\ <["_id" := VObjectId (new_object_id rt)]> d0 !! "name"
               = Some (VStr (StudentBase.name student))
            /\ <["_id" := VObjectId (new_object_id rt)]> d0 !! "id"
               = Some (VStr (uuid4 rt 0))).
  { intros d0 ->. unfold enrolment, isoformat_if_set.
    set (m := <["updated_at" := _]> _).
    assert (dict_get m "dob" = optional_datetime_value (StudentBase.dob student)) as ->
      by reflexivity.
    destruct (StudentBase.dob student) as [t|]; cbn [optional_datetime_value truthy].
    - set (m1 := <["dob" := _]> m).
      assert (dict_get m1 "admission_date"
              = optional_datetime_value (StudentBase.admission_date student)) as ->
        by reflexivity.
      destruct (StudentBase.admission_date student);
        cbn [optional_datetime_value truthy]; by split_and!.
    - assert (dict_get m "admission_date"
              = optional_datetime_value (StudentBase.admission_date student)) as ->
        by reflexivity.
      destruct (StudentBase.admission_date student);
        cbn [optional_datetime_value truthy]; by split_and!. }
  subst r. unfold create_student. fold q.
  destruct (List.find (matches q) l) as [d|] eqn:Hf.
  - destruct (Hfound d eq_refl) as [Hin Ht]. rewrite Ht. cbn [fst snd].
    split_and!; [done | by intros Hn | done].
  - specialize (Hnone eq_refl). cbn [found_truthy fst snd].
    destruct (Hnew _ eq_refl) as (Hk & Hn & Hi).
    split_and!.
    + by intros Hin.
    + intros _. split; [done|]. by eexists.
    + intros Hnd. rewrite fmap_app. cbn [fmap list_fmap]. rewrite Hk.
      apply NoDup_app. split_and!; [done | | apply NoDup_singleton].
      by intros x Hx ->%list_elem_of_singleton.
Qed.

End RollNumbers.

(** ** The token of a login authenticates its user *)

Section IssuedToken.
Context `{Auth} `{Library}.

(** A successful [login] found a document with a string hash that loads. *)
Lemma login_Ok_inv (rt : runtime) (user_login : UserLogin.t) (w : world) (t : Token.t) :
  outcome (login rt user_login w) = Ok t ->
  exists (d d' : doc),
    List.find (matches {["username" := VStr (UserLogin.username user_login)]})
      (db_users w) = Some d
    /\ convert_timestamps (delete "_id" d) = Ok d'
    /\ User_validate (factories rt 0 0) (delete "password_hash" d') = Some (Token.user t)
    /\ Token.access_token t
       = create_access_token {["sub" := VStr (UserLogin.username user_login)]}.
Proof.
  destruct (List.find (matches {["username" := VStr (UserLogin.username user_login)]})
              (db_users w)) as [d|] eqn:Hf.
  - destruct (d !! "password_hash") as [v|] eqn:Hh.
    + destruct v as [| | |h| |];
        try (unfold login, bind; rewrite find_one_eq; unfold documents; rewrite Hf;
             cbn [fmap option_fmap option_map project foldr];
             destruct (dict_truthy (delete "_id" d)); cbn [negb ret];
             [|discriminate];
             unfold dict_item, lift, pure, or_raise;
             rewrite lookup_delete_ne by done; rewrite Hh;
             discriminate).
      rewrite (login_found rt user_login w d h Hf Hh).
      destruct (verify_password _ h); [|discriminate].
      destruct (truthy _); [|discriminate].
      destruct (convert_timestamps (delete "_id" d)) as [d'|] eqn:Hc; [|discriminate].
      destruct (User_validate _ _) as [u|] eqn:Hv; [|discriminate].
      intros [= <-]. by exists d, d'.
    + unfold login, bind. rewrite find_one_eq. unfold documents. rewrite Hf.
      cbn [fmap option_fmap option_map project foldr].
      destruct (dict_truthy (delete "_id" d)); cbn [negb ret]; [|discriminate].
      unfold dict_item, lift, pure, or_raise.
      rewrite lookup_delete_ne by done. rewrite Hh. discriminate.
  - by rewrite (login_not_found rt user_login w Hf).
Qed.

(** X14. The token that [login] issues authenticates as the user that
    [login] returned: when the token codec reads back the subject it was
    given, [get_current_user] on the issued token, in the state [login]
    left, resolves to the user of the login response, whose username is the
    one that logged in. *)
Theorem login_token_resolves_to_its_user :
  forall (rt : runtime) (user_login : UserLogin.t) (w : world) (t : Token.t)
         (payload : doc),
    outcome (login rt user_login w) = Ok t ->
    decode_access_token (Token.access_token t) = Some payload ->
    payload !! "sub" = Some (VStr (UserLogin.username user_login)) ->
    outcome (get_current_user rt (Token.access_token t) (final (login rt user_login w)))
    = Ok (Token.user t)
    /\ User.username (Token.user t) = UserLogin.username user_login.
Proof.
  intros rt user_login w t payload Hlogin Hdec Hsub.
  destruct (login_Ok_inv _ _ _ _ Hlogin) as (d & d' & Hf & Hc & Hv & _).
  assert (Hg : dict_get payload "sub" = VStr (UserLogin.username user_login))
    by (unfold dict_get; by rewrite Hsub).
  split.
  - rewrite get_current_user_eq. cbv zeta. rewrite Hdec, Hg.
    rewrite bool_decide_eq_false_2 by done.
    rewrite (proj1 (login_preserves_db rt user_login w)), Hf.
    cbn [outcome fst]. unfold load_User. cbn [project foldr].
    rewrite (delete_delete _ "_id" "password_hash").
    rewrite (convert_timestamps_delete "password_hash" _ _ ltac:(done) ltac:(done) Hc).
    cbn [result_bind]. unfold User_of. by rewrite Hv.
  - apply User_validate_fields in Hv as (Hu & _).
    rewrite lookup_delete_ne in Hu by done.
    rewrite (convert_timestamps_other _ _ _ Hc) in Hu by done.
    rewrite lookup_delete_ne in Hu by done.
    destruct (find_singleton_VStr _ _ _ _ Hf) as [_ Hd].
    congruence.
Qed.

End IssuedToken.

(** ** Reading one user *)

Section Reading.
Context `{Auth} `{Library}.

Lemma get_user_eq (rt : runtime) (user_id : string) (current_user : User.t)
    (w : world) :
  get_user rt user_id current_user w
  = let w1 := logged (db_find_one users {["id" := VStr user_id]}) w in
    match List.find (matches {["id" := VStr user_id]}) (db_users w) with
    | None => (Raise (HTTPException 404 "User not found"), w1)
    | Some d => (load_User (factories rt 0 0) (project ["_id"; "password_hash"] d), w1)
    end.
Proof.
  unfold get_user, bind. rewrite find_one_eq. unfold documents. cbv zeta.
  destruct (List.find _ (db_users w)) as [d|] eqn:Hf; [|done].
  cbn [fmap option_fmap option_map].
  destruct (find_singleton_VStr _ _ _ _ Hf) as [_ Hd].
  assert (Hp : project ["_id"; "password_hash"] d !! "id" = Some (VStr user_id))
    by (by rewrite project_lookup).
  by rewrite (dict_truthy_lookup _ _ _ Hp).
Qed.

(** X15. [get_user] applies no ownership or role check: its answer for an
    id is the same whoever the authenticated user is. It answers 404 "User
    not found" when no stored user has the id; a user it returns has the
    requested id and carries the username and the role of a stored document
    with that id. It changes neither collection. *)
Theorem get_user_serves_any_authenticated_user :
  forall (rt : runtime) (user_id : string) (current_user : User.t) (w : world),
    let r := get_user rt user_id current_user w in
    (forall other : User.t, get_user rt user_id other w = r)
    /\ ((forall d : doc, d ∈ db_users w -> d !! "id" ≠ Some (VStr user_id)) ->
        outcome r = Raise (HTTPException 404 "User not found"))
    /\ (forall u : User.t,
          outcome r = Ok u ->
          User.id u = user_id
          /\ exists d : doc,
               d ∈ db_users w
               /\ d !! "id" = Some (VStr user_id)
               /\ d !! "username" = Some (VStr (User.username u))
               /\ d !! "role" = Some (VStr (UserRole_value (User.role u))))
    /\ db_users (final r) = db_users w
    /\ db_settings (final r) = db_settings w.
Proof.
  intros rt user_id current_user w r. subst r.
  split_and!.
  - intros other. by rewrite !get_user_eq.
  - intros Hall. rewrite get_user_eq. cbv zeta.
    by rewrite (proj2 (find_singleton_None "id" (VStr user_id) _ ltac:(done)) Hall).
  - intros u. rewrite get_user_eq. cbv zeta.
    destruct (List.find _ (db_users w)) as [d|] eqn:Hf; [|discriminate].
    cbn [outcome fst]. intros Hload.
    destruct (find_singleton_VStr _ _ _ _ Hf) as [Hin Hd].
    destruct (load_User_fields _ _ _ Hload) as (Hu & Hr & _ & Hi).
    rewrite project_lookup in Hu, Hr, Hi. simpl in Hu, Hr, Hi.
    rewrite Hd in Hi. simpl in Hi.
    split; [congruence|]. by exists d.
  - rewrite get_user_eq. cbv zeta. by destruct (List.find _ (db_users w)).
  - rewrite get_user_eq. cbv zeta. by destruct (List.find _ (db_users w)).
Qed.

End Reading.

(** ** Updates are not checked against the other users *)

Section Collisions.
Context `{Auth} `{Library}.

(** X16. The uniqueness of usernames that [register] maintains is not
    maintained by [update_user]: a permitted update whose payload, of field
    names that can be encoded and without [_id], carries the username of
    another stored user is written as it is, and leaves two stored users
    with one username. *)
Theorem update_user_can_duplicate_username :
  forall (rt : runtime) (user_id : string) (updates : doc) (u : User.t)
         (w : world) (l1 l2 : list doc) (d other : doc) (name : value),
    User.id u = user_id \/ User.role u = ADMIN ->
    sets_fields updates = true ->
    encodes updates = true ->
    updates !! "_id" = None ->
    db_users w = (l1 ++ d :: l2)%list ->
    Forall (fun x : doc => x !! "id" ≠ Some (VStr user_id)) l1 ->
    d !! "id" = Some (VStr user_id) ->
    other ∈ (l1 ++ l2)%list ->
    other !! "username" = Some name ->
    updates !! "username" = Some name ->
    ~ NoDup (stored_field "username" (final (update_user rt user_id updates u w))).
Proof.
  intros rt user_id updates u w l1 l2 d other name Hperm Hfields Henc Hno Hl Hl1 Hd
    Hin Ho Hup.
  rewrite (update_user_written _ _ _ _ _ _ _ _ Hperm Hfields Henc Hno Hl Hl1 Hd).
  cbv zeta. set (set := stamped rt updates).
  assert (Hd' : (set ∪ d) !! "username" = Some name).
  { apply lookup_union_Some_l. unfold set. rewrite stamped_lookup by done.
    by rewrite bool_decide_eq_false_2. }
  assert (Hdb : forall r : result User.t * world,
            db_users (snd r) = (l1 ++ (set ∪ d) :: l2)%list ->
            ~ NoDup (stored_field "username" (final r))).
  { intros r Hr. unfold stored_field, final. rewrite Hr, fmap_app, fmap_cons, Hd'.
    intros (_ & Hdis & [Hnot _]%NoDup_cons)%NoDup_app.
    apply elem_of_app in Hin as [Hin|Hin].
    - apply (Hdis (Some name)); [|left].
      apply list_elem_of_fmap. by exists other.
    - apply Hnot. apply list_elem_of_fmap. by exists other. }
  apply Hdb. by destruct (List.find _ _).
Qed.

End Collisions.

(** ** The [User] model *)

Section UserModel.
Context `{Library}.

(** X17. [User( **kw)] reads the eleven fields of the model and nothing
    else, as [extra="ignore"] says: two dictionaries that agree on these
    fields are validated alike. A user is read back from its own
    [model_dump()], when the email validator accepts the emails it returned;
    and so it is from the dump of a [UserInDB], whose [password_hash] the
    [User] model ignores. *)
Theorem User_model_round_trip :
  (forall (dflt : defaults) (kw kw' : doc),
     (forall k, k ∈ User_fields -> kw !! k = kw' !! k) ->
     User_validate dflt kw = User_validate dflt kw')
  /\ (forall (dflt : defaults) (u : User.t),
        validate_email (User.email u) = Some (User.email u) ->
        User_validate dflt (User_model_dump u) = Some u)
  /\ (forall (dflt : defaults) (u : User.t) (h : string),
        validate_email (User.email u) = Some (User.email u) ->
        User_validate dflt (UserInDB_model_dump (UserInDB.Build u h)) = Some u).
Proof.
  assert (Hignore : forall (dflt : defaults) (kw kw' : doc),
     (forall k, k ∈ User_fields -> kw !! k = kw' !! k) ->
     User_validate dflt kw = User_validate dflt kw').
  { intros dflt kw kw' Hagree. unfold User_validate, UserBase_validate.
    assert (Hk : forall k, bool_decide (k ∈ User_fields) = true -> kw !! k = kw' !! k)
      by (intros k Hk; apply Hagree; by apply bool_decide_eq_true in Hk).
    rewrite (Hk "username"), (Hk "email"), (Hk "name"), (Hk "role"), (Hk "phone"),
      (Hk "address"), (Hk "photo"), (Hk "is_active"), (Hk "id"), (Hk "created_at"),
      (Hk "updated_at") by reflexivity.
    reflexivity. }
  assert (Hdump : forall (dflt : defaults) (u : User.t),
        validate_email (User.email u) = Some (User.email u) ->
        User_validate dflt (User_model_dump u) = Some u).
  { intros dflt [b id c upd]. destruct b. unfold User.email. simpl. intros He.
    unfold User_validate, UserBase_validate.
    set (m := User_model_dump _).
    assert (m !! "username" = Some (VStr username)) as -> by reflexivity.
    assert (m !! "email" = Some (VStr email)) as -> by reflexivity.
    assert (m !! "name" = Some (VStr name)) as -> by reflexivity.
    assert (m !! "role" = Some (VStr (UserRole_value role))) as -> by reflexivity.
    assert (m !! "phone" = Some (optional_str_value phone)) as -> by reflexivity.
    assert (m !! "address" = Some (optional_str_value address)) as -> by reflexivity.
    assert (m !! "photo" = Some (optional_str_value photo)) as -> by reflexivity.
    assert (m !! "is_active" = Some (VBool is_active)) as -> by reflexivity.
    assert (m !! "id" = Some (VStr id)) as -> by reflexivity.
    assert (m !! "created_at" = Some (VDatetime c)) as -> by reflexivity.
    assert (m !! "updated_at" = Some (VDatetime upd)) as -> by reflexivity.
    rewrite !validate_optional_str_value. simpl.
    by rewrite He, UserRole_of_string_value. }
  split_and!; [exact Hignore | exact Hdump |].
  intros dflt u h He. rewrite <- (Hdump dflt u He). apply Hignore.
  intros k Hk. unfold UserInDB_model_dump. cbn [UserInDB.password_hash UserInDB.user].
  apply lookup_insert_ne. intros <-.
  unfold User_fields in Hk. by repeat (apply elem_of_cons in Hk as [Hk|Hk]; [done|]);
    apply elem_of_nil in Hk.
Qed.

End UserModel.

(** ** Listing the school years *)

Lemma result_mapM_Ok {A B} (f : A -> result B) (l : list A) (l' : list B) :
  result_mapM f l = Ok l' -> Forall2 (fun a b => f a = Ok b) l l'.
Proof.
  revert l'. induction l as [|a l IH]; intros l'; simpl.
  - intros [= <-]. constructor.
  - destruct (f a) as [b|e] eqn:Hfa; [|discriminate]. cbn [result_bind].
    destruct (result_mapM f l) as [bs|e]; [|discriminate]. cbn [result_bind].
    intros [= <-]. constructor; [done|]. by apply IH.
Qed.

Lemma result_mapM_Raise {A B} (f : A -> result B) (l : list A) (a : A) (e0 : exn) :
  (forall x e, f x = Raise e -> e = e0) ->
  a ∈ l -> f a = Raise e0 -> result_mapM f l = Raise e0.
Proof.
  intros Honly Hin Ha. induction l as [|x l IH]; [by apply elem_of_nil in Hin|].
  simpl. destruct (f x) as [b|e] eqn:Hfx.
  - cbn [result_bind]. apply elem_of_cons in Hin as [->|Hin]; [congruence|].
    by rewrite (IH Hin).
  - cbn [result_bind]. by rewrite (Honly x e Hfx).
Qed.

Section ListedYears.
Context `{Library}.

Lemma convert_timestamp_unreadable (k s : string) (d : doc) :
  d !! k = Some (VStr s) -> fromisoformat s = None ->
  convert_timestamp k d = Raise ValueError.
Proof.
  intros Hd Hs. unfold convert_timestamp, dict_get. rewrite Hd. simpl. by rewrite Hs.
Qed.

Lemma SchoolYear_validate_fields (fresh_id : string) (now : datetime) (kw : doc)
    (y : SchoolYear.t) :
  SchoolYear_validate fresh_id now kw = Some y ->
  kw !! "year" = Some (VStr (SchoolYearBase.year (SchoolYear.base y)))
  /\ from_option validate_bool (Some false) (kw !! "is_current")
     = Some (SchoolYear.is_current y).
Proof.
  unfold SchoolYear_validate. intros Hv. simplify_option_eq.
  repeat match goal with
         | H : validate_str ?v = Some _ |- _ => destruct v; try discriminate; injection H as <-
         end.
  done.
Qed.

(** X18. [get_school_years] lists the first hundred stored years in the
    order of the collection: the answer has one year for each of them, with
    the [year] of its document and the [is_current] flag read from it. The
    dates of all of them are converted before the first year is built, so one
    stored year with an unreadable [created_at], [start_date] or [end_date]
    makes the whole listing fail with [ValueError]. *)
Theorem get_school_years_lists_first_hundred :
  forall (rt : runtime) (current_user : User.t) (l : list doc),
    (forall years : list SchoolYear.t,
       get_school_years rt current_user l = Ok years ->
       length years = Nat.min 100 (length l)
       /\ Forall2 (fun (d : doc) y =>
                     d !! "year" = Some (VStr (SchoolYearBase.year (SchoolYear.base y)))
                     /\ from_option validate_bool (Some false) (d !! "is_current")
                        = Some (SchoolYear.is_current y))
            (take 100 l) years)
    /\ (forall (d : doc) (k s : string),
          d ∈ take 100 l ->
          k ∈ ["created_at"; "start_date"; "end_date"] ->
          d !! k = Some (VStr s) ->
          fromisoformat s = None ->
          get_school_years rt current_user l = Raise ValueError).
Proof.
  intros rt current_user l. unfold get_school_years.
  set (conv := fun year : doc =>
         result_bind (convert_timestamp "created_at" year) (fun year =>
         result_bind (convert_timestamp "start_date" year)
           (convert_timestamp "end_date"))).
  assert (Hconv_other : forall (d c : doc) (k : string),
            conv d = Ok c -> k ≠ "created_at" -> k ≠ "start_date" -> k ≠ "end_date" ->
            c !! k = d !! k).
  { intros d c k Hc H1 H2 H3. unfold conv in Hc.
    destruct (convert_timestamp "created_at" d) as [d1|] eqn:E1; [|discriminate].
    cbn [result_bind] in Hc.
    destruct (convert_timestamp "start_date" d1) as [d2|] eqn:E2; [|discriminate].
    cbn [result_bind] in Hc.
    rewrite (convert_timestamp_other _ _ _ _ Hc H3).
    rewrite (convert_timestamp_other _ _ _ _ E2 H2).
    by rewrite (convert_timestamp_other _ _ _ _ E1 H1). }
  assert (Hconv_raise : forall (d : doc) (e : exn), conv d = Raise e -> e = ValueError).
  { intros d e. unfold conv.
    destruct (convert_timestamp "created_at" d) as [d1|] eqn:E1; cbn [result_bind];
      [|intros [= <-]; by eapply convert_timestamp_Raise].
    destruct (convert_timestamp "start_date" d1) as [d2|] eqn:E2; cbn [result_bind];
      [|intros [= <-]; by eapply convert_timestamp_Raise].
    apply convert_timestamp_Raise. }
  split.
  - intros years Hok.
    destruct (result_mapM conv (take 100 (project ["_id"] <$> l))) as [ys|] eqn:Hys;
      [|discriminate].
    cbn [result_bind] in Hok.
    apply result_mapM_Ok in Hys, Hok.
    assert (Hlen : length years = length (take 100 l)).
    { apply Forall2_length in Hys, Hok. rewrite length_imap in Hok.
      rewrite <- Hok, <- Hys, <- fmap_take. by rewrite length_fmap. }
    split; [by rewrite Hlen, length_take|].
    apply Forall2_same_length_lookup. split; [done|].
    intros i d y Hd Hy.
    destruct (Forall2_lookup_r _ _ _ _ _ Hok Hy) as ([j c] & Hjc & Hv).
    apply list_lookup_imap_Some in Hjc as (c' & Hc' & [= -> ->]).
    destruct (Forall2_lookup_r _ _ _ _ _ Hys Hc') as (p & Hp & Hcp).
    rewrite <- fmap_take, list_lookup_fmap, Hd in Hp. injection Hp as <-.
    simpl in Hv. unfold or_raise in Hv.
    destruct (SchoolYear_validate _ _ c') as [y'|] eqn:Hval; [|discriminate].
    injection Hv as ->.
    apply SchoolYear_validate_fields in Hval as [Hyear Hcur].
    rewrite (Hconv_other _ _ "year" Hcp) in Hyear by done.
    rewrite (Hconv_other _ _ "is_current" Hcp) in Hcur by done.
    rewrite lookup_delete_ne in Hyear, Hcur by done. done.
  - intros d k s Hin Hk Hd Hs.
    assert (Hraise : conv (project ["_id"] d) = Raise ValueError).
    { assert (Hp : forall k', k' ≠ "_id" -> project ["_id"] d !! k' = d !! k')
        by (intros k' Hk'; simpl; by rewrite lookup_delete_ne).
      unfold conv.
      destruct (convert_timestamp "created_at" (project ["_id"] d)) as [d1|e] eqn:E1;
        cbn [result_bind]; [|by rewrite (convert_timestamp_Raise _ _ _ E1)].
      destruct (decide (k = "created_at")) as [->|Hk1].
      { rewrite (convert_timestamp_unreadable "created_at" s) in E1;
          [discriminate | by rewrite Hp | done]. }
      destruct (convert_timestamp "start_date" d1) as [d2|e] eqn:E2;
        cbn [result_bind]; [|by rewrite (convert_timestamp_Raise _ _ _ E2)].
      destruct (decide (k = "start_date")) as [->|Hk2].
      { rewrite (convert_timestamp_unreadable "start_date" s) in E2;
          [discriminate | | done].
        by rewrite (convert_timestamp_other _ _ _ _ E1), Hp. }
      assert (k = "end_date") as ->.
      { repeat (apply elem_of_cons in Hk as [Hk|Hk]; [done|]). by apply elem_of_nil in Hk. }
      apply (convert_timestamp_unreadable "end_date" s); [|done].
      rewrite (convert_timestamp_other _ _ _ _ E2) by done.
      by rewrite (convert_timestamp_other _ _ _ _ E1), Hp. }
    rewrite (result_mapM_Raise conv _ (project ["_id"] d) ValueError Hconv_raise);
      [done | | done].
    rewrite <- fmap_take. apply list_elem_of_fmap. by exists d.
Qed.

End ListedYears.

(** * The further properties on the deployment *)

Lemma outcome_final {A} (r : result A * world) (a : result A) :
  outcome r = a -> r = (a, final r).
Proof. destruct r. by intros <-. Qed.

Section DeploymentRoutes.
#[local] Existing Instance Scenario.auth.
#[local] Existing Instance Scenario.library.
Import Scenario Campus.

Ltac evaluated := vm_compute; reflexivity.

Ltac decided := apply (bool_decide_eq_true_1 _); vm_compute; reflexivity.

Ltac none_stored := apply existsb_stored_false; vm_compute; reflexivity.

(** C1, as stated, fails. Alice's stored document has her username, a
    hash that verifies her password and a true active flag, and her login
    is not answered 200: the role her own update stored is no member of
    [UserRole], and [User( **user_doc)] raises. And with the string "no"
    stored as her active flag, which Python takes for true and the model
    reads as false, her login is answered 200 with a user that is not
    active. *)
Lemma login_leaves_the_flow :
  (stored_field "username" w_root = [Some (VStr "alice")]
   /\ stored_field "password_hash" w_root = [Some (VStr "hash:secret123")]
   /\ verify_password "secret123" "hash:secret123" = true
   /\ stored_field "is_active" w_root = [Some (VBool true)]
   /\ outcome (login rt (UserLogin.Build "alice" "secret123") w_root)
      = Raise ValidationError)
  /\ (stored_field "is_active" w_no = [Some (VStr "no")]
      /\ exists t,
           outcome (login rt (UserLogin.Build "alice" "secret123") w_no) = Ok t
           /\ User.is_active (Token.user t) = false).
Proof.
  split; split_and!; try by vm_compute.
  eexists. split; by vm_compute.
Qed.

(** C1, amended, on the deployment: an unknown user and a wrong password
    get the same 401, the inactive Carol gets 403 with her right password,
    and Alice gets her token; with a role outside [UserRole] her login
    raises after the token was created, and with an integer as her hash it
    raises at the verification. *)
Lemma login_on_deployment :
  outcome (login rt (UserLogin.Build "dave" "secret123") w_three)
  = Raise (HTTPException 401 "Incorrect username or password")
  /\ outcome (login rt (UserLogin.Build "alice" "wrong") w_three)
     = Raise (HTTPException 401 "Incorrect username or password")
  /\ outcome (login rt (UserLogin.Build "carol" "pw-carol") w_three)
     = Raise (HTTPException 403 "User account is inactive")
  /\ outcome (login rt (UserLogin.Build "alice" "secret123") w_three)
     = Ok (Token.Build (create_access_token {["sub" := VStr "alice"]}) "bearer"
             alice_user)
  /\ outcome (login rt (UserLogin.Build "alice" "secret123") w_root)
     = Raise ValidationError
  /\ outcome (login rt (UserLogin.Build "alice" "secret123") w_int) = Raise TypeError.
Proof.
  destruct (login_checks_credentials_then_active_then_issues rt
              (UserLogin.Build "dave" "secret123") w_three) as (Hunknown & _).
  destruct (login_checks_credentials_then_active_then_issues rt
              (UserLogin.Build "alice" "wrong") w_three) as (_ & Hwrong & _).
  destruct (login_checks_credentials_then_active_then_issues rt
              (UserLogin.Build "carol" "pw-carol") w_three) as (_ & Hinactive & _).
  destruct (login_checks_credentials_then_active_then_issues rt
              (UserLogin.Build "alice" "secret123") w_three) as (_ & Hactive & _).
  destruct (login_checks_credentials_then_active_then_issues rt
              (UserLogin.Build "alice" "secret123") w_root) as (_ & Hroot & _).
  destruct (login_checks_credentials_then_active_then_issues rt
              (UserLogin.Build "alice" "secret123") w_int) as (_ & Hinteger & _).
  destruct (Hwrong alice_doc) as (_ & _ & Hwrong' & _); [decided|].
  destruct (Hwrong' "hash:secret123") as (Hmismatch & _); [evaluated|].
  destruct (Hinactive carol_doc) as (_ & _ & Hinactive' & _); [decided|].
  destruct (Hinactive' "hash:pw-carol") as (_ & Hrefused & _); [evaluated|].
  destruct (Hactive alice_doc) as (_ & _ & _ & Hregistered); [decided|].
  destruct (Hroot root_doc) as (_ & _ & Hroot' & _); [decided|].
  destruct (Hroot' "hash:secret123") as (_ & _ & Hissued); [evaluated|].
  destruct Hissued as (_ & _ & Hrejected & _); [evaluated | evaluated |].
  destruct (Hinteger int_doc) as (_ & Hother & _); [decided|].
  split_and!.
  - apply Hunknown. none_stored.
  - apply Hmismatch. evaluated.
  - apply Hrefused; evaluated.
  - apply (Hregistered rt alice); [decided | evaluated | evaluated | evaluated].
  - apply (Hrejected
             (<["updated_at" := VDatetime (Datetime 1000000)]>
                (<["created_at" := VDatetime (Datetime 0)]> (project ["_id"] root_doc))));
      [decided | evaluated].
  - apply (Hother (VInt 5)); [evaluated | discriminate].
Defined.

(** X1 on the deployment: the teacher Alice asks to delete Bob. *)
Lemma alice_may_not_delete_bob :
  outcome (app rt (Some "token:alice") (DELETE_users_id "id-bob") w_three)
  = Raise (HTTPException 403 "Not enough permissions")
  /\ db_users (final (app rt (Some "token:alice") (DELETE_users_id "id-bob") w_three))
     = db_users w_three.
Proof.
  destruct (admin_routes_refuse_other_roles rt (Some "token:alice")
              (DELETE_users_id "id-bob") w_three
              (final (Depends_get_current_user rt (Some "token:alice") w_three))
              alice_user) as (Happ & Hu & _).
  - reflexivity.
  - apply outcome_final. evaluated.
  - discriminate.
  - rewrite Happ. split; [reflexivity | exact Hu].
Defined.

(** X2 on the deployment: nobody has the id "id-zed"; deleting Bob leaves
    Alice and Carol. *)
Lemma delete_bob_on_deployment :
  outcome (delete_user "id-zed" bob_user w_three)
  = Raise (HTTPException 404 "User not found")
  /\ outcome (delete_user "id-bob" bob_user w_three) = Ok "User deleted successfully"
  /\ exists l1 l2,
       db_users w_three = (l1 ++ bob_doc :: l2)%list
       /\ db_users (final (delete_user "id-bob" bob_user w_three)) = (l1 ++ l2)%list.
Proof.
  destruct (delete_user_removes_first_match "id-zed" bob_user w_three) as (Hnone & _).
  destruct (delete_user_removes_first_match "id-bob" bob_user w_three) as (_ & Hsome & _).
  destruct (Hsome bob_doc) as (Hok & l1 & l2 & Hl & Hl' & _); [decided|].
  split_and!.
  - apply Hnone. none_stored.
  - exact Hok.
  - exists l1, l2. split; assumption.
Defined.



(** X5 on the deployment: Alice changes her name; the key ["password"] of
    her payload is not stored. *)
Lemma alice_changes_her_name :
  exists d' : doc,
    db_users (final (update_user rt2 "id-alice"
                       {["name" := VStr "Alice B."; "password" := VStr "letmein"]}
                       alice_user w_three))
    = [d'; bob_doc; carol_doc]
    /\ d' !! "updated_at" = Some (VStr "1970-01-01T00:00:01+00:00")
    /\ d' !! "name" = Some (VStr "Alice B.")
    /\ d' !! "password" = alice_doc !! "password"
    /\ d' !! "role" = alice_doc !! "role".
Proof.
  destruct (update_user_sets_payload_and_stamp rt2 "id-alice"
              {["name" := VStr "Alice B."; "password" := VStr "letmein"]}
              alice_user w_three [] [bob_doc; carol_doc] alice_doc)
    as (d' & Hdb & Hstamp & Hset & Hkept & _);
    [left; reflexivity | evaluated | evaluated | evaluated | decided | constructor
    | evaluated |].
  exists d'. split_and!.
  - exact Hdb.
  - exact Hstamp.
  - apply Hset; [discriminate | discriminate | evaluated].
  - apply Hkept; [discriminate | by right].
  - apply Hkept; [discriminate | left; evaluated].
Defined.

(** X6 on the deployment: the admin Bob updates an id that nobody has,
    once with a name and once with an integer of 64 bits and one more. *)
Lemma bob_updates_unknown_user :
  outcome (update_user rt2 "id-zed" {["name" := VStr "Zed"]} bob_user w_three)
  = Raise (HTTPException 404 "User not found")
  /\ db_users (final (update_user rt2 "id-zed" {["name" := VStr "Zed"]} bob_user w_three))
     = db_users w_three
  /\ outcome (update_user rt2 "id-zed" {["age" := VInt (2 ^ 63)]} bob_user w_three)
     = Raise OverflowError.
Proof.
  destruct (update_user_unknown_id rt2 "id-zed" {["name" := VStr "Zed"]} bob_user w_three)
    as (Hout & _ & Hdb & _); [right; reflexivity | none_stored |].
  destruct (update_user_unknown_id rt2 "id-zed" {["age" := VInt (2 ^ 63)]} bob_user
              w_three)
    as (_ & Hbig & _); [right; reflexivity | none_stored |].
  split_and!.
  - apply Hout; evaluated.
  - exact Hdb.
  - apply Hbig; [evaluated|].
    exists "age", (2 ^ 63)%Z. split_and!; [discriminate | discriminate | evaluated | evaluated].
Defined.

(** X7 on the deployment: the response to Alice's change of name. *)
Lemma alice_reads_her_new_name :
  let u' :=
    User.Build (UserBase.Build "alice" "a@x.com" "Alice B." TEACHER None None None true)
      "id-alice" (Datetime 0) (Datetime 1000000) in
  outcome (update_user rt2 "id-alice" {["name" := VStr "Alice B."]} alice_user w_three)
  = Ok u'
  /\ User.id u' = "id-alice"
  /\ fromisoformat (isoformat (utcnow rt2 0)) = Some (User.updated_at u')
  /\ User.name u' = "Alice B.".
Proof.
  intros u'.
  assert (Hok : outcome (update_user rt2 "id-alice" {["name" := VStr "Alice B."]}
                           alice_user w_three) = Ok u') by evaluated.
  destruct (update_user_returns_updated_user rt2 "id-alice"
              {["name" := VStr "Alice B."]} alice_user w_three
              [] [bob_doc; carol_doc] alice_doc u')
    as (Hid & Hstamp & Hname & _);
    [left; reflexivity | decided | constructor | evaluated | evaluated | exact Hok |].
  split_and!; [exact Hok | exact Hid | exact Hstamp | apply Hname; evaluated].
Defined.


(** X9 on the deployment: after Bob registered beside Alice, and after a
    batch in which Alicia asks for Alice's email. *)
Lemma registrations_stay_distinct :
  (NoDup (stored_field "username" (final (register rt2 bob w_alice)))
   /\ NoDup (stored_field "email" (final (register rt2 bob w_alice))))
  /\ NoDup (stored_field "username"
              (run (registrations [(rt, alice); (rt2, alicia); (rt3, alice)]) empty))
  /\ NoDup (stored_field "email"
              (run (registrations [(rt, alice); (rt2, alicia); (rt3, alice)]) empty)).
Proof.
  destruct (@register_keeps_usernames_and_emails_distinct auth library) as [Hstep Hbatch].
  split.
  - apply Hstep; decided.
  - apply Hbatch. reflexivity.
Defined.

(** X10 on the deployment: Alice registers on an empty database and logs
    in. *)
Lemma alice_registers_then_logs_in :
  outcome (login rt2 (UserLogin.Build "alice" "secret123")
             (final (register rt alice empty)))
  = Ok (Token.Build (create_access_token {["sub" := VStr "alice"]}) "bearer" alice_user).
Proof.
  apply (register_then_login rt rt2 alice empty alice_user); evaluated.
Defined.

(** X11 on the deployment: the year 2025-2026, created as current after
    2024-2025, is the only current year. *)
Lemma second_year_is_the_current_one :
  current_years years_2025
  = [school_year_document "oid-2"
       (SchoolYear.Build year_2025 "id-bob" (Datetime 1000000))]
  /\ (length (current_years years_2024) <= 1 -> length (current_years years_2025) <= 1).
Proof.
  destruct (create_school_year_keeps_one_current rt2 year_2025 bob_user years_2024)
    as (_ & Hcurrent & _ & Hone & _).
  split; [apply Hcurrent; reflexivity | exact Hone].
Defined.

(** X12 on the deployment: no current year before the first is created,
    and the year 2024-2025 afterwards. *)
Lemma current_year_on_deployment :
  get_current_school_year rt3 alice_user []
  = Raise (HTTPException 404 "No current school year set")
  /\ get_current_school_year rt3 alice_user years_2024
     = Ok (fst (create_school_year rt year_2024 bob_user [])).
Proof.
  destruct (@get_current_school_year_after_create library) as [Hnone Hsome].
  split.
  - apply Hnone. reflexivity.
  - apply (Hsome rt rt3 year_2024 bob_user alice_user []); evaluated.
Defined.

(** X13 on the deployment: Ben asks for Ann's roll number in her class. *)
Lemma ben_cannot_take_the_roll_number_of_ann :
  fst (create_student rt2 ben bob_user students_ann)
  = Raise (HTTPException 400 "Roll number already exists in this class")
  /\ snd (create_student rt2 ben bob_user students_ann) = students_ann
  /\ fst (create_student rt3 ann bob_user [])
     = Ok (Student.Build ann "id-carol" (Datetime 0) (Datetime 0)).
Proof.
  destruct (create_student_keeps_roll_numbers_distinct rt2 ben bob_user students_ann)
    as (Hdup & _).
  destruct (create_student_keeps_roll_numbers_distinct rt3 ann bob_user [])
    as (_ & Hnew & _).
  destruct Hdup as [Hout Hdb]; [decided|].
  destruct Hnew as [Hok _]; [decided|].
  split_and!; assumption.
Defined.

(** X14 on the deployment: the token of Alice's login resolves to Alice. *)
Lemma token_of_alice_resolves_to_alice :
  outcome (get_current_user rt "token:alice"
             (final (login rt (UserLogin.Build "alice" "secret123") w_three)))
  = Ok alice_user
  /\ User.username alice_user = "alice".
Proof.
  apply (login_token_resolves_to_its_user rt (UserLogin.Build "alice" "secret123")
           w_three (Token.Build "token:alice" "bearer" alice_user)
           {["sub" := VStr "alice"]});
    [evaluated | decided | evaluated].
Defined.

(** X15 on the deployment: the teacher Alice and the student Carol read
    the admin Bob. *)
Lemma anyone_reads_bob :
  get_user rt "id-bob" carol_user w_three = get_user rt "id-bob" alice_user w_three
  /\ outcome (get_user rt "id-zed" alice_user w_three)
     = Raise (HTTPException 404 "User not found")
  /\ User.id bob_user = "id-bob".
Proof.
  destruct (get_user_serves_any_authenticated_user rt "id-bob" alice_user w_three)
    as (Hany & _ & Hfound & _).
  destruct (get_user_serves_any_authenticated_user rt "id-zed" alice_user w_three)
    as (_ & Hnone & _).
  split_and!.
  - apply Hany.
  - apply Hnone. none_stored.
  - apply (Hfound bob_user). evaluated.
Defined.

(** X16 on the deployment: Alice takes the username of Bob. *)
Lemma alice_takes_the_username_of_bob :
  ~ NoDup (stored_field "username"
             (final (update_user rt2 "id-alice" {["username" := VStr "bob"]}
                       alice_user w_three))).
Proof.
  apply (update_user_can_duplicate_username rt2 "id-alice" {["username" := VStr "bob"]}
           alice_user w_three [] [bob_doc; carol_doc] alice_doc bob_doc (VStr "bob"));
    [left; reflexivity | evaluated | evaluated | evaluated | decided | constructor
    | evaluated | decided | evaluated | evaluated].
Defined.

(** X17 on the deployment: Alice, read back from the dump that carries her
    hash. *)
Lemma alice_round_trip :
  User_validate (factories rt2 0 0)
    (UserInDB_model_dump (UserInDB.Build alice_user "hash:secret123"))
  = Some alice_user.
Proof.
  destruct (@User_model_round_trip library) as (_ & _ & Hdb).
  apply Hdb. evaluated.
Defined.

(** X18 on the deployment: the two years are listed; a third document with
    an unreadable start date breaks the listing. *)
Lemma school_years_on_deployment :
  let listed :=
    [SchoolYear.Build
       (SchoolYearBase.Build "2024-2025" (Datetime 0) (Datetime 1000000) false)
       "id-alice" (Datetime 0);
     SchoolYear.Build year_2025 "id-bob" (Datetime 1000000)] in
  get_school_years rt3 alice_user years_2025 = Ok listed
  /\ length listed = Nat.min 100 (length years_2025)
  /\ get_school_years rt3 alice_user (years_2025 ++ [broken_year])%list
     = Raise ValueError.
Proof.
  intros listed.
  assert (Hok : get_school_years rt3 alice_user years_2025 = Ok listed) by evaluated.
  destruct (get_school_years_lists_first_hundred rt3 alice_user years_2025)
    as (Hlisted & _).
  destruct (get_school_years_lists_first_hundred rt3 alice_user
              (years_2025 ++ [broken_year])%list) as (_ & Hbroken).
  split_and!.
  - exact Hok.
  - by apply Hlisted.
  - apply (Hbroken broken_year "start_date" "next autumn");
      [decided | decided | evaluated | evaluated].
Defined.

End DeploymentRoutes.
